(** * UNO-Python: the rules engine, the turn manager, the deck and the board

    A shallow embedding of the Python sources under [UNO/] and the
    properties of the design specification that concern them.

    Python objects are mutable and shared.  The embedding keeps one record,
    [Game], for the whole object graph reachable from a [Game] instance and
    threads it through every method in a state-and-exception monad; a
    raised exception keeps the mutations made before it, as in Python. *)

From Stdlib Require Import ZArith String Ascii Bool Lia.
From stdpp Require Import base option list strings pretty gmap.

Open Scope string_scope.
Open Scope list_scope.
Open Scope Z_scope.

(* ================================================================== *)
(** * The Python runtime: exceptions, results, indexing, formatting    *)
(* ================================================================== *)

(** The exception classes that the modelled code raises or names in an
    [except] clause.  The interpreter's message texts are not modelled. *)
Inductive exn : Set :=
  | IndexError
  | KeyError
  | ValueError
  | AttributeError
  | TypeError
  | ZeroDivisionError
  | RuntimeError
  | EOFError.

#[global] Instance exn_eq_dec : EqDecision exn.
Proof. solve_decision. Defined.

Inductive res (A : Type) : Type :=
  | Ok (a : A)
  | Raise (e : exn).
Arguments Ok {A} a.
Arguments Raise {A} e.

(** State and exceptions: [M S A] is a computation over a store [S] that
    returns an [A] or raises; the store survives a raise. *)
Definition M (S A : Type) : Type := S -> S * res A.

Definition ret {S A} (a : A) : M S A := fun s => (s, Ok a).
Definition raise {S A} (e : exn) : M S A := fun s => (s, Raise e).
Definition bind {S A B} (m : M S A) (k : A -> M S B) : M S B :=
  fun s => match m s with
           | (s', Ok a) => k a s'
           | (s', Raise e) => (s', Raise e)
           end.
Definition gets {S A} (f : S -> A) : M S A := fun s => (s, Ok (f s)).
Definition modify {S} (f : S -> S) : M S unit := fun s => (f s, Ok tt).
Definition lift_res {S A} (r : res A) : M S A := fun s => (s, r).

(** [try: m except <any of handled>: h e]. *)
Definition try_except {S A} (m : M S A) (handled : exn -> bool)
    (h : exn -> M S A) : M S A :=
  fun s => match m s with
           | (s', Ok a) => (s', Ok a)
           | (s', Raise e) => if handled e then h e s' else (s', Raise e)
           end.

Declare Scope py_scope.
Delimit Scope py_scope with py.
Notation "x <- m ;; k" := (bind m (fun x => k))
  (at level 100, m at next level, right associativity) : py_scope.
Notation "m ;; k" := (bind m (fun _ => k))
  (at level 100, right associativity) : py_scope.
Open Scope py_scope.

(** Pure, possibly raising expressions use [res] alone. *)
Definition res_bind {A B} (r : res A) (k : A -> res B) : res B :=
  match r with Ok a => k a | Raise e => Raise e end.
Notation "x <~ r ;; k" := (res_bind r (fun x => k))
  (at level 100, r at next level, right associativity) : py_scope.

(** A for loop over a list, with no [break]. *)
Fixpoint for_each {S A} (l : list A) (body : A -> M S unit) : M S unit :=
  match l with
  | [] => ret tt
  | x :: l' => body x ;; for_each l' body
  end.

(** [range(n)] as a number of iterations: none for [n <= 0]. *)
Definition range_len (n : Z) : nat := Z.to_nat n.

(** [l[i]] for a Python int [i]: negative indices count from the end.
    [py_pos] is the position the subscript denotes, [py_index] the entry. *)
Definition py_pos {A} (l : list A) (i : Z) : res nat :=
  let n := Z.of_nat (length l) in
  let j := if i <? 0 then i + n else i in
  if (0 <=? j) && (j <? n) then Ok (Z.to_nat j) else Raise IndexError.

Definition py_index {A} (l : list A) (i : Z) : res A :=
  pos <~ py_pos l i ;;
  match l !! pos with Some x => Ok x | None => Raise IndexError end.

(** [l.pop()] on a non-empty list: the rest and the last entry. *)
Fixpoint pop {A} (l : list A) : option (list A * A) :=
  match l with
  | [] => None
  | x :: l' =>
      match pop l' with
      | None => Some ([], x)
      | Some (r, y) => Some (x :: r, y)
      end
  end.

(** [a % n] on Python ints (floored, the sign of the divisor). *)
Definition py_mod (a n : Z) : res Z :=
  if n =? 0 then Raise ZeroDivisionError else Ok (a mod n).

(** [len(l)] *)
Definition len {A} (l : list A) : Z := Z.of_nat (length l).

(** [str(i)] for an int and the format specification [<w]. *)
Definition str_int (i : Z) : string := pretty i.

Fixpoint spaces (n : nat) : string :=
  match n with O => "" | S n' => String " "%char (spaces n') end.

Definition ljust (w : nat) (s : string) : string :=
  s +:+ spaces (w - String.length s).

Definition newline : string := String "010"%char "".

(** What [print] wrote: a text, or a text followed by the interpreter's
    rendering of an exception. *)
Inductive output : Type :=
  | Line (s : string)
  | LineExn (s : string) (e : exn).

(* ================================================================== *)
(** * game_constants.py                                                *)
(* ================================================================== *)

Inductive Color : Set := RED | YELLOW | GREEN | BLUE | COLORLESS.

Inductive CardType : Set :=
  | NUMBER | SKIP | DRAW_TWO | REVERSE | WILD | WILD_DRAW_FOUR
  | CUSTOM_CARD_X | CUSTOM_ACTION_CARD_Y | CUSTOM_WILD_CARD_Z.

Inductive GameEvent : Set :=
  | CARD_PLAYED | CARD_DRAWN | ADD_CARD_TO_DECK | ADD_CARD_TO_BOARD
  | REMOVE_CARD_FROM_DECK | PLAYER_TURN_CHANGED | TURN_ORDER_CHANGED
  | BOARD_CLEARED.

Inductive EffectCategory : Set := DRAW | COLOR_CHANGE | TURN | END_TURN.

#[global] Instance Color_eq_dec : EqDecision Color.
Proof. solve_decision. Defined.
#[global] Instance CardType_eq_dec : EqDecision CardType.
Proof. solve_decision. Defined.
#[global] Instance GameEvent_eq_dec : EqDecision GameEvent.
Proof. solve_decision. Defined.
#[global] Instance EffectCategory_eq_dec : EqDecision EffectCategory.
Proof. solve_decision. Defined.

(** The [.value] of the enumeration members. *)
Definition Color_value (c : Color) : string :=
  match c with
  | RED => "Red" | YELLOW => "Yellow" | GREEN => "Green" | BLUE => "Blue"
  | COLORLESS => "Colorless"
  end.

Definition CardType_value (t : CardType) : string :=
  match t with
  | NUMBER => "Number" | SKIP => "Skip" | DRAW_TWO => "Draw +2"
  | REVERSE => "Reverse" | WILD => "Wild" | WILD_DRAW_FOUR => "Wild Draw +4"
  | CUSTOM_CARD_X => "Custom X" | CUSTOM_ACTION_CARD_Y => "Custom Y"
  | CUSTOM_WILD_CARD_Z => "Custom Z"
  end.

(* ================================================================== *)
(** * The data model                                                   *)
(* ================================================================== *)

(** ** card.py: the card objects *)

(** The concrete subclasses of the abstract class [Card]. *)
Inductive CardClass : Set :=
  | NumberCard | SkipCard | DrawTwoCard | ReverseCard | WildCard
  | WildDrawFourCard.

#[global] Instance CardClass_eq_dec : EqDecision CardClass.
Proof. solve_decision. Defined.

(** A card object.  [Card] defines no [__eq__]: [==], [!=], [list.remove]
    compare object identity, which is the field [oid]; the other fields are
    the instance attributes ([_chosen_color] exists on the wild classes
    only and is [None] elsewhere). *)
Record Card : Set := mkCard {
  oid : nat;
  cls : CardClass;
  _color : Color;
  _card_value : option Z;
  _card_id : option Z;
  _effect_types : list EffectCategory;
  _chosen_color : option Color
}.

(** An entry of a Python list of cards: a card object or [None]. *)
Abbreviation slot := (option Card) (only parsing).

(** ** hand.py, player.py *)

Record Hand : Set := mkHand { _cards : list Card }.

Record Player : Set := mkPlayer {
  name : string;
  hand : Hand;
  player_id : Z;
  _is_human : option bool
}.

(** A reference to a player object: its position in the player list that
    [Game.players] and [TurnManager._players] share. *)
Abbreviation PlayerRef := nat (only parsing).

(** A reference to an observer object: its position in [observer_objs]. *)
Abbreviation ObserverRef := nat (only parsing).

(** ** turn_manager.py, board.py, deck.py: the attributes *)

Record TurnManager : Set := mkTurnManager {
  _players : list Player;
  _current : Z;
  _clockwise : bool;
  tm_observers : list ObserverRef
}.

Record Board : Set := mkBoard {
  _cards_on_board : list slot;
  board_observers : list ObserverRef
}.

Record Deck : Set := mkDeck {
  _card_deck : list slot;
  deck_observers : list ObserverRef
}.

(** ** game_config.py: the configuration classes *)

Record GameRules : Set := mkGameRules {
  FORCE_PLAY_IF_POSSIBLE : bool;
  ALLOW_MULTIPLE_DECKS : bool;
  STARTING_HAND_SIZE : Z;
  ALLOW_FINAL_SPECIAL_CARD : bool;
  DRAW_PENALTY : Z;
  TIMEOUT_SECONDS : Z;
  STACKABLE_DRAW_CARDS : bool;
  WILD_CARD_ALLOW_PICK_COLOR : bool;
  SKIP_TURN_ON_DRAW : bool
}.

(** [FREQUENCY_OF_NUMBER_CARDS] is a dict iterated with [.items()]: its
    pairs in insertion order. *)
Record DeckConfiguration : Set := mkDeckConfiguration {
  FREQUENCY_OF_NUMBER_CARDS : list (Z * Z);
  ACTION_CARDS_PER_COLOR : Z;
  WILD_CARDS_PER_TYPE : Z;
  DECK_COLORS : list Color;
  ACTION_CARDS : list CardType;
  WILD_CARDS : list CardType
}.

Definition GameRules_base : GameRules :=
  {| FORCE_PLAY_IF_POSSIBLE := true; ALLOW_MULTIPLE_DECKS := true;
     STARTING_HAND_SIZE := 7; ALLOW_FINAL_SPECIAL_CARD := true;
     DRAW_PENALTY := 1; TIMEOUT_SECONDS := 30; STACKABLE_DRAW_CARDS := true;
     WILD_CARD_ALLOW_PICK_COLOR := true; SKIP_TURN_ON_DRAW := false |}.

Definition StandardRules : GameRules := GameRules_base.

Definition HardcoreRules : GameRules :=
  {| FORCE_PLAY_IF_POSSIBLE := true; ALLOW_MULTIPLE_DECKS := true;
     STARTING_HAND_SIZE := 7; ALLOW_FINAL_SPECIAL_CARD := false;
     DRAW_PENALTY := 2; TIMEOUT_SECONDS := 20; STACKABLE_DRAW_CARDS := true;
     WILD_CARD_ALLOW_PICK_COLOR := true; SKIP_TURN_ON_DRAW := true |}.

Definition StandardDeck : DeckConfiguration :=
  {| FREQUENCY_OF_NUMBER_CARDS :=
       (0, 1) :: map (fun i => (i, 2)) [1; 2; 3; 4; 5; 6; 7; 8; 9];
     ACTION_CARDS_PER_COLOR := 2;
     WILD_CARDS_PER_TYPE := 4;
     DECK_COLORS := [RED; BLUE; GREEN; YELLOW];
     ACTION_CARDS := [SKIP; DRAW_TWO; REVERSE];
     WILD_CARDS := [WILD; WILD_DRAW_FOUR] |}.

(** ** game_observer.py: the observer's snapshots and the event payloads *)

(** The dict [{'card_type': .., 'card_data': {'color': .., 'card_type': ..,
    'card_value': ..}}] that the observer stores for a card. *)
Record CardData : Set := mkCardData {
  cd_card_type : string;
  cd_color : string;
  cd_card_value : option Z
}.

#[global] Instance CardData_eq_dec : EqDecision CardData.
Proof. solve_decision. Defined.

(** The values that travel in an event's [data] dict. *)
Inductive PyObj : Set :=
  | ObjNone
  | ObjCard (c : Card)
  | ObjPlayer (p : Player)
  | ObjCards (l : list slot)
  | ObjBool (b : bool)
  | ObjTimestamp
  | ObjBoundMethod.

Definition obj_of_slot (s : slot) : PyObj :=
  match s with Some c => ObjCard c | None => ObjNone end.

(** An event's [data]: a dict with string keys. *)
Abbreviation EventData := (list (string * PyObj)) (only parsing).

(** [_board_snapshot] starts as a dict (its key ['board_cards'] absent or
    bound to a list) and is replaced wholesale by
    [_update_board_after_clearing]. *)
Inductive BoardSnapshot : Set :=
  | SnapDict (board_cards : option (list CardData))
  | SnapObj (o : PyObj).

Record GameContext : Type := mkGameContext {
  _topcard_snapshot : option CardData;
  _hand_per_player_snapshot : gmap string (list CardData);
  _deck_snapshot : option (list CardData);
  _board_snapshot : BoardSnapshot
}.

(** ** game.py: the object graph of one game *)

Record Game : Type := mkGame {
  game_active : bool;
  rules : GameRules;
  deck_config : DeckConfiguration;
  tm : TurnManager;
  deck : Deck;
  board : Board;
  game_observers : list ObserverRef;      (* Game.__observers *)
  observer_objs : list GameContext;       (* the observer objects *)
  next_card_id : Z;                       (* CardFactory.next_card_id *)
  next_oid : nat;                         (* the next fresh object identity *)
  random_tape : list nat;                 (* what [random] yields next *)
  stdout : list output                    (* what [print] wrote, oldest first *)
}.

(** Attribute assignment on the [Game] graph. *)
Definition set_game_active (b : bool) (g : Game) : Game :=
  mkGame b (rules g) (deck_config g) (tm g) (deck g) (board g)
    (game_observers g) (observer_objs g) (next_card_id g) (next_oid g)
    (random_tape g) (stdout g).
Definition set_tm (t : TurnManager) (g : Game) : Game :=
  mkGame (game_active g) (rules g) (deck_config g) t (deck g) (board g)
    (game_observers g) (observer_objs g) (next_card_id g) (next_oid g)
    (random_tape g) (stdout g).
Definition set_deck (d : Deck) (g : Game) : Game :=
  mkGame (game_active g) (rules g) (deck_config g) (tm g) d (board g)
    (game_observers g) (observer_objs g) (next_card_id g) (next_oid g)
    (random_tape g) (stdout g).
Definition set_board (b : Board) (g : Game) : Game :=
  mkGame (game_active g) (rules g) (deck_config g) (tm g) (deck g) b
    (game_observers g) (observer_objs g) (next_card_id g) (next_oid g)
    (random_tape g) (stdout g).
Definition set_observer_objs (o : list GameContext) (g : Game) : Game :=
  mkGame (game_active g) (rules g) (deck_config g) (tm g) (deck g) (board g)
    (game_observers g) o (next_card_id g) (next_oid g)
    (random_tape g) (stdout g).
Definition set_next_card_id (i : Z) (g : Game) : Game :=
  mkGame (game_active g) (rules g) (deck_config g) (tm g) (deck g) (board g)
    (game_observers g) (observer_objs g) i (next_oid g)
    (random_tape g) (stdout g).
Definition set_next_oid (i : nat) (g : Game) : Game :=
  mkGame (game_active g) (rules g) (deck_config g) (tm g) (deck g) (board g)
    (game_observers g) (observer_objs g) (next_card_id g) i
    (random_tape g) (stdout g).
Definition set_random_tape (t : list nat) (g : Game) : Game :=
  mkGame (game_active g) (rules g) (deck_config g) (tm g) (deck g) (board g)
    (game_observers g) (observer_objs g) (next_card_id g) (next_oid g)
    t (stdout g).
Definition set_stdout (o : list output) (g : Game) : Game :=
  mkGame (game_active g) (rules g) (deck_config g) (tm g) (deck g) (board g)
    (game_observers g) (observer_objs g) (next_card_id g) (next_oid g)
    (random_tape g) o.

Definition set_cards_on_board (l : list slot) (b : Board) : Board :=
  mkBoard l (board_observers b).
Definition set_card_deck (l : list slot) (d : Deck) : Deck :=
  mkDeck l (deck_observers d).
Definition set_current (i : Z) (t : TurnManager) : TurnManager :=
  mkTurnManager (_players t) i (_clockwise t) (tm_observers t).
Definition set_clockwise (b : bool) (t : TurnManager) : TurnManager :=
  mkTurnManager (_players t) (_current t) b (tm_observers t).
Definition set_players (l : list Player) (t : TurnManager) : TurnManager :=
  mkTurnManager l (_current t) (_clockwise t) (tm_observers t).
Definition set_hand (h : Hand) (p : Player) : Player :=
  mkPlayer (name p) h (player_id p) (_is_human p).

(** [print(..)] *)
Definition print (s : string) : M Game unit :=
  modify (fun g => set_stdout (stdout g ++ [Line s]) g).
Definition print_exn (s : string) (e : exn) : M Game unit :=
  modify (fun g => set_stdout (stdout g ++ [LineExn s e]) g).

(** A method that only reads. *)
Definition reads {S A} (f : S -> res A) : M S A := fun s => (s, f s).

(* ================================================================== *)
(** * card.py: the properties of the card classes                      *)
(* ================================================================== *)

(** Every subclass returns its own constant from [card_type]. *)
Definition card_type (self : Card) : CardType :=
  match cls self with
  | NumberCard => NUMBER
  | SkipCard => SKIP
  | DrawTwoCard => DRAW_TWO
  | ReverseCard => REVERSE
  | WildCard => WILD
  | WildDrawFourCard => WILD_DRAW_FOUR
  end.

Definition color (self : Card) : Color := _color self.
Definition card_value (self : Card) : option Z := _card_value self.
Definition card_id (self : Card) : option Z := _card_id self.
Definition effect_types (self : Card) : list EffectCategory :=
  _effect_types self.

(** The wild classes return [self._chosen_color if self._chosen_color else
    Color.COLORLESS] (an enumeration member is truthy); the others return
    [self._color]. *)
Definition effective_color (self : Card) : Color :=
  match cls self with
  | WildCard | WildDrawFourCard =>
      match _chosen_color self with
      | Some c => c
      | None => COLORLESS
      end
  | _ => _color self
  end.

(** [self.__class__.__name__] *)
Definition class_name (self : Card) : string :=
  match cls self with
  | NumberCard => "NumberCard"
  | SkipCard => "SkipCard"
  | DrawTwoCard => "DrawTwoCard"
  | ReverseCard => "ReverseCard"
  | WildCard => "WildCard"
  | WildDrawFourCard => "WildDrawFourCard"
  end.

(** The constructors: what each [__init__] assigns. *)
Definition NumberCard_init (o : nat) (color : Color) (card_value : option Z)
    (card_id : option Z) : Card :=
  mkCard o NumberCard color card_value card_id [] None.
Definition SkipCard_init (o : nat) (color : Color) (card_id : option Z)
    : Card :=
  mkCard o SkipCard color None card_id [TURN] None.
Definition DrawTwoCard_init (o : nat) (color : Color) (card_id : option Z)
    : Card :=
  mkCard o DrawTwoCard color None card_id [DRAW] None.
Definition ReverseCard_init (o : nat) (color : Color) (card_id : option Z)
    : Card :=
  mkCard o ReverseCard color None card_id [TURN] None.
Definition WildCard_init (o : nat) (card_id : option Z) : Card :=
  mkCard o WildCard COLORLESS None card_id [COLOR_CHANGE] None.
Definition WildDrawFourCard_init (o : nat) (card_id : option Z) : Card :=
  mkCard o WildDrawFourCard COLORLESS None card_id [DRAW; COLOR_CHANGE] None.

(** [Card.__str__].  Formatting [None] with a non-empty format
    specification raises [TypeError]. *)
Definition Card_str (self : Card) : res string :=
  match _card_id self with
  | None => Raise TypeError
  | Some id =>
      Ok ("Card: " +:+ ljust 16 (class_name self) +:+ "| "
          +:+ "ID: " +:+ ljust 3 (str_int id) +:+ " | "
          +:+ "Color: " +:+ ljust 10 (Color_value (_color self)) +:+ " | "
          +:+ "Effective: " +:+ ljust 10 (Color_value (effective_color self))
          +:+ " | "
          +:+ "Value: "
          +:+ ljust 4 (match _card_value self with
                       | Some v => str_int v
                       | None => "N/A"
                       end)
          +:+ " | "
          +:+ "Type: " +:+ CardType_value (card_type self))
  end.

(** [a == b] on list entries: identity of card objects, [None == None]. *)
Definition slot_eqb (a b : slot) : bool :=
  match a, b with
  | None, None => true
  | Some x, Some y => Nat.eqb (oid x) (oid y)
  | _, _ => false
  end.

(** Truthiness of a list entry: a card object is truthy, [None] is not. *)
Definition truthy (s : slot) : bool :=
  match s with Some _ => true | None => false end.

(* ================================================================== *)
(** * hand.py, player.py                                               *)
(* ================================================================== *)

Module Hand.

Definition add_card (card : Card) (self : Hand) : Hand :=
  mkHand (_cards self ++ [card]).

(** The lines [f"{index}: {card}"] of [show_hand], from [index] on. *)
Fixpoint lines_from (index : Z) (cards : list Card) : res (list string) :=
  match cards with
  | [] => Ok []
  | card :: rest =>
      s <~ Card_str card ;;
      ls <~ lines_from (index + 1) rest ;;
      Ok ((str_int index +:+ ": " +:+ s) :: ls)
  end.

Definition show_hand (self : Hand) : res string :=
  match _cards self with
  | [] => Ok "Hand is empty"
  | _ =>
      lines <~ lines_from 0 (_cards self) ;;
      Ok (String.concat newline lines)
  end.

Definition get_hand (self : Hand) : list Card := _cards self.

(** [list.remove]: the first entry that is the same object;
    [ValueError] when there is none. *)
Fixpoint remove_first (card : Card) (l : list Card) : res (list Card) :=
  match l with
  | [] => Raise ValueError
  | c :: l' =>
      if Nat.eqb (oid c) (oid card) then Ok l'
      else (r <~ remove_first card l' ;; Ok (c :: r))
  end.

Definition remove_card (card : Card) (self : Hand) : res Hand :=
  l <~ remove_first card (_cards self) ;; Ok (mkHand l).

(** The [except] clauses of [select_card], in order. *)
Definition select_error_text (e : exn) : string :=
  match e with
  | IndexError => "Not a valid index number, try again. Error: "
  | ValueError => "Not a valid value provided, try again. Error: "
  | _ => "A generic error occured, try again. Error: "
  end.

(** [select_card] with the int its caller passes: [int(user_input)] is
    that int, the subscript may raise, and every exception is caught. *)
Definition select_card (self : Hand) (user_input : Z)
    : M Game (option Card) :=
  try_except
    (card <- lift_res (py_index (_cards self) user_input) ;; ret (Some card))
    (fun _ => true)
    (fun e => print_exn (select_error_text e) e ;; ret None).

End Hand.

(** The object a player reference denotes.  A Python reference always
    denotes an object; the model reads a position outside the player list
    as [RuntimeError], which no modelled method raises otherwise. *)
Definition deref (g : Game) (r : PlayerRef) : res Player :=
  match _players (tm g) !! r with
  | Some p => Ok p
  | None => Raise RuntimeError
  end.

Module Player.

(** [self.hand.add_card(card)] on the player object [self]; a position
    outside the player list denotes no object and nothing changes. *)
Definition draw_card (self : PlayerRef) (card : Card) : M Game unit :=
  modify (fun g =>
    set_tm (set_players
              (alter (fun p => set_hand (Hand.add_card card (hand p)) p)
                     self (_players (tm g)))
              (tm g)) g).

Definition is_human_controlled (p : Player) : res bool :=
  match _is_human p with
  | Some b => Ok b
  | None => Raise RuntimeError
  end.

End Player.

(* ================================================================== *)
(** * game_observer.py: GameContext                                    *)
(* ================================================================== *)

(** [data[key]] *)
Fixpoint dict_get (data : EventData) (key : string) : res PyObj :=
  match data with
  | [] => Raise KeyError
  | (k, v) :: rest => if String.eqb k key then Ok v else dict_get rest key
  end.

Module GameContext.

Definition set_topcard (x : option CardData) (s : GameContext) :=
  mkGameContext x (_hand_per_player_snapshot s) (_deck_snapshot s)
    (_board_snapshot s).
Definition set_hands (x : gmap string (list CardData)) (s : GameContext) :=
  mkGameContext (_topcard_snapshot s) x (_deck_snapshot s)
    (_board_snapshot s).
Definition set_deck_snapshot (x : option (list CardData)) (s : GameContext) :=
  mkGameContext (_topcard_snapshot s) (_hand_per_player_snapshot s) x
    (_board_snapshot s).
Definition set_board_snapshot (x : BoardSnapshot) (s : GameContext) :=
  mkGameContext (_topcard_snapshot s) (_hand_per_player_snapshot s)
    (_deck_snapshot s) x.

(** The dict built from [card.card_type.value], [card.color.value] and
    [card.card_value]; an object without these attributes raises. *)
Definition card_data_of (card : PyObj) : res CardData :=
  match card with
  | ObjCard c =>
      Ok (mkCardData (CardType_value (card_type c)) (Color_value (color c))
            (card_value c))
  | _ => Raise AttributeError
  end.

(** [list.remove(x)] by [==] on the stored dicts. *)
Fixpoint remove_data (x : CardData) (l : list CardData)
    : res (list CardData) :=
  match l with
  | [] => Raise ValueError
  | y :: l' =>
      if decide (y = x) then Ok l'
      else (r <~ remove_data x l' ;; Ok (y :: r))
  end.

Definition _update_deck_remove_card (card : PyObj) : M GameContext unit :=
  card_data <- lift_res (card_data_of card) ;;
  snap <- gets _deck_snapshot ;;
  match snap with
  | None => raise KeyError
  | Some deck_cards =>
      l <- lift_res (remove_data card_data deck_cards) ;;
      modify (set_deck_snapshot (Some l))
  end.

Definition _update_deck_add_card (card : PyObj) : M GameContext unit :=
  card_data <- lift_res (card_data_of card) ;;
  modify (fun s => set_deck_snapshot
                     (Some (default [] (_deck_snapshot s) ++ [card_data])) s).

Definition _update_player_held_cards (card player : PyObj)
    (event : GameEvent) : M GameContext unit :=
  match player with
  | ObjPlayer p =>
      modify (fun s =>
        match _hand_per_player_snapshot s !! name p with
        | None => set_hands (<[name p := []]> (_hand_per_player_snapshot s)) s
        | Some _ => s
        end) ;;
      card_data <- lift_res (card_data_of card) ;;
      held <- gets (fun s =>
                default [] (_hand_per_player_snapshot s !! name p)) ;;
      (if decide (event = CARD_DRAWN)
       then modify (fun s => set_hands
              (<[name p := held ++ [card_data]]>
                 (_hand_per_player_snapshot s)) s)
       else ret tt) ;;
      (if decide (event = CARD_PLAYED)
       then held <- gets (fun s =>
                default [] (_hand_per_player_snapshot s !! name p)) ;;
            l <- lift_res (remove_data card_data held) ;;
            modify (fun s => set_hands
              (<[name p := l]> (_hand_per_player_snapshot s)) s)
       else ret tt)
  | _ => raise AttributeError
  end.

Definition _update_board_after_clearing (board : PyObj)
    : M GameContext unit :=
  modify (set_board_snapshot (SnapDict None)) ;;
  modify (set_board_snapshot (SnapObj board)).

(** On a snapshot that is no dict the membership test or the item
    assignment raises [TypeError]. *)
Definition _update_board_add_card (card : PyObj) : M GameContext unit :=
  card_data <- lift_res (card_data_of card) ;;
  snap <- gets _board_snapshot ;;
  match snap with
  | SnapDict cards =>
      modify (set_board_snapshot
                (SnapDict (Some (default [] cards ++ [card_data]))))
  | SnapObj _ => raise TypeError
  end.

Definition _update_top_card (card : PyObj) : M GameContext unit :=
  card_data <- lift_res (card_data_of card) ;;
  modify (set_topcard (Some card_data)).

Definition on_game_event (event : GameEvent) (data : EventData)
    : M GameContext unit :=
  match event with
  | CARD_DRAWN =>
      card <- lift_res (dict_get data "card") ;;
      player <- lift_res (dict_get data "player") ;;
      _update_player_held_cards card player event
  | CARD_PLAYED =>
      card <- lift_res (dict_get data "card") ;;
      player <- lift_res (dict_get data "player") ;;
      _update_player_held_cards card player event ;;
      card <- lift_res (dict_get data "card") ;;
      _update_deck_remove_card card
  | PLAYER_TURN_CHANGED => ret tt
  | TURN_ORDER_CHANGED => ret tt
  | ADD_CARD_TO_BOARD =>
      card <- lift_res (dict_get data "card") ;;
      _update_top_card card ;;
      card <- lift_res (dict_get data "card") ;;
      _update_board_add_card card
  | BOARD_CLEARED =>
      board <- lift_res (dict_get data "board") ;;
      _update_board_after_clearing board
  | ADD_CARD_TO_DECK =>
      card <- lift_res (dict_get data "card") ;;
      _update_deck_add_card card
  | REMOVE_CARD_FROM_DECK => ret tt
  end.

End GameContext.

(** [observer.on_game_event(event, data)] on the observer object [i]. *)
Definition call_observer (event : GameEvent) (data : EventData)
    (i : ObserverRef) : M Game unit :=
  fun g =>
    match observer_objs g !! i with
    | Some o =>
        let '(o', r) := GameContext.on_game_event event data o in
        (set_observer_objs (<[i := o']> (observer_objs g)) g, r)
    | None => (g, Ok tt)
    end.

(** The body shared by the four [notify_observers] methods. *)
Definition notify (observers : list ObserverRef) (event : GameEvent)
    (data : EventData) : M Game unit :=
  for_each observers (call_observer event data).

(* ================================================================== *)
(** * turn_manager.py                                                  *)
(* ================================================================== *)

Module TurnManager.

Definition notify_observers (event : GameEvent) (data : EventData)
    : M Game unit :=
  observers <- gets (fun g => tm_observers (tm g)) ;;
  notify observers event data.

(** The player objects are returned by reference. *)
Definition get_next_player (self : TurnManager) : res PlayerRef :=
  next_player <~
    (if _clockwise self
     then py_mod (_current self + 1) (len (_players self))
     else py_mod (_current self - 1) (len (_players self))) ;;
  py_pos (_players self) next_player.

Definition get_current_player (self : TurnManager) : res PlayerRef :=
  py_pos (_players self) (_current self).

Definition end_turn : M Game unit :=
  self <- gets tm ;;
  current <- lift_res
    (if _clockwise self
     then py_mod (_current self + 1) (len (_players self))
     else py_mod (_current self - 1) (len (_players self))) ;;
  modify (fun g => set_tm (set_current current (tm g)) g) ;;
  (* current_player = self.get_current_player: the bound method, not a call *)
  notify_observers PLAYER_TURN_CHANGED [("player", ObjBoundMethod)].

Definition reverse_play_order : M Game unit :=
  self <- gets tm ;;
  (if _clockwise self
   then modify (fun g => set_tm (set_clockwise false (tm g)) g)
   else modify (fun g => set_tm (set_clockwise true (tm g)) g)) ;;
  turn_order <- gets (fun g => _clockwise (tm g)) ;;
  notify_observers TURN_ORDER_CHANGED [("turn_order", ObjBool turn_order)].

Definition skip_turn : M Game unit := end_turn.

Definition subscribe (observer : ObserverRef) : M Game unit :=
  modify (fun g =>
    set_tm (mkTurnManager (_players (tm g)) (_current (tm g))
              (_clockwise (tm g)) (tm_observers (tm g) ++ [observer])) g).

End TurnManager.

(* ================================================================== *)
(** * board.py                                                         *)
(* ================================================================== *)

Module Board.

Definition notify_observers (event : GameEvent) (data : EventData)
    : M Game unit :=
  observers <- gets (fun g => board_observers (board g)) ;;
  notify observers event data.

Definition add_card_to_board (card : Card) : M Game unit :=
  modify (fun g =>
    set_board (set_cards_on_board (_cards_on_board (board g) ++ [Some card])
                 (board g)) g) ;;
  notify_observers ADD_CARD_TO_BOARD [("card", ObjCard card)].

Definition get_board (self : Board) : list slot := _cards_on_board self.

(** [try: return self._cards_on_board[-1] except IndexError: return None];
    the subscript raises nothing but [IndexError]. *)
Definition show_top_card_on_board (self : Board) : slot :=
  match py_index (_cards_on_board self) (-1) with
  | Ok card => card
  | Raise _ => None
  end.

Definition clear_all_except_last : M Game (list slot) :=
  last_card <- gets (fun g => show_top_card_on_board (board g)) ;;
  cards_to_recycle <- gets (fun g =>
    List.filter (fun card => negb (slot_eqb card last_card))
           (_cards_on_board (board g))) ;;
  modify (fun g => set_board (set_cards_on_board [last_card] (board g)) g) ;;
  cards <- gets (fun g => _cards_on_board (board g)) ;;
  notify_observers BOARD_CLEARED [("board_cards", ObjCards cards)] ;;
  ret cards_to_recycle.

Definition subscribe (observer : ObserverRef) : M Game unit :=
  modify (fun g =>
    set_board (mkBoard (_cards_on_board (board g))
                 (board_observers (board g) ++ [observer])) g).

End Board.

(* ================================================================== *)
(** * The module random                                                *)
(* ================================================================== *)

(** Modelled from CPython's [random.shuffle]: for [i] from [len(x) - 1]
    down to [1], exchange [x[i]] with [x[j]] for a random [j] below
    [i + 1].  The generator is the tape [random_tape] of the values it will
    yield; an exhausted tape yields 0. *)
Module Random.

Definition randbelow (n : nat) : M Game nat :=
  fun g =>
    match random_tape g with
    | [] => (g, Ok 0%nat)
    | r :: t => (set_random_tape t g, Ok (r mod n)%nat)
    end.

(** [x[i], x[j] = x[j], x[i]] *)
Definition swap {A} (x : list A) (i j : nat) : list A :=
  match x !! i, x !! j with
  | Some a, Some b => <[j := a]> (<[i := b]> x)
  | _, _ => x
  end.

Fixpoint shuffle_from {A} (i : nat) (x : list A) : M Game (list A) :=
  match i with
  | O => ret x
  | S i' =>
      j <- randbelow (S i) ;;
      shuffle_from i' (swap x i j)
  end.

Definition shuffle {A} (x : list A) : M Game (list A) :=
  shuffle_from (length x - 1) x.

(** [randint(a, b)] is [randrange(a, b + 1)]: [a] plus a value below the
    width, [ValueError] on an empty range. *)
Definition randint (a b : Z) : M Game Z :=
  let width := b + 1 - a in
  if 0 <? width
  then r <- randbelow (Z.to_nat width) ;; ret (a + Z.of_nat r)
  else raise ValueError.

End Random.

(* ================================================================== *)
(** * deck.py                                                          *)
(* ================================================================== *)

Module Deck.

Definition notify_observers (event : GameEvent) (data : EventData)
    : M Game unit :=
  observers <- gets (fun g => deck_observers (deck g)) ;;
  notify observers event data.

Definition get_deck (self : Deck) : list slot := _card_deck self.

Definition add_card_to_deck (card : slot) : M Game unit :=
  modify (fun g =>
    set_deck (set_card_deck (_card_deck (deck g) ++ [card]) (deck g)) g) ;;
  notify_observers ADD_CARD_TO_DECK [("card", obj_of_slot card)].

Definition shuffle_deck : M Game unit :=
  cards <- gets (fun g => _card_deck (deck g)) ;;
  shuffled <- Random.shuffle cards ;;
  modify (fun g => set_deck (set_card_deck shuffled (deck g)) g).

Definition get_deck_length (self : Deck) : Z := len (_card_deck self).

Definition draw_card : M Game slot :=
  cards <- gets (fun g => _card_deck (deck g)) ;;
  match pop cards with
  | Some (rest, card) =>
      modify (fun g => set_deck (set_card_deck rest (deck g)) g) ;;
      notify_observers REMOVE_CARD_FROM_DECK [("card", obj_of_slot card)] ;;
      ret card
  | None => ret None
  end.

Definition attempt_recycle_deck : M Game unit :=
  board_cards_to_recycle <- Board.clear_all_except_last ;;
  for_each board_cards_to_recycle add_card_to_deck.

Definition subscribe (observer : ObserverRef) : M Game unit :=
  modify (fun g =>
    set_deck (mkDeck (_card_deck (deck g))
                (deck_observers (deck g) ++ [observer])) g).

End Deck.

(* ================================================================== *)
(** * card.py: the effect contract                                     *)
(* ================================================================== *)

Module Card.

(** [len(game_context.tm.get_current_player().hand.show_hand()) == 1]:
    the length of the string that [show_hand] returns. *)
Definition _validate_last_card_allowed (game_context : Game) (self : Card)
    : res bool :=
  if negb (ALLOW_FINAL_SPECIAL_CARD (rules game_context)) then
    current <~ TurnManager.get_current_player (tm game_context) ;;
    player <~ deref game_context current ;;
    shown <~ Hand.show_hand (hand player) ;;
    if Z.of_nat (String.length shown) =? 1 then Ok false else Ok true
  else Ok true.

End Card.

Module NumberCard.
Definition can_execute_effect (game_context : Game) (self : Card)
    : res bool := Ok true.
Definition execute_effect (self : Card) : M Game unit := ret tt.
End NumberCard.

Module SkipCard.
Definition can_execute_effect (game_context : Game) (self : Card)
    : res bool :=
  match Board.show_top_card_on_board (board game_context) with
  | None => Ok true
  | Some top_card =>
      allowed <~ Card._validate_last_card_allowed game_context self ;;
      if negb allowed then Ok false else Ok true
  end.

Definition execute_effect (self : Card) : M Game unit :=
  TurnManager.skip_turn ;;
  print "* Next player skipped! *".
End SkipCard.

Module DrawTwoCard.
Definition can_execute_effect (game_context : Game) (self : Card)
    : res bool :=
  match Board.show_top_card_on_board (board game_context) with
  | None => Ok true
  | Some top_card =>
      allowed <~ Card._validate_last_card_allowed game_context self ;;
      if negb allowed then Ok false
      else if negb (STACKABLE_DRAW_CARDS (rules game_context))
              && bool_decide (DRAW ∈ _effect_types top_card)
      then Ok false
      else Ok true
  end.
End DrawTwoCard.

Module ReverseCard.
Definition can_execute_effect (game_context : Game) (self : Card)
    : res bool :=
  match Board.show_top_card_on_board (board game_context) with
  | None => Ok true
  | Some top_card =>
      allowed <~ Card._validate_last_card_allowed game_context self ;;
      if negb allowed then Ok false else Ok true
  end.

Definition execute_effect (self : Card) : M Game unit :=
  TurnManager.reverse_play_order ;;
  print "* Direction of play reversed! *".
End ReverseCard.

Module WildCard.
Definition can_execute_effect (game_context : Game) (self : Card)
    : res bool :=
  match Board.show_top_card_on_board (board game_context) with
  | None => Ok true
  | Some top_card =>
      allowed <~ Card._validate_last_card_allowed game_context self ;;
      if negb allowed then Ok false else Ok true
  end.
End WildCard.

Module WildDrawFourCard.
Definition can_execute_effect (game_context : Game) (self : Card)
    : res bool :=
  match Board.show_top_card_on_board (board game_context) with
  | None => Ok true
  | Some top_card =>
      allowed <~ Card._validate_last_card_allowed game_context self ;;
      if negb allowed then Ok false
      else if negb (STACKABLE_DRAW_CARDS (rules game_context))
              && bool_decide (DRAW ∈ effect_types top_card)
      then Ok false
      else Ok true
  end.
End WildDrawFourCard.

(** [card.can_execute_effect(game_context)]: dispatch on the class. *)
Definition can_execute_effect (game_context : Game) (card : Card) : res bool :=
  match cls card with
  | NumberCard => NumberCard.can_execute_effect game_context card
  | SkipCard => SkipCard.can_execute_effect game_context card
  | DrawTwoCard => DrawTwoCard.can_execute_effect game_context card
  | ReverseCard => ReverseCard.can_execute_effect game_context card
  | WildCard => WildCard.can_execute_effect game_context card
  | WildDrawFourCard => WildDrawFourCard.can_execute_effect game_context card
  end.

(* ================================================================== *)
(** * card_factory.py, deck_builder.py                                 *)
(* ================================================================== *)

Module CardFactory.

Definition __generate_card_id : M Game Z :=
  card_id <- gets next_card_id ;;
  modify (fun g => set_next_card_id (next_card_id g + 1) g) ;;
  ret card_id.

(** The identity of a newly allocated object. *)
Definition fresh_oid : M Game nat :=
  o <- gets next_oid ;;
  modify (fun g => set_next_oid (S (next_oid g)) g) ;;
  ret o.

Definition create_card (color : option Color) (card_type : CardType)
    (card_value : option Z) : M Game Card :=
  card_id <- __generate_card_id ;;
  match card_type with
  | NUMBER =>
      match card_value, color with
      | Some _, Some c =>
          o <- fresh_oid ;; ret (NumberCard_init o c card_value (Some card_id))
      | _, _ => raise ValueError
      end
  | SKIP =>
      match color with
      | None => raise ValueError
      | Some c => o <- fresh_oid ;; ret (SkipCard_init o c (Some card_id))
      end
  | DRAW_TWO =>
      match color with
      | None => raise ValueError
      | Some c => o <- fresh_oid ;; ret (DrawTwoCard_init o c (Some card_id))
      end
  | REVERSE =>
      match color with
      | None => raise ValueError
      | Some c => o <- fresh_oid ;; ret (ReverseCard_init o c (Some card_id))
      end
  | WILD => o <- fresh_oid ;; ret (WildCard_init o (Some card_id))
  | WILD_DRAW_FOUR =>
      o <- fresh_oid ;; ret (WildDrawFourCard_init o (Some card_id))
  | _ => raise ValueError
  end.

End CardFactory.

(** [for _ in range(n): body] *)
Definition for_range {S} (n : Z) (body : M S unit) : M S unit :=
  for_each (seq 0 (range_len n)) (fun _ => body).

Module DeckBuilder.

(** The deck that is populated is the game's one [Deck] object. *)
Definition populate_deck (deck_config : DeckConfiguration) : M Game unit :=
  for_each (DECK_COLORS deck_config) (fun color =>
    for_each (FREQUENCY_OF_NUMBER_CARDS deck_config) (fun item =>
      let '(card_value, frequency) := item in
      for_range frequency
        (card <- CardFactory.create_card (Some color) NUMBER
                   (Some card_value) ;;
         Deck.add_card_to_deck (Some card))) ;;
    for_each (ACTION_CARDS deck_config) (fun card_type =>
      for_range (ACTION_CARDS_PER_COLOR deck_config)
        (card <- CardFactory.create_card (Some color) card_type None ;;
         Deck.add_card_to_deck (Some card)))) ;;
  for_each (WILD_CARDS deck_config) (fun card_type =>
    for_range (WILD_CARDS_PER_TYPE deck_config)
      (card <- CardFactory.create_card (Some COLORLESS) card_type None ;;
       Deck.add_card_to_deck (Some card))) ;;
  Deck.shuffle_deck.

End DeckBuilder.

(* ================================================================== *)
(** * game.py, game_engine.py                                          *)
(* ================================================================== *)

Module Game.

Definition stop_game : M Game unit := modify (set_game_active false).

Definition notify_observers (event : GameEvent) (data : EventData)
    : M Game unit :=
  observers <- gets game_observers ;;
  notify observers event data.

Definition subscribe (observer : ObserverRef) : M Game unit :=
  modify (fun g =>
    mkGame (game_active g) (rules g) (deck_config g) (tm g) (deck g)
      (board g) (game_observers g ++ [observer]) (observer_objs g)
      (next_card_id g) (next_oid g) (random_tape g) (stdout g)).

End Game.

(** [GameContext.__init__]: the snapshot of the players asks every player
    [is_human_controlled()]; the new observer object starts with empty
    dynamic snapshots and subscribes to the game, to its board and to its
    deck.  The static snapshots (rules, deck configuration, players) are
    never read again and are not kept. *)
Definition GameContext_init : M Game unit :=
  players <- gets (fun g => _players (tm g)) ;;
  for_each players (fun player =>
    _ <- lift_res (Player.is_human_controlled player) ;; ret tt) ;;
  i <- gets (fun g => length (observer_objs g)) ;;
  modify (fun g =>
    set_observer_objs
      (observer_objs g ++ [mkGameContext None ∅ None (SnapDict None)]) g) ;;
  Game.subscribe i ;;
  Board.subscribe i ;;
  Deck.subscribe i.





Module GameEngine.

(** The [except] clauses of [validate_play], in order. *)
Definition validation_error_text (e : exn) : string :=
  match e with
  | AttributeError => "Validation error: Incorect card attribute: "
  | ValueError => "Validation error: Invalid card value: "
  | _ => "Validation error: Unexpected general error: "
  end.

Definition validate_play (card_to_validate : Card) : M Game bool :=
  top <- gets (fun g => Board.show_top_card_on_board (board g)) ;;
  match top with
  | None => ret true
  | Some top_card_on_board =>
      try_except
        (by_color <-
           (if bool_decide (effective_color card_to_validate
                            = effective_color top_card_on_board)
            then reads (fun g => can_execute_effect g card_to_validate)
            else ret false) ;;
         if by_color then ret true
         else if bool_decide (card_type card_to_validate = NUMBER)
                 && bool_decide (card_value card_to_validate
                                 = card_value top_card_on_board)
         then ret true
         else
           in_wild <- gets (fun g =>
             bool_decide (card_type card_to_validate
                          ∈ WILD_CARDS (deck_config g))) ;;
           by_wild <-
             (if in_wild
              then reads (fun g => can_execute_effect g card_to_validate)
              else ret false) ;;
           if by_wild then ret true else ret false)
        (fun _ => true)
        (fun e => print_exn (validation_error_text e) e ;; ret false)
  end.

Definition _handle_empty_deck_scenario : M Game slot :=
  (* Strategy 1: Try deck recycling *)
  n <- gets (fun g => Deck.get_deck_length (deck g)) ;;
  (if n =? 0 then Deck.attempt_recycle_deck else ret tt) ;;
  returned <-
    try_except (card <- Deck.draw_card ;; ret (Some card))
      (fun e => bool_decide (e = IndexError))
      (fun _ => ret None) ;;
  match returned with
  | Some card => ret card
  | None =>
      (* Strategy 2: Check multiple deck rule *)
      allow <- gets (fun g => ALLOW_MULTIPLE_DECKS (rules g)) ;;
      if allow then
        print "Adding another deck of cards.." ;;
        try_except
          (config <- gets deck_config ;;
           DeckBuilder.populate_deck config ;;
           print "New deck added.." ;;
           Deck.draw_card)
          (fun e => bool_decide (e = IndexError))
          (fun _ => print "Failed to create deck/grab a card.." ;; ret None)
      else
        (print "No cards are available to draw.." ;; ret None)
  end.

(** The loop of [player_draw_card]: [n] iterations remain. *)
Fixpoint draw_loop (player : PlayerRef) (amount : Z) (n : nat)
    (cards_drawn : Z) (no_draw_error : bool) : M Game unit :=
  match n with
  | O => ret tt
  | S n' =>
      card <- Deck.draw_card ;;
      card <- (if negb (truthy card) then _handle_empty_deck_scenario
               else ret card) ;;
      match card with
      | Some c =>
          Player.draw_card player c ;;
          let cards_drawn := cards_drawn + 1 in
          (if cards_drawn =? amount then
             active <- gets game_active ;;
             if no_draw_error && active then
               p <- reads (fun g => deref g player) ;;
               print ("* " +:+ name p +:+ " took " +:+ str_int cards_drawn
                      +:+ " card(s)! *")
             else ret tt
           else ret tt) ;;
          p <- reads (fun g => deref g player) ;;
          Game.notify_observers CARD_DRAWN
            [("card", ObjCard c); ("player", ObjPlayer p);
             ("timestamp", ObjTimestamp)] ;;
          draw_loop player amount n' cards_drawn no_draw_error
      | None =>
          if cards_drawn <? amount then
            p <- reads (fun g => deref g player) ;;
            print ("Warning: " +:+ name p +:+ " could only draw "
                   +:+ str_int cards_drawn +:+ " of " +:+ str_int amount
                   +:+ " requested cards")
          else draw_loop player amount n' cards_drawn no_draw_error
      end
  end.

Definition player_draw_card (player : PlayerRef) (amount : Z)
    : M Game unit :=
  draw_loop player amount (range_len amount) 0 true.


Definition check_win_condition (player : PlayerRef) : M Game unit :=
  p <- reads (fun g => deref g player) ;;
  let hand_size := len (Hand.get_hand (hand p)) in
  (if hand_size =? 1 then print (name p +:+ ": UNO!") else ret tt) ;;
  (if hand_size =? 0 then
     print (name p +:+ " wins! " +:+ newline +:+ " Closing the game..") ;;
     Game.stop_game
   else ret tt).

End GameEngine.

(* ================================================================== *)
(** * The specification's wording of two operations                    *)
(* ================================================================== *)

(** A predicate holds when it returns [True]; a raise is no [True]. *)
Definition holds (r : res bool) : bool :=
  match r with Ok true => true | _ => false end.

(** Section 4.2 of the specification: the legality of a play is decided by
    four rules tried in this order, and the first that matches wins. *)
Definition validate_play_spec (g : Game) (c : Card) : bool :=
  match Board.show_top_card_on_board (board g) with
  | None => true                                                  (* rule 1 *)
  | Some top =>
      if bool_decide (effective_color c = effective_color top)
         && holds (can_execute_effect g c)
      then true                                                   (* rule 2 *)
      else if bool_decide (card_type c = NUMBER)
              && bool_decide (card_value c = card_value top)
      then true                                                   (* rule 3 *)
      else if bool_decide (card_type c ∈ WILD_CARDS (deck_config g))
              && holds (can_execute_effect g c)
      then true                                                   (* rule 4 *)
      else false
  end.

(** Sections 4.2 and 4.4 of the specification: the recovery of an empty
    deck recycles the board, reshuffles the deck and retries the draw. *)
Definition recovery_with_reshuffle : M Game slot :=
  Deck.attempt_recycle_deck ;;
  Deck.shuffle_deck ;;
  Deck.draw_card.

(** One step of the turn order: [+1] clockwise, [-1] counter-clockwise. *)
Definition step (t : TurnManager) : Z := if _clockwise t then 1 else -1.


(* ================================================================== *)
(** * Scenarios                                                        *)
(* ================================================================== *)

(** A game object with two players and no observer subscribed. *)
Definition table (rules : GameRules) (hand0 hand1 : list Card)
    (deck_cards board_cards : list slot) : Game :=
  mkGame true rules StandardDeck
    (mkTurnManager
       [mkPlayer "Player 1" (mkHand hand0) 1 (Some true);
        mkPlayer "Danielle" (mkHand hand1) 2 (Some false)] 0 true [])
    (mkDeck deck_cards []) (mkBoard board_cards [])
    [] [] 108 108 [] [].

(** The scenario of section 8: the final special card is disallowed, the
    current player's hand is a single red Skip, a red Skip is on top. *)
Definition red_skip_on_top : Card := SkipCard_init 0 RED (Some 0).
Definition red_skip_in_hand : Card := SkipCard_init 1 RED (Some 1).
Definition no_final_special_card : GameRules :=
  mkGameRules true true 7 false 1 30 true true false.
Definition last_card_game : Game :=
  table no_final_special_card [red_skip_in_hand] [] [] [Some red_skip_on_top].

(** Number cards for the scenarios. *)
Definition red_5 : Card := NumberCard_init 10 RED (Some 5) (Some 10).
Definition blue_7 : Card := NumberCard_init 11 BLUE (Some 7) (Some 11).
Definition green_2 : Card := NumberCard_init 12 GREEN (Some 2) (Some 12).

(** An empty board; an empty deck under a board of three cards, with an
    observer as [Game.__init__] subscribes it and without. *)
Definition empty_board_game : Game := table StandardRules [] [] [] [].
Definition three_on_board : Game :=
  set_random_tape [0%nat]
    (table StandardRules [] [] [] [Some red_5; Some blue_7; Some green_2]).
Definition three_on_board_observed : Game :=
  fst (GameContext_init three_on_board).

(** An empty deck under a board of one card, multiple decks allowed. *)
Definition exhausted_game : Game := table StandardRules [] [] [] [Some red_5].
Definition exhausted_game_observed : Game :=
  fst (GameContext_init exhausted_game).

(** A deck of one card under a board of one card. *)
Definition short_deck_game : Game :=
  table StandardRules [] [] [Some red_5] [Some blue_7].


(** A deck of four cards, the green 2 on top, under an empty board. *)
Definition yellow_9 : Card := NumberCard_init 13 YELLOW (Some 9) (Some 13).
Definition four_in_deck : Game :=
  table StandardRules [] []
    [Some red_5; Some blue_7; Some yellow_9; Some green_2] [].


(* ================================================================== *)
(** * What a deal changes                                              *)
(* ================================================================== *)

(** The game [g] with other players, deck entries, observer states and
    printed text: the parts of the object graph a draw may touch. *)
Definition upd (players : list Player) (cards : list slot)
    (objs : list GameContext) (out : list output) (g : Game) : Game :=
  mkGame (game_active g) (rules g) (deck_config g)
    (mkTurnManager players (_current (tm g)) (_clockwise (tm g))
       (tm_observers (tm g)))
    (mkDeck cards (deck_observers (deck g))) (board g) (game_observers g)
    objs (next_card_id g) (next_oid g) (random_tape g) out.

(** The player list after the player object [r] took [cards], in order. *)
Definition give (r : PlayerRef) (cards : list Card) (players : list Player)
    : list Player :=
  alter (fun p => set_hand (mkHand (_cards (hand p) ++ cards)) p) r players.

(** The player list after each listed player took [n] cards from [dealt],
    the first listed player the first [n], and so on. *)
Fixpoint deal_hands (refs : list PlayerRef) (n : nat) (dealt : list Card)
    (players : list Player) : list Player :=
  match refs with
  | [] => players
  | r :: refs' =>
      deal_hands refs' n (drop n dealt) (give r (take n dealt) players)
  end.

(** The cards in the hand of the player object [r]. *)
Definition hand_of (g : Game) (r : PlayerRef) : option (list Card) :=
  p ← _players (tm g) !! r; Some (_cards (hand p)).

(* ================================================================== *)
(** * collections.Counter                                              *)
(* ================================================================== *)

(** Modelled from CPython's [collections.Counter]: the counts of the
    elements, in order of first occurrence, and [most_common(1)], which is
    [max] over the items by count and so the first item of greatest
    count (no item for an empty counter). *)
Module Counter.

Fixpoint add {A} `{EqDecision A} (x : A) (items : list (A * nat))
    : list (A * nat) :=
  match items with
  | [] => [(x, 1%nat)]
  | (y, n) :: rest =>
      if decide (x = y) then (y, S n) :: rest else (y, n) :: add x rest
  end.

Definition of_list {A} `{EqDecision A} (l : list A) : list (A * nat) :=
  fold_left (fun items x => add x items) l [].

Fixpoint max_from {A} (best : A * nat) (items : list (A * nat)) : A * nat :=
  match items with
  | [] => best
  | item :: rest =>
      if (snd best <? snd item)%nat then max_from item rest
      else max_from best rest
  end.

Definition most_common_1 {A} (items : list (A * nat)) : list (A * nat) :=
  match items with
  | [] => []
  | item :: rest => [max_from item rest]
  end.

(** [sum(counter.values())] *)
Definition values_sum {A} (items : list (A * nat)) : Z :=
  fold_right (fun item total => Z.of_nat (snd item) + total) 0 items.

End Counter.

(* ================================================================== *)
(** * basic_ai.py                                                      *)
(* ================================================================== *)

Module AI.

Definition auto_select_color (game_context : Game) : res Color :=
  current <~ TurnManager.get_current_player (tm game_context) ;;
  current_player <~ deref game_context current ;;
  let hand := Hand.get_hand (hand current_player) in
  let hand_colors :=
    List.filter (fun c => negb (bool_decide (c = COLORLESS)))
      (map color hand) in
  match hand_colors with
  | [] => Ok RED
  | _ =>
      item <~ py_index (Counter.most_common_1 (Counter.of_list hand_colors)) 0 ;;
      Ok (fst item)
  end.

(** [[card for card in hand if validate_play(card)]] *)
Fixpoint filter_valid (hand : list Card) : M Game (list Card) :=
  match hand with
  | [] => ret []
  | card :: rest =>
      legal <- GameEngine.validate_play card ;;
      playable <- filter_valid rest ;;
      ret (if legal then card :: playable else playable)
  end.

Definition get_playable_cards : M Game (option (list Card)) :=
  player <- reads (fun g =>
    current <~ TurnManager.get_current_player (tm g) ;; deref g current) ;;
  let hand := Hand.get_hand (hand player) in
  playable_cards <- filter_valid hand ;;
  match playable_cards with
  | [] => ret None
  | _ => ret (Some playable_cards)
  end.

(** [l[randint(0, len(l) - 1)]] *)
Definition choose (l : list Card) : M Game Card :=
  random_int <- Random.randint 0 (len l - 1) ;;
  lift_res (py_index l random_int).

Definition pick_card (playable_cards : list Card) : M Game Card :=
  let cards := playable_cards in
  topcard <- gets (fun g => Board.show_top_card_on_board (board g)) ;;
  (* Bully Strategy *)
  stacked <-
    match topcard with
    | Some topcard =>
        if bool_decide (DRAW ∈ effect_types topcard) then
          try_except
            (let stackable_draw_cards_list :=
               List.filter (fun card => bool_decide (DRAW ∈ effect_types card))
                 cards in
             card <- choose stackable_draw_cards_list ;; ret (Some card))
            (fun e => bool_decide (e = ValueError))
            (fun _ => ret None)
        else ret None
    | None => ret None
    end ;;
  match stacked with
  | Some card => ret card
  | None =>
      (* Prevent Final Draw Strategy *)
      allow <- gets (fun g => ALLOW_FINAL_SPECIAL_CARD (rules g)) ;;
      prevented <-
        (if negb allow then
           let card_type_count := Counter.of_list (map card_type cards) in
           let number_cards :=
             List.filter (fun card => bool_decide (card_type card = NUMBER))
               cards in
           if (len number_cards =? 1)
              && (Counter.values_sum card_type_count =? 2)
           then
             let non_number_cards :=
               List.filter
                 (fun card => negb (bool_decide (card_type card = NUMBER)))
                 cards in
             match non_number_cards with
             | [] => ret None
             | _ => card <- choose non_number_cards ;; ret (Some card)
             end
           else ret None
         else ret None) ;;
      match prevented with
      | Some card => ret card
      | None =>
          (* MAIN Strategy *)
          let color_count := Counter.of_list (map color cards) in
          item <- lift_res (py_index (Counter.most_common_1 color_count) 0) ;;
          let most_common_color := fst item in
          let most_common_cards :=
            List.filter
              (fun card => bool_decide (color card = most_common_color))
              cards in
          match most_common_cards with
          | [] => choose cards
          | _ => choose most_common_cards
          end
      end
  end.

End AI.

(* ================================================================== *)
(** * utils.py                                                         *)
(* ================================================================== *)

(** What [input(..)] yields: a line, given by what [int(line)] makes of
    it (that int, or [None] for the [ValueError] of a line that is no
    int), or the end of the input, at which [input] raises [EOFError]. *)
Inductive Input : Set :=
  | InputLine (as_int : option Z)
  | InputEOF.

Module UserInput.

(** [[color for color in Color if color != Color.COLORLESS]] *)
Definition selectable_colors : list Color := [RED; YELLOW; GREEN; BLUE].

(** [get_color_selection], given what [input] yields.  The [except]
    clause names [ValueError] and [IndexError]; the [EOFError] of [input]
    is not caught.  The prompt of [input] is not [print]ed text. *)
Definition get_color_selection (typed : Input) : M Game Color :=
  print "Choose color:" ;;
  for_each (imap (fun i c => (Z.of_nat i + 1, c)) selectable_colors)
    (fun item => print ("[" +:+ str_int (fst item) +:+ "] "
                        +:+ Color_value (snd item))) ;;
  try_except
    (match typed with
     | InputEOF => raise EOFError
     | InputLine None => raise ValueError
     | InputLine (Some number) =>
         let choice := number - 1 in
         if (0 <=? choice) && (choice <? len selectable_colors)
         then lift_res (py_index selectable_colors choice)
         else lift_res (py_index selectable_colors 0)
     end)
    (fun e => bool_decide (e = ValueError) || bool_decide (e = IndexError))
    (fun _ => lift_res (py_index selectable_colors 0)).

End UserInput.

(* ================================================================== *)
(** * card.py: the effects that draw or choose a color                 *)
(* ================================================================== *)

(** The card object with [_chosen_color] assigned. *)
Definition with_chosen_color (color : Color) (c : Card) : Card :=
  mkCard (oid c) (cls c) (_color c) (_card_value c) (_card_id c)
    (_effect_types c) (Some color).

(** An assignment to an attribute of the card object [self] shows wherever
    the object is held: on the board, in the deck, in the hands. *)
Definition update_card (self : Card) (f : Card -> Card) (g : Game) : Game :=
  let upd_card (c : Card) := if Nat.eqb (oid c) (oid self) then f c else c in
  let upd_slot (s : slot) := option_map upd_card s in
  set_tm (set_players
            (map (fun p => set_hand (mkHand (map upd_card (_cards (hand p)))) p)
                 (_players (tm g)))
            (tm g))
    (set_deck (set_card_deck (map upd_slot (_card_deck (deck g))) (deck g))
       (set_board
          (set_cards_on_board (map upd_slot (_cards_on_board (board g)))
             (board g)) g)).

(** [execute_effect] returns nothing; the model hands back the state of
    the card object [self] after the effect. *)
Module WildCard_effect.

Definition set_chosen_color (self : Card) (color : Color) : M Game Card :=
  modify (update_card self (with_chosen_color color)) ;;
  ret (with_chosen_color color self).

(** The color choice shared by the two wild classes; [typed] is what
    [input] yields when a human player is asked. *)
Definition execute_effect (typed : Input) (self : Card)
    : M Game Card :=
  allow <- gets (fun g => WILD_CARD_ALLOW_PICK_COLOR (rules g)) ;;
  if allow then
    current_player <- reads (fun g =>
      current <~ TurnManager.get_current_player (tm g) ;; deref g current) ;;
    human <- lift_res (Player.is_human_controlled current_player) ;;
    selected_color <-
      (if negb human then reads AI.auto_select_color
       else UserInput.get_color_selection typed) ;;
    self' <- set_chosen_color self selected_color ;;
    print ("-> " +:+ name current_player +:+ " changed the color to: "
           +:+ Color_value selected_color) ;;
    ret self'
  else ret self.

End WildCard_effect.

Module DrawTwoCard_effect.

Definition execute_effect (self : Card) : M Game Card :=
  next_player <- reads (fun g => TurnManager.get_next_player (tm g)) ;;
  GameEngine.player_draw_card next_player 2 ;;
  skip <- gets (fun g => SKIP_TURN_ON_DRAW (rules g)) ;;
  (if skip then print "* and loses their turn! *" ;; TurnManager.skip_turn
   else ret tt) ;;
  ret self.

End DrawTwoCard_effect.

Module WildDrawFourCard_effect.

Definition execute_effect (typed : Input) (self : Card)
    : M Game Card :=
  self' <- WildCard_effect.execute_effect typed self ;;
  next_player <- reads (fun g => TurnManager.get_next_player (tm g)) ;;
  GameEngine.player_draw_card next_player 4 ;;
  skip <- gets (fun g => SKIP_TURN_ON_DRAW (rules g)) ;;
  (if skip then print "* and loses their turn! *" ;; TurnManager.skip_turn
   else ret tt) ;;
  ret self'.

End WildDrawFourCard_effect.

(** [card.execute_effect(game_context)]: dispatch on the class. *)
Definition execute_effect (typed : Input) (card : Card)
    : M Game Card :=
  match cls card with
  | NumberCard => NumberCard.execute_effect card ;; ret card
  | SkipCard => SkipCard.execute_effect card ;; ret card
  | DrawTwoCard => DrawTwoCard_effect.execute_effect card
  | ReverseCard => ReverseCard.execute_effect card ;; ret card
  | WildCard => WildCard_effect.execute_effect typed card
  | WildDrawFourCard => WildDrawFourCard_effect.execute_effect typed card
  end.

(* ================================================================== *)
(** * game_engine.py: execute_card_play; game.py: the AI turn          *)
(* ================================================================== *)

(** [current_player.hand.remove_card(card)] on the player object. *)
Definition Player_remove_card (player : PlayerRef) (card : Card)
    : M Game unit :=
  p <- reads (fun g => deref g player) ;;
  h <- lift_res (Hand.remove_card card (hand p)) ;;
  modify (fun g =>
    set_tm (set_players (<[player := set_hand h p]> (_players (tm g)))
              (tm g)) g).

Definition execute_card_play (typed : Input) (player : PlayerRef)
    (card : Card) : M Game unit :=
  Board.add_card_to_board card ;;
  current_player <- reads (fun g => deref g player) ;;
  let color_display := Color_value (effective_color card) in
  print ("--> " +:+ name current_player +:+ " successfully played a "
         +:+ color_display
         +:+ (match card_value card with
              | Some v => " " +:+ str_int v
              | None => ""
              end)
         +:+ " " +:+ CardType_value (card_type card)) ;;
  card <- execute_effect typed card ;;
  Player_remove_card player card ;;
  current_player <- reads (fun g => deref g player) ;;
  Game.notify_observers CARD_PLAYED
    [("card", ObjCard card); ("player", ObjPlayer current_player);
     ("timestamp", ObjTimestamp)].

(** [_handle_ai_turn]: [randrange(1, 3)] consults the random source; the
    pause itself is not modelled. *)
Definition Game_handle_ai_turn (typed : Input) (player : PlayerRef)
    : M Game unit :=
  Random.randint 1 2 ;;
  playable_cards <- AI.get_playable_cards ;;
  match playable_cards with
  | None => GameEngine.player_draw_card player 1
  | Some playable_cards =>
      selected_card <- AI.pick_card playable_cards ;;
      execute_card_play typed player selected_card
  end.

(** [Game.__init__]: the attributes as first assigned, for a process whose
    card factory, allocator, random source and output stand as given. *)
Definition Game_new (player_names : list Player) (rules : GameRules)
    (deck_config : DeckConfiguration) (card_id0 : Z) (oid0 : nat)
    (tape : list nat) (out : list output) : Game :=
  mkGame false rules deck_config (mkTurnManager player_names 0 true [])
    (mkDeck [] []) (mkBoard [] []) [] [] card_id0 oid0 tape out.


(* ================================================================== *)
(** * game_config.py: the validation passes                            *)
(* ================================================================== *)

(** [str(card_type)] *)
Definition CardType_str (t : CardType) : string :=
  "CardType." +:+
  match t with
  | NUMBER => "NUMBER" | SKIP => "SKIP" | DRAW_TWO => "DRAW_TWO"
  | REVERSE => "REVERSE" | WILD => "WILD"
  | WILD_DRAW_FOUR => "WILD_DRAW_FOUR" | CUSTOM_CARD_X => "CUSTOM_CARD_X"
  | CUSTOM_ACTION_CARD_Y => "CUSTOM_ACTION_CARD_Y"
  | CUSTOM_WILD_CARD_Z => "CUSTOM_WILD_CARD_Z"
  end.

(** [validate_rules] on a rule class.  No rule class defines the lowercase
    attribute [allow_multiple_decks], which the second test reads once
    [FORCE_PLAY_IF_POSSIBLE is False] holds. *)
Definition validate_rules (ruleset : GameRules) : res (list string) :=
  let issues := [] in
  let issues :=
    if 10 <? STARTING_HAND_SIZE ruleset
    then issues ++ ["Starting hand size may be too large"] else issues in
  issues <~
    (if negb (FORCE_PLAY_IF_POSSIBLE ruleset)
     then Raise AttributeError
     else Ok issues) ;;
  let issues :=
    if DRAW_PENALTY ruleset <? 0
    then issues ++ ["Draw penalty cannot be negative"] else issues in
  Ok issues.

(** [validate_deckconfig] on a configuration whose attributes have the
    annotated types, so that every [hasattr] and [isinstance] test holds. *)
Definition validate_deckconfig (decktemplate : DeckConfiguration)
    : list string :=
  flat_map (fun item =>
      let '(card_value, frequency) := item in
      (if negb (0 <=? card_value)
       then ["Invalid card value: " +:+ str_int card_value
             +:+ ". Must be positive integer"]
       else [])
      ++ (if frequency <? 0
          then ["Invalid frequency " +:+ str_int frequency +:+ " for card "
                +:+ str_int card_value +:+ ". Must be non-negative integer"]
          else []))
    (FREQUENCY_OF_NUMBER_CARDS decktemplate)
  ++ (if ACTION_CARDS_PER_COLOR decktemplate <? 0
      then ["ACTION_CARDS_PER_COLOR must be non-negative integer, got: "
            +:+ str_int (ACTION_CARDS_PER_COLOR decktemplate)]
      else [])
  ++ (if WILD_CARDS_PER_TYPE decktemplate <? 0
      then ["WILD_CARDS_PER_TYPE must be non-negative integer, got: "
            +:+ str_int (WILD_CARDS_PER_TYPE decktemplate)]
      else [])
  ++ (if len (DECK_COLORS decktemplate) =? 0
      then ["DECK_COLORS must be non-empty list"]
      else [])
  ++ flat_map (fun card_type =>
         if bool_decide (card_type ∈ [SKIP; DRAW_TWO; REVERSE]) then []
         else ["Invalid action card: " +:+ CardType_str card_type
               +:+ ". Must be SKIP, DRAW_TWO, or REVERSE"])
       (ACTION_CARDS decktemplate)
  ++ flat_map (fun card_type =>
         if bool_decide (card_type ∈ [WILD; WILD_DRAW_FOUR]) then []
         else ["Invalid wild card: " +:+ CardType_str card_type
               +:+ ". Must be WILD or WILD_DRAW_FOUR"])
       (WILD_CARDS decktemplate).

(* ================================================================== *)
(** * Building a deck: what a configuration asks for                   *)
(* ================================================================== *)

(** The arguments with which [create_card] returns a card. *)
Definition creatable (color : option Color) (card_type : CardType)
    (card_value : option Z) : bool :=
  match card_type with
  | NUMBER => bool_decide (is_Some card_value) && bool_decide (is_Some color)
  | SKIP | DRAW_TWO | REVERSE => bool_decide (is_Some color)
  | WILD | WILD_DRAW_FOUR => true
  | _ => false
  end.

(** The card types that [create_card] builds for a color and no value. *)
Definition buildable (card_type : CardType) : Prop :=
  card_type ∈ [SKIP; DRAW_TWO; REVERSE; WILD; WILD_DRAW_FOUR].

(** The iterations of the loops of [populate_deck] for one color, and for
    the whole configuration. *)
Definition cards_per_color (cfg : DeckConfiguration) : nat :=
  (sum_list_with (fun item : Z * Z => range_len item.2)
     (FREQUENCY_OF_NUMBER_CARDS cfg)
   + length (ACTION_CARDS cfg) * range_len (ACTION_CARDS_PER_COLOR cfg))%nat.

Definition configured_deck_size (cfg : DeckConfiguration) : nat :=
  (length (DECK_COLORS cfg) * cards_per_color cfg
   + length (WILD_CARDS cfg) * range_len (WILD_CARDS_PER_TYPE cfg))%nat.

(** [g'] is [g] after the cards [new] were created and added to the deck
    one after the other: ids and object identities are consecutive. *)
Definition built (g : Game) (new : list Card) (g' : Game) : Prop :=
  (exists objs,
     g' = set_observer_objs objs
            (set_next_oid (next_oid g + length new)
               (set_next_card_id (next_card_id g + Z.of_nat (length new))
                  (set_deck
                     (set_card_deck (_card_deck (deck g) ++ map Some new)
                        (deck g)) g))))
  /\ map _card_id new
     = map (fun i : nat => Some (next_card_id g + Z.of_nat i))
         (seq 0 (length new))
  /\ map oid new = seq (next_oid g) (length new).

#[global] Instance buildable_dec (card_type : CardType)
  : Decision (buildable card_type).
Proof. unfold buildable. apply _. Defined.

(** The sum of the configured frequencies. *)
Definition frequency_sum (items : list (Z * Z)) : Z :=
  foldr (fun item acc => item.2 + acc) 0 items.

(* ================================================================== *)
(** * Counting, for the statements about [Counter]                     *)
(* ================================================================== *)

(** How often [x] occurs in [l]. *)
Definition occurrences {A} `{EqDecision A} (x : A) (l : list A) : nat :=
  length (List.filter (fun y => bool_decide (y = x)) l).

(** [counter[x]]: the count stored for [x], 0 for a missing key. *)
Fixpoint Counter_get {A} `{EqDecision A} (x : A) (items : list (A * nat))
    : nat :=
  match items with
  | [] => 0%nat
  | (y, n) :: rest => if decide (x = y) then n else Counter_get x rest
  end.

(* ================================================================== *)
(** * Scenarios for the AI and the card plays                          *)
(* ================================================================== *)

Definition blue_3 : Card := NumberCard_init 14 BLUE (Some 3) (Some 14).
Definition wild_20 : Card := WildCard_init 20 (Some 20).
Definition red_draw_two : Card := DrawTwoCard_init 21 RED (Some 21).
Definition blue_draw_two : Card := DrawTwoCard_init 22 BLUE (Some 22).

(** The first player holds a red 5, a blue 7, a wild card and a blue 3; a
    blue 7 of another deck lies on the board. *)
Definition mixed_hand : list Card := [red_5; blue_7; wild_20; blue_3].
Definition mixed_hand_game : Game :=
  table StandardRules mixed_hand [] [Some green_2; Some yellow_9]
    [Some (NumberCard_init 15 BLUE (Some 7) (Some 15))].

(** The same hand under a red Draw Two. *)
Definition draw_two_on_top : Game :=
  table StandardRules (blue_draw_two :: mixed_hand) [] [] [Some red_draw_two].

(** It is the turn of the AI player, who holds a red 5 under a blue 7. *)
Definition stuck_ai_game : Game :=
  let g := table StandardRules [] [red_5] [Some green_2] [Some blue_7] in
  set_tm (set_current 1 (tm g)) g.

(* ================================================================== *)
(** * Reasoning about the monad and the observers                      *)
(* ================================================================== *)

Lemma bind_ok {S A B} (m : M S A) (k : A -> M S B) s s' a :
  m s = (s', Ok a) -> bind m k s = k a s'.
Proof. intros H. unfold bind. by rewrite H. Qed.

Lemma bind_raise {S A B} (m : M S A) (k : A -> M S B) s s' e :
  m s = (s', Raise e) -> bind m k s = (s', Raise e).
Proof. intros H. unfold bind. by rewrite H. Qed.

Lemma bind_gets {S A B} (f : S -> A) (k : A -> M S B) s :
  bind (gets f) k s = k (f s) s.
Proof. reflexivity. Qed.

Lemma bind_modify {S B} (f : S -> S) (k : unit -> M S B) s :
  bind (modify f) k s = k tt (f s).
Proof. reflexivity. Qed.

Lemma bind_ret {S A B} (a : A) (k : A -> M S B) s : bind (ret a) k s = k a s.
Proof. reflexivity. Qed.

Lemma bind_reads {S A B} (f : S -> res A) (k : A -> M S B) s a :
  f s = Ok a -> bind (reads f) k s = k a s.
Proof. intros H. unfold bind, reads. by rewrite H. Qed.

Lemma bind_lift_res {S A B} (r : res A) (k : A -> M S B) s a :
  r = Ok a -> bind (lift_res r) k s = k a s.
Proof. by intros ->. Qed.

Lemma bind_print {B} (text : string) (k : unit -> M Game B) g :
  bind (print text) k g = k tt (set_stdout (stdout g ++ [Line text]) g).
Proof. reflexivity. Qed.

Lemma bind_assoc {S A B C} (m : M S A) (k1 : A -> M S B) (k2 : B -> M S C) s :
  bind (bind m k1) k2 s = bind m (fun x => bind (k1 x) k2) s.
Proof. unfold bind. by destruct (m s) as [s' [a|e]]. Qed.

(** Run the next statement when it reads, assigns, returns or prints. *)
Ltac run_step :=
  first [ rewrite bind_assoc | rewrite bind_gets | rewrite bind_modify
        | rewrite bind_ret | rewrite bind_print ];
  cbv beta.
Ltac run := repeat run_step.

Lemma set_observer_objs_id g : set_observer_objs (observer_objs g) g = g.
Proof. by destruct g. Qed.

(** An event that the observer's handler ignores changes nothing. *)
Lemma call_observer_ignored event data i g :
  (forall o, GameContext.on_game_event event data o = (o, Ok tt)) ->
  call_observer event data i g = (g, Ok tt).
Proof.
  intros H. unfold call_observer.
  destruct (observer_objs g !! i) as [o|] eqn:E; [|done].
  rewrite H. by rewrite list_insert_id, set_observer_objs_id.
Qed.

Lemma notify_ignored observers event data g :
  (forall o, GameContext.on_game_event event data o = (o, Ok tt)) ->
  notify observers event data g = (g, Ok tt).
Proof.
  intros H. unfold notify.
  induction observers as [|i l IH]; [done|].
  cbn [for_each]. erewrite bind_ok; [|by apply call_observer_ignored].
  exact IH.
Qed.

(* ================================================================== *)
(** * The turn manager                                                 *)
(* ================================================================== *)

Lemma len_pos {A} (l : list A) : l <> [] -> 0 < len l.
Proof. destruct l; [done|]. intros _. unfold len. cbn [length]. lia. Qed.

Lemma py_mod_pos a n : 0 < n -> py_mod a n = Ok (a mod n).
Proof. intros H. unfold py_mod. destruct (Z.eqb_spec n 0); [lia|done]. Qed.

Lemma py_pos_in_range {A} (l : list A) i :
  0 <= i < len l -> py_pos l i = Ok (Z.to_nat i).
Proof.
  intros [H0 H1]. unfold py_pos, len in *.
  destruct (Z.ltb_spec i 0); [lia|].
  destruct (Z.leb_spec 0 i); [|lia].
  destruct (Z.ltb_spec i (Z.of_nat (length l))); [done|lia].
Qed.

(** One [end_turn] moves the index one step in the active direction,
    modulo the number of players, and touches nothing else. *)
Lemma end_turn_spec g :
  _players (tm g) <> [] ->
  TurnManager.end_turn g =
    (set_tm (set_current
               ((_current (tm g) + step (tm g)) mod len (_players (tm g)))
               (tm g)) g,
     Ok tt).
Proof.
  intros Hne. pose proof (len_pos _ Hne) as Hn.
  unfold TurnManager.end_turn.
  rewrite bind_gets.
  rewrite (bind_lift_res _ _ _
             ((_current (tm g) + step (tm g)) mod len (_players (tm g)))).
  2:{ unfold step. destruct (_clockwise (tm g)); by rewrite py_mod_pos. }
  rewrite bind_modify.
  unfold TurnManager.notify_observers. rewrite bind_gets.
  by rewrite notify_ignored.
Qed.

Lemma two_steps c s n :
  0 < n -> ((c + s) mod n + s) mod n = (c + 2 * s) mod n.
Proof.
  intros Hn. rewrite Z.add_mod_idemp_l by lia. f_equal. lia.
Qed.

(** C8: [skip_turn] is [end_turn]; with at least one player, the effect of
    a Skip card followed by the normal end of the turn moves the index of
    the current player by two steps modulo the number of players in the
    active direction, and leaves the direction (and everything but the
    printed notice) as it was. *)
Theorem skip_then_end_turn_advances_two (g : Game) (card : Card) :
  _players (tm g) <> [] ->
  TurnManager.skip_turn = TurnManager.end_turn /\
  (SkipCard.execute_effect card ;; TurnManager.end_turn) g =
    (set_stdout (stdout g ++ [Line "* Next player skipped! *"])
       (set_tm (set_current
                  ((_current (tm g) + 2 * step (tm g))
                     mod len (_players (tm g)))
                  (tm g)) g),
     Ok tt).
Proof.
  intros Hne. split; [reflexivity|].
  unfold SkipCard.execute_effect, TurnManager.skip_turn.
  erewrite bind_ok.
  2:{ erewrite bind_ok; [|by apply end_turn_spec]. reflexivity. }
  rewrite end_turn_spec by (by destruct g as [? ? ? []]).
  pose proof (len_pos _ Hne) as Hn.
  f_equal. destruct g as [? ? ? [pl cur cw ob] ? ? ? ? ? ? ? ?].
  cbn [tm _players _current _clockwise stdout set_tm set_current set_stdout
       game_active rules deck_config deck board game_observers observer_objs
       next_card_id next_oid random_tape tm_observers] in *.
  by rewrite two_steps.
Qed.

(** C8 at a table of three, counter-clockwise, from seat 0: seat 1. *)
Lemma skip_then_end_turn_advances_two_witness :
  let g := mkGame true StandardRules StandardDeck
             (mkTurnManager
                [mkPlayer "Ann" (mkHand []) 1 (Some true);
                 mkPlayer "Bob" (mkHand []) 2 (Some false);
                 mkPlayer "Cid" (mkHand []) 3 (Some false)] 0 false [])
             (mkDeck [] []) (mkBoard [] []) [] [] 0 0 [] [] in
  _players (tm g) <> [] /\
  _current (tm (fst ((SkipCard.execute_effect (SkipCard_init 0 RED (Some 0)) ;;
                      TurnManager.end_turn) g))) = 1.
Proof.
  intros g.
  assert (Hne : _players (tm g) <> []) by (subst g; cbn; discriminate).
  split; [exact Hne|].
  destruct (skip_then_end_turn_advances_two g (SkipCard_init 0 RED (Some 0))
              Hne) as [_ ->].
  reflexivity.
Defined.

(** C9: with a non-empty player list, in either direction,
    [get_next_player] reads without changing the turn manager, and the
    player object it returns is the one [get_current_player] returns right
    after one [end_turn]. *)
Theorem get_next_player_is_current_after_end_turn (g : Game) :
  _players (tm g) <> [] ->
  exists (next : PlayerRef) (g' : Game),
    reads (fun g => TurnManager.get_next_player (tm g)) g = (g, Ok next) /\
    TurnManager.end_turn g = (g', Ok tt) /\
    TurnManager.get_current_player (tm g') = Ok next /\
    _players (tm g') = _players (tm g) /\
    is_Some (_players (tm g) !! next).
Proof.
  intros Hne. pose proof (len_pos _ Hne) as Hn.
  set (i := (_current (tm g) + step (tm g)) mod len (_players (tm g))).
  assert (Hi : 0 <= i < len (_players (tm g))) by (apply Z.mod_pos_bound; lia).
  exists (Z.to_nat i), (set_tm (set_current i (tm g)) g).
  repeat split.
  - unfold reads. f_equal. unfold TurnManager.get_next_player.
    replace (if _clockwise (tm g)
             then py_mod (_current (tm g) + 1) (len (_players (tm g)))
             else py_mod (_current (tm g) - 1) (len (_players (tm g))))
      with (@Ok Z i).
    + cbn [res_bind]. by apply py_pos_in_range.
    + subst i. unfold step. destruct (_clockwise (tm g)); by rewrite py_mod_pos.
  - by apply end_turn_spec.
  - unfold TurnManager.get_current_player. cbn. by apply py_pos_in_range.
  - apply lookup_lt_is_Some. unfold len in Hi. lia.
Qed.

(** C9 at a table of two, clockwise, from seat 1: the next player is seat 0. *)
Lemma get_next_player_is_current_after_end_turn_witness :
  let g := mkGame true StandardRules StandardDeck
             (mkTurnManager
                [mkPlayer "Ann" (mkHand []) 1 (Some true);
                 mkPlayer "Bob" (mkHand []) 2 (Some false)] 1 true [])
             (mkDeck [] []) (mkBoard [] []) [] [] 0 0 [] [] in
  _players (tm g) <> [] /\
  exists (next : PlayerRef) (g' : Game),
    reads (fun g => TurnManager.get_next_player (tm g)) g = (g, Ok next) /\
    TurnManager.end_turn g = (g', Ok tt) /\
    TurnManager.get_current_player (tm g') = Ok next /\
    _players (tm g') = _players (tm g) /\
    is_Some (_players (tm g) !! next).
Proof.
  intros g.
  assert (Hne : _players (tm g) <> []) by (subst g; cbn; discriminate).
  split; [exact Hne|].
  exact (get_next_player_is_current_after_end_turn g Hne).
Defined.

(* ================================================================== *)
(** * The win condition                                                *)
(* ================================================================== *)

(** C7: [check_win_condition] returns normally; it makes the game inactive
    exactly when the player's hand is empty; with one card it only prints
    the near-win notice, and with any hand of at least one card the game
    (activity flag, deck, board, hands, turn state, everything but the
    printed text) stays as it was. *)
Theorem check_win_condition_effect (g : Game) (player : PlayerRef)
    (p : Player) :
  deref g player = Ok p ->
  let hand_size := length (_cards (hand p)) in
  let g' := fst (GameEngine.check_win_condition player g) in
  snd (GameEngine.check_win_condition player g) = Ok tt /\
  (hand_size = 0%nat ->
     g' = set_game_active false
            (set_stdout
               (stdout g ++ [Line (name p +:+ " wins! " +:+ newline
                                   +:+ " Closing the game..")]) g)) /\
  (hand_size = 1%nat ->
     g' = set_stdout (stdout g ++ [Line (name p +:+ ": UNO!")]) g) /\
  ((2 <= hand_size)%nat -> g' = g) /\
  ((1 <= hand_size)%nat ->
     game_active g' = game_active g /\ deck g' = deck g /\ board g' = board g
     /\ tm g' = tm g /\ observer_objs g' = observer_objs g
     /\ rules g' = rules g /\ deck_config g' = deck_config g) /\
  (game_active g' = false <-> hand_size = 0%nat \/ game_active g = false).
Proof.
  intros Hp hand_size g'.
  unfold GameEngine.check_win_condition in *.
  subst g'. rewrite (bind_reads (fun g => deref g player) _ g p Hp).
  unfold Hand.get_hand, len. fold hand_size.
  destruct hand_size as [|[|n]] eqn:Hn.
  - cbn. intuition (try done; try lia).
  - cbn. intuition (try done; try lia).
  - replace (Z.of_nat (S (S n)) =? 1) with false
      by (symmetry; apply Z.eqb_neq; lia).
    replace (Z.of_nat (S (S n)) =? 0) with false
      by (symmetry; apply Z.eqb_neq; lia).
    cbn. intuition (try done; try lia).
Qed.

(** C7 for a player who holds no card and for one who holds one. *)
Lemma check_win_condition_effect_witness :
  let winner := mkPlayer "Ann" (mkHand []) 1 (Some true) in
  let other := mkPlayer "Bob" (mkHand [NumberCard_init 0 RED (Some 5) (Some 0)])
                 2 (Some false) in
  let g := mkGame true StandardRules StandardDeck
             (mkTurnManager [winner; other] 0 true [])
             (mkDeck [] []) (mkBoard [] []) [] [] 1 1 [] [] in
  deref g 0%nat = Ok winner /\
  game_active (fst (GameEngine.check_win_condition 0%nat g)) = false /\
  deref g 1%nat = Ok other /\
  game_active (fst (GameEngine.check_win_condition 1%nat g)) = true.
Proof.
  intros winner other g.
  assert (H0 : deref g 0%nat = Ok winner) by reflexivity.
  assert (H1 : deref g 1%nat = Ok other) by reflexivity.
  split; [exact H0|]. split.
  - destruct (check_win_condition_effect g 0%nat winner H0)
      as (_ & Hzero & _).
    rewrite (Hzero eq_refl). reflexivity.
  - split; [exact H1|].
    destruct (check_win_condition_effect g 1%nat other H1)
      as (_ & _ & Hone & _).
    rewrite (Hone eq_refl). reflexivity.
Defined.

(* ================================================================== *)
(** * The legality of a play                                           *)
(* ================================================================== *)

Lemma holds_true r : holds r = true <-> r = Ok true.
Proof. destruct r as [[|]|e]; cbn; split; congruence. Qed.

(** The effect of a Number card can always be executed. *)
Lemma number_card_can_execute_effect g c :
  card_type c = NUMBER -> can_execute_effect g c = Ok true.
Proof.
  unfold card_type, can_execute_effect. by destruct (cls c).
Qed.

(** A board that holds card objects only shows no top card exactly when
    it is empty. *)
Lemma no_top_card_iff_empty (b : Board) :
  Forall (fun s : slot => s <> None) (_cards_on_board b) ->
  Board.show_top_card_on_board b = None <-> _cards_on_board b = [].
Proof.
  intros Hcards. split.
  - unfold Board.show_top_card_on_board, py_index, py_pos.
    destruct (_cards_on_board b) as [|x l] eqn:E; [done|].
    replace (-1 <? 0) with true by done.
    set (n := Z.of_nat (length (x :: l))).
    assert (Hn : 0 < n) by (subst n; cbn [length]; lia).
    replace ((0 <=? -1 + n) && (-1 + n <? n)) with true
      by (symmetry; apply andb_true_iff; split;
          [apply Z.leb_le | apply Z.ltb_lt]; lia).
    cbn [res_bind].
    destruct ((x :: l) !! Z.to_nat (-1 + n)) as [s|] eqn:Hl.
    + intros ->. apply list_elem_of_lookup_2 in Hl.
      rewrite Forall_forall in Hcards. by apply Hcards in Hl.
    + apply lookup_ge_None in Hl. subst n. cbn [length] in *. lia.
  - intros H. unfold Board.show_top_card_on_board. by rewrite H.
Qed.

(** [validate_play] never raises: it returns what the four rules, tried
    in order, decide. *)
Lemma validate_play_returns_spec (g : Game) (c : Card) :
  snd (GameEngine.validate_play c g) = Ok (validate_play_spec g c).
Proof.
  unfold GameEngine.validate_play, validate_play_spec.
  rewrite bind_gets.
  destruct (Board.show_top_card_on_board (board g)) as [top|]; [|done].
  unfold try_except, bind, reads, ret, gets, holds.
  destruct (bool_decide (card_type c = NUMBER)) eqn:Hnum.
  + apply bool_decide_eq_true in Hnum.
    rewrite (number_card_can_execute_effect g c Hnum).
    destruct (bool_decide (effective_color c = effective_color top));
      destruct (bool_decide (card_value c = card_value top));
      cbn -[can_execute_effect bool_decide]; try reflexivity;
      destruct (bool_decide (card_type c ∈ WILD_CARDS (deck_config g)));
      cbn -[can_execute_effect bool_decide];
      rewrite ?(number_card_can_execute_effect g c Hnum); reflexivity.
  + destruct (bool_decide (effective_color c = effective_color top));
      destruct (bool_decide (card_value c = card_value top));
      destruct (can_execute_effect g c) as [[|]|e] eqn:Hexec;
      cbn -[can_execute_effect bool_decide]; try reflexivity;
      destruct (bool_decide (card_type c ∈ WILD_CARDS (deck_config g)));
      cbn -[can_execute_effect bool_decide]; rewrite ?Hexec; reflexivity.
Qed.

(** C1: [validate_play] always returns, and it returns [True] exactly when
    one of the four rules holds, tried in order with the first match
    winning: (1) the board is empty (it shows no top card); (2) the
    effective colors match and the card's effect can be executed; (3) the
    card is a Number card whose value is the top card's; (4) the card's
    type is a configured wild kind and its effect can be executed. *)
Theorem validate_play_precedence (g : Game) (c : Card) :
  snd (GameEngine.validate_play c g) = Ok (validate_play_spec g c) /\
  (validate_play_spec g c = true <->
     Board.show_top_card_on_board (board g) = None
     \/ exists top,
          Board.show_top_card_on_board (board g) = Some top /\
          ((effective_color c = effective_color top
            /\ can_execute_effect g c = Ok true)
           \/ (card_type c = NUMBER /\ card_value c = card_value top)
           \/ (card_type c ∈ WILD_CARDS (deck_config g)
               /\ can_execute_effect g c = Ok true))) /\
  (Forall (fun s : slot => s <> None) (_cards_on_board (board g)) ->
   (Board.show_top_card_on_board (board g) = None
    <-> _cards_on_board (board g) = [])).
Proof.
  split; [|split].
  - apply validate_play_returns_spec.
  - unfold validate_play_spec.
    destruct (Board.show_top_card_on_board (board g)) as [top|];
      [|by split; [left|]].
    split.
    + intros H. right. exists top. split; [done|].
      destruct (bool_decide (effective_color c = effective_color top)
                && holds (can_execute_effect g c)) eqn:E2.
      { apply andb_true_iff in E2 as [?%bool_decide_eq_true ?%holds_true].
        by left. }
      destruct (bool_decide (card_type c = NUMBER)
                && bool_decide (card_value c = card_value top)) eqn:E3.
      { apply andb_true_iff in E3
          as [?%bool_decide_eq_true ?%bool_decide_eq_true].
        right. by left. }
      destruct (bool_decide (card_type c ∈ WILD_CARDS (deck_config g))
                && holds (can_execute_effect g c)) eqn:E4; [|done].
      apply andb_true_iff in E4 as [?%bool_decide_eq_true ?%holds_true].
      right. by right.
    + intros [?|(top' & [= <-] & Hrules)]; [done|].
      destruct Hrules as [[Hc He]|[[Ht Hv]|[Hw He]]].
      * rewrite (bool_decide_eq_true_2 _ Hc), He. done.
      * rewrite (bool_decide_eq_true_2 _ Ht), (bool_decide_eq_true_2 _ Hv).
        cbn. by destruct (_ && _).
      * rewrite (bool_decide_eq_true_2 _ Hw), He. cbn.
        by repeat destruct (_ && _).
  - apply no_top_card_iff_empty.
Qed.

(** C5: with [STACKABLE_DRAW_CARDS] off and a top card that carries the
    Draw category, a DrawTwo or WildDrawFour card cannot execute its effect
    and [validate_play] rejects it, whatever the colors are and whether or
    not its type is a configured wild kind. *)
Theorem draw_on_draw_rejected (g : Game) (c top : Card) :
  cls c = DrawTwoCard \/ cls c = WildDrawFourCard ->
  STACKABLE_DRAW_CARDS (rules g) = false ->
  Board.show_top_card_on_board (board g) = Some top ->
  DRAW ∈ _effect_types top ->
  can_execute_effect g c <> Ok true /\
  snd (GameEngine.validate_play c g) = Ok false.
Proof.
  intros Hcls Hstack Htop Hdraw.
  assert (Hexec : can_execute_effect g c <> Ok true).
  { unfold can_execute_effect.
    destruct Hcls as [-> | ->];
      unfold DrawTwoCard.can_execute_effect,
             WildDrawFourCard.can_execute_effect, effect_types;
      rewrite Htop, Hstack, (bool_decide_eq_true_2 _ Hdraw);
      by destruct (Card._validate_last_card_allowed g c) as [[|]|e]. }
  split; [exact Hexec|].
  rewrite validate_play_returns_spec. f_equal.
  unfold validate_play_spec. rewrite Htop.
  assert (Hholds : holds (can_execute_effect g c) = false).
  { destruct (holds (can_execute_effect g c)) eqn:E; [|done].
    by apply holds_true in E. }
  rewrite Hholds, !andb_false_r.
  assert (Hnum : bool_decide (card_type c = NUMBER) = false).
  { apply bool_decide_eq_false. unfold card_type.
    by destruct Hcls as [-> | ->]. }
  by rewrite Hnum.
Qed.

(** C5 for a red DrawTwo on a red DrawTwo and for a WildDrawFour on it. *)
Lemma draw_on_draw_rejected_witness :
  let top := DrawTwoCard_init 0 RED (Some 0) in
  let red_draw_two := DrawTwoCard_init 1 RED (Some 1) in
  let wild_draw_four := WildDrawFourCard_init 2 (Some 2) in
  let no_stacking :=
    mkGameRules true true 7 true 1 30 false true false in
  let g := mkGame true no_stacking StandardDeck
             (mkTurnManager
                [mkPlayer "Ann" (mkHand [red_draw_two; wild_draw_four]) 1
                   (Some true);
                 mkPlayer "Bob" (mkHand []) 2 (Some false)] 0 true [])
             (mkDeck [] []) (mkBoard [Some top] []) [] [] 3 3 [] [] in
  (cls red_draw_two = DrawTwoCard \/ cls red_draw_two = WildDrawFourCard) /\
  (cls wild_draw_four = DrawTwoCard \/ cls wild_draw_four = WildDrawFourCard) /\
  STACKABLE_DRAW_CARDS (rules g) = false /\
  Board.show_top_card_on_board (board g) = Some top /\
  DRAW ∈ _effect_types top /\
  effective_color red_draw_two = effective_color top /\
  card_type wild_draw_four ∈ WILD_CARDS (deck_config g) /\
  snd (GameEngine.validate_play red_draw_two g) = Ok false /\
  snd (GameEngine.validate_play wild_draw_four g) = Ok false.
Proof.
  intros top red_draw_two wild_draw_four no_stacking g.
  assert (H2 : cls red_draw_two = DrawTwoCard
               \/ cls red_draw_two = WildDrawFourCard) by (by left).
  assert (H4 : cls wild_draw_four = DrawTwoCard
               \/ cls wild_draw_four = WildDrawFourCard) by (by right).
  assert (Hs : STACKABLE_DRAW_CARDS (rules g) = false) by reflexivity.
  assert (Ht : Board.show_top_card_on_board (board g) = Some top)
    by reflexivity.
  assert (Hd : DRAW ∈ _effect_types top) by apply list_elem_of_here.
  refine (conj H2 (conj H4 (conj Hs (conj Ht (conj Hd
            (conj _ (conj _ (conj _ _)))))))).
  - reflexivity.
  - apply list_elem_of_further, list_elem_of_here.
  - exact (proj2 (draw_on_draw_rejected g red_draw_two top H2 Hs Ht Hd)).
  - exact (proj2 (draw_on_draw_rejected g wild_draw_four top H4 Hs Ht Hd)).
Defined.

(* ================================================================== *)
(** * The last-card restriction                                        *)
(* ================================================================== *)

(** The text [show_hand] returns is never one character long. *)
Lemma show_hand_length (h : Hand) (shown : string) :
  Hand.show_hand h = Ok shown -> String.length shown <> 1%nat.
Proof.
  unfold Hand.show_hand.
  destruct (_cards h) as [|card rest]; [by intros [= <-]|].
  cbn [Hand.lines_from].
  destruct (Card_str card) as [s|e]; [|done]. cbn [res_bind].
  destruct (Hand.lines_from (0 + 1) rest) as [ls|e]; [|done].
  cbn [res_bind]. intros [= <-].
  change (str_int 0) with "0".
  by destruct ls.
Qed.

(** [_validate_last_card_allowed] compares the length of that text with 1,
    so it never answers [False]. *)
Lemma _validate_last_card_allowed_never_False (g : Game) (c : Card) :
  Card._validate_last_card_allowed g c <> Ok false.
Proof.
  unfold Card._validate_last_card_allowed.
  destruct (negb (ALLOW_FINAL_SPECIAL_CARD (rules g))); [|done].
  destruct (TurnManager.get_current_player (tm g)) as [current|e]; [|done].
  cbn [res_bind].
  destruct (deref g current) as [player|e]; [|done]. cbn [res_bind].
  destruct (Hand.show_hand (hand player)) as [shown|e] eqn:Hshown; [|done].
  cbn [res_bind]. apply show_hand_length in Hshown.
  destruct (Z.eqb_spec (Z.of_nat (String.length shown)) 1); [lia|done].
Qed.

(** C2, on the code: in the scenario of the specification (final special
    card disallowed, a hand of one red Skip, a red Skip on top of the
    board) [can_execute_effect] returns [True] and [validate_play] accepts
    the play; in no game does the last-card check answer [False]. *)
Theorem last_special_card_is_accepted :
  ALLOW_FINAL_SPECIAL_CARD (rules last_card_game) = false /\
  (p <~ deref last_card_game 0%nat ;; Ok (Hand.get_hand (hand p)))
    = Ok [red_skip_in_hand] /\
  TurnManager.get_current_player (tm last_card_game) = Ok 0%nat /\
  Board.show_top_card_on_board (board last_card_game) = Some red_skip_on_top /\
  can_execute_effect last_card_game red_skip_in_hand = Ok true /\
  snd (GameEngine.validate_play red_skip_in_hand last_card_game) = Ok true /\
  (forall g c, Card._validate_last_card_allowed g c <> Ok false).
Proof.
  repeat split; try by vm_compute.
  apply _validate_last_card_allowed_never_False.
Qed.

(* ================================================================== *)
(** * The board and the deck                                           *)
(* ================================================================== *)

Lemma py_index_last {A} (l : list A) (x : A) : py_index (l ++ [x]) (-1) = Ok x.
Proof.
  unfold py_index, py_pos. rewrite length_app. cbn [length].
  replace (-1 <? 0) with true by done.
  replace (-1 + Z.of_nat (length l + 1)) with (Z.of_nat (length l)) by lia.
  replace ((0 <=? Z.of_nat (length l))
           && (Z.of_nat (length l) <? Z.of_nat (length l + 1)))
    with true
    by (symmetry; apply andb_true_iff; split;
        [apply Z.leb_le | apply Z.ltb_lt]; lia).
  cbn [res_bind]. rewrite Nat2Z.id.
  by rewrite list_lookup_middle.
Qed.

Lemma show_top_card_on_board_last (b : Board) (older : list slot) (top : slot) :
  _cards_on_board b = older ++ [top] ->
  Board.show_top_card_on_board b = top.
Proof.
  intros H. unfold Board.show_top_card_on_board. by rewrite H, py_index_last.
Qed.

Lemma pop_snoc {A} (l : list A) (x : A) : pop (l ++ [x]) = Some (l, x).
Proof.
  induction l as [|y l IH]; [done|].
  cbn [app pop]. by rewrite IH.
Qed.

Lemma pop_None {A} (l : list A) : pop l = None -> l = [].
Proof.
  destruct l as [|x l]; [done|]. cbn [pop]. by destruct (pop l) as [[? ?]|].
Qed.

(** The entries that are not the top card object: all the older ones when
    that object lies on the board once. *)
Lemma filter_not_top (older : list slot) (top : Card) :
  Forall (fun s => slot_eqb s (Some top) = false) older ->
  List.filter (fun card => negb (slot_eqb card (Some top)))
    (older ++ [Some top]) = older.
Proof.
  intros H. rewrite List.filter_app. cbn [List.filter slot_eqb].
  rewrite Nat.eqb_refl. cbn [negb]. rewrite app_nil_r.
  induction H as [|s l Hs _ IH]; [done|].
  cbn [List.filter]. by rewrite Hs, IH.
Qed.

(** With no observer subscribed to the board, [clear_all_except_last]
    returns the entries that differ from the top one and leaves a
    one-entry list, the value [show_top_card_on_board] returned. *)
Lemma clear_all_except_last_unobserved (g : Game) :
  board_observers (board g) = [] ->
  Board.clear_all_except_last g =
    (set_board (set_cards_on_board
                  [Board.show_top_card_on_board (board g)] (board g)) g,
     Ok (List.filter
           (fun card =>
              negb (slot_eqb card (Board.show_top_card_on_board (board g))))
           (_cards_on_board (board g)))).
Proof.
  intros Hobs. unfold Board.clear_all_except_last. run.
  unfold Board.notify_observers. run.
  destruct g as [? ? ? ? ? [cards obs] ? ? ? ? ? ?]. cbn in Hobs. subst obs.
  reflexivity.
Qed.

(** For a board of [k >= 1] card objects whose top object lies on it once:
    the [k - 1] older cards are returned and the top card stays. *)
Lemma clear_all_except_last_keeps_top (g : Game) (older : list slot)
    (top : Card) :
  board_observers (board g) = [] ->
  _cards_on_board (board g) = older ++ [Some top] ->
  Forall (fun s => slot_eqb s (Some top) = false) older ->
  Board.clear_all_except_last g =
    (set_board (set_cards_on_board [Some top] (board g)) g, Ok older).
Proof.
  intros Hobs Hcards Hold.
  rewrite clear_all_except_last_unobserved by done.
  rewrite (show_top_card_on_board_last _ _ _ Hcards), Hcards.
  by rewrite filter_not_top.
Qed.

(** An observer object subscribed to the board makes
    [clear_all_except_last] raise: the handler reads [data['board']], the
    event carries ['board_cards']. *)
Lemma clear_all_except_last_observed (g : Game) (i : ObserverRef)
    (rest : list ObserverRef) :
  board_observers (board g) = i :: rest ->
  is_Some (observer_objs g !! i) ->
  snd (Board.clear_all_except_last g) = Raise KeyError.
Proof.
  intros Hobs [o Ho]. unfold Board.clear_all_except_last. run.
  unfold Board.notify_observers. run.
  destruct g as [? ? ? ? ? [cards obs] ? objs ? ? ? ?].
  cbn in Hobs, Ho. subst obs.
  cbn [board set_board set_cards_on_board board_observers _cards_on_board
       game_active rules deck_config tm deck game_observers observer_objs
       next_card_id next_oid random_tape stdout].
  unfold notify. cbn [for_each]. run.
  unfold bind, call_observer, set_board.
  cbn [observer_objs]. rewrite Ho.
  reflexivity.
Qed.

(** C6, on the code: on an empty board with no observer,
    [clear_all_except_last] returns no card and leaves the one-entry list
    [[None]], so that the board is not empty afterwards; with the observer
    that [Game.__init__] subscribes, it raises on a board of three cards
    and returns nothing. *)
Theorem clear_all_except_last_on_empty_board :
  _cards_on_board (board empty_board_game) = [] /\
  Board.clear_all_except_last empty_board_game =
    (set_board (mkBoard [None] []) empty_board_game, Ok []) /\
  length (Board.get_board (board (fst (Board.clear_all_except_last
                                         empty_board_game)))) = 1%nat /\
  snd (Board.clear_all_except_last three_on_board_observed) = Raise KeyError.
Proof.
  repeat split; by vm_compute.
Qed.

(** [draw_card] never raises: it pops the last entry of a non-empty deck
    and returns [None] on an empty one; the observers ignore its event. *)
Lemma draw_card_spec (g : Game) :
  Deck.draw_card g =
    match pop (_card_deck (deck g)) with
    | Some (rest, card) => (set_deck (set_card_deck rest (deck g)) g, Ok card)
    | None => (g, Ok None)
    end.
Proof.
  unfold Deck.draw_card. run.
  destruct (pop (_card_deck (deck g))) as [[rest card]|]; [|done].
  run. unfold Deck.notify_observers. run.
  erewrite bind_ok; [|by apply notify_ignored]. reflexivity.
Qed.

(** The second strategy of [_handle_empty_deck_scenario] is never reached:
    the first [return] hands back whatever [draw_card] returned, a card or
    [None], and [draw_card] raises no [IndexError]. *)
Lemma _handle_empty_deck_scenario_is_strategy_1 (g : Game) :
  GameEngine._handle_empty_deck_scenario g =
    ((if Deck.get_deck_length (deck g) =? 0
      then Deck.attempt_recycle_deck else ret tt) ;;
     Deck.draw_card) g.
Proof.
  unfold GameEngine._handle_empty_deck_scenario. run.
  set (m := if Deck.get_deck_length (deck g) =? 0
            then Deck.attempt_recycle_deck else ret tt).
  destruct (m g) as [g1 [[]|e]] eqn:Hm.
  - rewrite !(bind_ok m _ g g1 tt Hm).
    unfold bind, try_except. rewrite draw_card_spec.
    by destruct (pop (_card_deck (deck g1))) as [[rest card]|].
  - by rewrite !(bind_raise m _ g g1 e Hm).
Qed.

Lemma set_deck_id (g : Game) :
  set_deck (set_card_deck (_card_deck (deck g)) (deck g)) g = g.
Proof. by destruct g as [? ? ? ? [? ?] ? ? ? ? ? ? ?]. Qed.

(** Adding cards to a deck that nobody observes appends them in order. *)
Lemma add_cards_unobserved (cards : list slot) (g : Game) :
  deck_observers (deck g) = [] ->
  for_each cards Deck.add_card_to_deck g =
    (set_deck (set_card_deck (_card_deck (deck g) ++ cards) (deck g)) g,
     Ok tt).
Proof.
  revert g. induction cards as [|card cards IH]; intros g Hobs.
  - cbn [for_each]. by rewrite app_nil_r, set_deck_id.
  - cbn [for_each]. unfold Deck.add_card_to_deck at 1. run.
    unfold Deck.notify_observers. run.
    destruct g as [? ? ? ? [deck_cards obs] ? ? ? ? ? ? ?].
    cbn in Hobs. subst obs.
    cbn [deck set_deck set_card_deck deck_observers _card_deck notify
         for_each game_active rules deck_config tm board game_observers
         observer_objs next_card_id next_oid random_tape stdout].
    run. rewrite IH by done.
    cbn [deck set_deck set_card_deck deck_observers _card_deck
         game_active rules deck_config tm board game_observers
         observer_objs next_card_id next_oid random_tape stdout].
    by rewrite <- app_assoc.
Qed.

(** Recycling, for a board and a deck that nobody observes and a top card
    object that lies on the board once: the older entries go to the end of
    the deck in board order, the top card stays. *)
Lemma attempt_recycle_deck_unobserved (g : Game) (older : list slot)
    (top : Card) :
  board_observers (board g) = [] ->
  deck_observers (deck g) = [] ->
  _cards_on_board (board g) = older ++ [Some top] ->
  Forall (fun s => slot_eqb s (Some top) = false) older ->
  Deck.attempt_recycle_deck g =
    (set_deck (set_card_deck (_card_deck (deck g) ++ older) (deck g))
       (set_board (set_cards_on_board [Some top] (board g)) g),
     Ok tt).
Proof.
  intros Hb Hd Hcards Hold. unfold Deck.attempt_recycle_deck.
  erewrite bind_ok; [|by apply clear_all_except_last_keeps_top].
  by rewrite add_cards_unobserved.
Qed.

(** Whatever the event, notifying observers changes nothing but the
    observer objects. *)
Lemma notify_frame (observers : list ObserverRef) (event : GameEvent)
    (data : EventData) (g : Game) :
  exists objs r, notify observers event data g = (set_observer_objs objs g, r).
Proof.
  unfold notify. revert g.
  induction observers as [|i observers IH]; intros g.
  - exists (observer_objs g), (Ok tt). cbn [for_each].
    by rewrite set_observer_objs_id.
  - cbn [for_each]. unfold call_observer at 1. unfold bind.
    destruct (observer_objs g !! i) as [o|].
    + destruct (GameContext.on_game_event event data o) as [o' [[]|e]].
      * destruct (IH (set_observer_objs (<[i:=o']> (observer_objs g)) g))
          as (objs & r & ->).
        by exists objs, r.
      * by eexists _, _.
    + destruct (IH g) as (objs & r & ->). by exists objs, r.
Qed.

(** The recovery on an empty deck, with a board and a deck that
    nobody observes and a top card object that lies on the board once, the
    recovery puts the older board entries into the deck in board order,
    keeps the top card on the board and retries the draw at once.  No
    shuffle takes place: the random source is left as it was, and the card
    drawn is the one played just before the top card ([None], and an empty
    deck, when the top card was alone). *)
Lemma recovery_recycles_in_board_order (g : Game) (older : list slot)
    (top : Card) :
  _card_deck (deck g) = [] ->
  board_observers (board g) = [] ->
  deck_observers (deck g) = [] ->
  _cards_on_board (board g) = older ++ [Some top] ->
  Forall (fun s => slot_eqb s (Some top) = false) older ->
  GameEngine._handle_empty_deck_scenario g =
    (Deck.attempt_recycle_deck ;; Deck.draw_card) g /\
  random_tape (fst (GameEngine._handle_empty_deck_scenario g))
    = random_tape g /\
  GameEngine._handle_empty_deck_scenario g =
    match pop older with
    | Some (rest, card) =>
        (set_deck (set_card_deck rest (deck g))
           (set_board (set_cards_on_board [Some top] (board g)) g),
         Ok card)
    | None =>
        (set_deck (set_card_deck [] (deck g))
           (set_board (set_cards_on_board [Some top] (board g)) g),
         Ok None)
    end.
Proof.
  intros Hdeck Hb Hd Hcards Hold.
  assert (Hrun : GameEngine._handle_empty_deck_scenario g =
                 (Deck.attempt_recycle_deck ;; Deck.draw_card) g).
  { rewrite _handle_empty_deck_scenario_is_strategy_1.
    unfold Deck.get_deck_length, len. by rewrite Hdeck. }
  assert (Hres : (Deck.attempt_recycle_deck ;; Deck.draw_card) g =
    match pop older with
    | Some (rest, card) =>
        (set_deck (set_card_deck rest (deck g))
           (set_board (set_cards_on_board [Some top] (board g)) g),
         Ok card)
    | None =>
        (set_deck (set_card_deck [] (deck g))
           (set_board (set_cards_on_board [Some top] (board g)) g),
         Ok None)
    end).
  { erewrite bind_ok; [|by apply attempt_recycle_deck_unobserved].
    rewrite draw_card_spec, Hdeck.
    clear Hrun.
    destruct g as [? ? ? ? [deck_cards dobs] [board_cards bobs] ? ? ? ? ? ?].
    cbn in *. destruct (pop older) as [[rest card]|] eqn:Hpop; [done|].
    apply pop_None in Hpop. by subst older. }
  split; [exact Hrun|]. split; [|by rewrite Hrun].
  rewrite Hrun, Hres. by destruct (pop older) as [[rest card]|].
Qed.

(** A statement keeps the random source when it leaves it as it was. *)
Lemma keeps_tape_bind {A B} (m : M Game A) (k : A -> M Game B) :
  (forall g, random_tape (fst (m g)) = random_tape g) ->
  (forall a g, random_tape (fst (k a g)) = random_tape g) ->
  forall g, random_tape (fst (bind m k g)) = random_tape g.
Proof.
  intros Hm Hk g. unfold bind. specialize (Hm g).
  destruct (m g) as [g1 [a|e]]; cbn [fst] in *; [|done].
  by rewrite Hk.
Qed.

Lemma keeps_tape_notify (observers : list ObserverRef) (event : GameEvent)
    (data : EventData) (g : Game) :
  random_tape (fst (notify observers event data g)) = random_tape g.
Proof. by destruct (notify_frame observers event data g) as (objs & r & ->). Qed.

Lemma keeps_tape_for_each {A} (l : list A) (body : A -> M Game unit) :
  (forall x g, random_tape (fst (body x g)) = random_tape g) ->
  forall g, random_tape (fst (for_each l body g)) = random_tape g.
Proof.
  intros Hbody. induction l as [|x l IH]; intros g; [done|].
  cbn [for_each]. by apply keeps_tape_bind.
Qed.

Lemma keeps_tape_clear_all_except_last (g : Game) :
  random_tape (fst (Board.clear_all_except_last g)) = random_tape g.
Proof.
  unfold Board.clear_all_except_last. run. unfold Board.notify_observers. run.
  etransitivity.
  { apply keeps_tape_bind; [intros s; apply keeps_tape_notify|by intros a s]. }
  reflexivity.
Qed.

Lemma keeps_tape_add_card_to_deck (card : slot) (g : Game) :
  random_tape (fst (Deck.add_card_to_deck card g)) = random_tape g.
Proof.
  unfold Deck.add_card_to_deck. run. unfold Deck.notify_observers. run.
  by rewrite keeps_tape_notify.
Qed.

Lemma keeps_tape_attempt_recycle_deck (g : Game) :
  random_tape (fst (Deck.attempt_recycle_deck g)) = random_tape g.
Proof.
  unfold Deck.attempt_recycle_deck. revert g. apply keeps_tape_bind.
  - apply keeps_tape_clear_all_except_last.
  - intros cards. apply keeps_tape_for_each, keeps_tape_add_card_to_deck.
Qed.

(** The recovery never consults the random source, whoever observes the
    board and the deck. *)
Lemma _handle_empty_deck_scenario_keeps_tape (g : Game) :
  random_tape (fst (GameEngine._handle_empty_deck_scenario g))
  = random_tape g.
Proof.
  rewrite _handle_empty_deck_scenario_is_strategy_1. revert g.
  apply keeps_tape_bind.
  - intros g. destruct (Deck.get_deck_length (deck g) =? 0); [|done].
    apply keeps_tape_attempt_recycle_deck.
  - intros _ g. rewrite draw_card_spec.
    by destruct (pop (_card_deck (deck g))) as [[rest card]|].
Qed.

(** C4, on the code: the recovery never reshuffles.  In every game it is
    the recycling step, on an empty deck, followed at once by the draw,
    and it leaves the random source as it was.  On an empty deck under a
    board of three cards that nobody observes it draws the blue 7, the
    card played just before the top card, and leaves the red 5 in the
    deck, where the recovery of the specification consults the random
    source and draws the red 5.  With the observer that [Game.__init__]
    subscribes the recycling step raises [KeyError]: nothing is shuffled
    and no card is drawn. *)
Theorem empty_deck_recovery_never_reshuffles :
  (forall g,
     GameEngine._handle_empty_deck_scenario g =
       ((if Deck.get_deck_length (deck g) =? 0
         then Deck.attempt_recycle_deck else ret tt) ;;
        Deck.draw_card) g) /\
  (forall g,
     random_tape (fst (GameEngine._handle_empty_deck_scenario g))
     = random_tape g) /\
  _card_deck (deck three_on_board) = [] /\
  _cards_on_board (board three_on_board)
    = [Some red_5; Some blue_7; Some green_2] /\
  snd (GameEngine._handle_empty_deck_scenario three_on_board)
    = Ok (Some blue_7) /\
  _card_deck (deck (fst (GameEngine._handle_empty_deck_scenario
                           three_on_board))) = [Some red_5] /\
  _cards_on_board (board (fst (GameEngine._handle_empty_deck_scenario
                                 three_on_board))) = [Some green_2] /\
  snd (recovery_with_reshuffle three_on_board) = Ok (Some red_5) /\
  random_tape (fst (recovery_with_reshuffle three_on_board))
    <> random_tape three_on_board /\
  GameEngine._handle_empty_deck_scenario three_on_board
    <> recovery_with_reshuffle three_on_board /\
  snd (GameEngine._handle_empty_deck_scenario three_on_board_observed)
    = Raise KeyError /\
  snd (GameEngine.player_draw_card 0%nat 1 three_on_board_observed)
    = Raise KeyError.
Proof.
  split; [apply _handle_empty_deck_scenario_is_strategy_1|].
  split; [apply _handle_empty_deck_scenario_keeps_tape|].
  repeat split; by vm_compute.
Qed.

(** C3, on the code: with an empty deck, a board of one card and
    [ALLOW_MULTIPLE_DECKS] on, recycling leaves the deck empty and a new
    deck batch would yield a card; yet the recovery returns [None] without
    building a deck (no card is created, nothing is printed), and
    [player_draw_card] stops with the warning and an unchanged hand.  With
    the observer that [Game.__init__] subscribes, the recycling step raises
    and so does [player_draw_card].  In every game the recovery is its
    first strategy alone. *)
Theorem empty_deck_recovery_adds_no_deck :
  ALLOW_MULTIPLE_DECKS (rules exhausted_game) = true /\
  _card_deck (deck exhausted_game) = [] /\
  _card_deck (deck (fst (Deck.attempt_recycle_deck exhausted_game))) = [] /\
  (exists card,
     snd ((DeckBuilder.populate_deck (deck_config exhausted_game) ;;
           Deck.draw_card) exhausted_game) = Ok (Some card)) /\
  GameEngine._handle_empty_deck_scenario exhausted_game
    = (exhausted_game, Ok None) /\
  GameEngine.player_draw_card 0%nat 1 exhausted_game
    = (set_stdout
         [Line "Warning: Player 1 could only draw 0 of 1 requested cards"]
         exhausted_game,
       Ok tt) /\
  snd (GameEngine._handle_empty_deck_scenario exhausted_game_observed)
    = Raise KeyError /\
  snd (GameEngine.player_draw_card 0%nat 1 exhausted_game_observed)
    = Raise KeyError /\
  (forall g,
     GameEngine._handle_empty_deck_scenario g =
       ((if Deck.get_deck_length (deck g) =? 0
         then Deck.attempt_recycle_deck else ret tt) ;;
        Deck.draw_card) g).
Proof.
  split; [reflexivity|]. split; [reflexivity|]. split; [by vm_compute|].
  split; [eexists; by vm_compute|].
  split; [by vm_compute|]. split; [by vm_compute|].
  split; [by vm_compute|]. split; [by vm_compute|].
  apply _handle_empty_deck_scenario_is_strategy_1.
Qed.

(* ================================================================== *)
(** * Dealing                                                          *)
(* ================================================================== *)

(** Normalise a game record written with the attribute setters. *)
Ltac simpl_game :=
  unfold set_game_active, set_tm, set_deck, set_board, set_observer_objs,
         set_next_card_id, set_next_oid, set_random_tape, set_stdout,
         set_cards_on_board, set_card_deck, set_current, set_clockwise,
         set_players, upd;
  cbn [game_active rules deck_config tm deck board game_observers
       observer_objs next_card_id next_oid random_tape stdout _players
       _current _clockwise tm_observers _card_deck deck_observers
       _cards_on_board board_observers].

Lemma upd_same (g : Game) :
  upd (_players (tm g)) (_card_deck (deck g)) (observer_objs g) (stdout g) g
  = g.
Proof. by destruct g as [? ? ? [? ? ? ?] [? ?] ? ? ? ? ? ? ?]. Qed.

Lemma give_nil (r : PlayerRef) (players : list Player) :
  give r [] players = players.
Proof.
  unfold give. apply list_alter_id. intros [? [?] ? ?].
  unfold set_hand. cbn. by rewrite app_nil_r.
Qed.

Lemma give_give (r : PlayerRef) (c1 c2 : list Card) (players : list Player) :
  give r c2 (give r c1 players) = give r (c1 ++ c2) players.
Proof.
  unfold give. rewrite list_alter_alter_eq. apply list_alter_ext; [|done].
  intros [? [?] ? ?] _. unfold set_hand. cbn. by rewrite app_assoc.
Qed.

Lemma give_length (r : PlayerRef) (cards : list Card) (players : list Player) :
  length (give r cards players) = length players.
Proof. apply length_alter. Qed.

(** The observers take a [CARD_DRAWN] event for a card and a player
    without raising; only their own state changes. *)
Lemma on_card_drawn (c : Card) (p : Player) (o : GameContext) :
  exists o',
    GameContext.on_game_event CARD_DRAWN
      [("card", ObjCard c); ("player", ObjPlayer p);
       ("timestamp", ObjTimestamp)] o = (o', Ok tt).
Proof.
  eexists. unfold GameContext.on_game_event. cbn [dict_get String.eqb].
  reflexivity.
Qed.

Lemma set_observer_objs_twice (o1 o2 : list GameContext) (g : Game) :
  set_observer_objs o2 (set_observer_objs o1 g) = set_observer_objs o2 g.
Proof. reflexivity. Qed.

Lemma notify_card_drawn (observers : list ObserverRef) (c : Card)
    (p : Player) (g : Game) :
  exists objs,
    notify observers CARD_DRAWN
      [("card", ObjCard c); ("player", ObjPlayer p);
       ("timestamp", ObjTimestamp)] g
    = (set_observer_objs objs g, Ok tt).
Proof.
  unfold notify. revert g.
  induction observers as [|i observers IH]; intros g.
  - exists (observer_objs g). cbn [for_each]. by rewrite set_observer_objs_id.
  - cbn [for_each]. unfold call_observer at 1.
    destruct (observer_objs g !! i) as [o|] eqn:Ho.
    + destruct (on_card_drawn c p o) as [o' Ho'].
      destruct (IH (set_observer_objs (<[i:=o']> (observer_objs g)) g))
        as [objs Hobjs].
      exists objs. unfold bind at 1. rewrite Ho, Ho'.
      by rewrite Hobjs.
    + destruct (IH g) as [objs Hobjs]. exists objs.
      unfold bind at 1. by rewrite Ho.
Qed.

Lemma draw_card_snoc (g : Game) (cards : list slot) (card : slot) :
  _card_deck (deck g) = cards ++ [card] ->
  Deck.draw_card g = (set_deck (set_card_deck cards (deck g)) g, Ok card).
Proof. intros H. by rewrite draw_card_spec, H, pop_snoc. Qed.

(** One iteration of the drawing loop when the deck ends with a card. *)
Lemma draw_loop_step (g : Game) (r : PlayerRef) (amount : Z) (n : nat)
    (cards_drawn : Z) (no_draw_error : bool) (cards : list slot) (c : Card) :
  is_Some (_players (tm g) !! r) ->
  _card_deck (deck g) = cards ++ [Some c] ->
  exists objs out,
    GameEngine.draw_loop r amount (S n) cards_drawn no_draw_error g =
    GameEngine.draw_loop r amount n (cards_drawn + 1) no_draw_error
      (upd (give r [c] (_players (tm g))) cards objs out g).
Proof.
  intros [p Hp] Hdeck.
  destruct g as [active ? ? [pls cur cw tobs] [deck_cards dobs] ? gobs objs0
                 ? ? ? out0].
  cbn in Hp, Hdeck. subst deck_cards.
  set (pls' := give r [c] pls).
  assert (Hp' : exists p', pls' !! r = Some p').
  { apply lookup_lt_is_Some. subst pls'. rewrite give_length.
    apply lookup_lt_is_Some. by exists p. }
  destruct Hp' as [p' Hp'].
  cbn [GameEngine.draw_loop].
  erewrite bind_ok by (by apply draw_card_snoc).
  cbn [truthy negb]. run.
  unfold Player.draw_card. run. simpl_game.
  change (alter _ r pls) with pls'.
  assert (Hderef : forall objs out,
            deref (mkGame active rules0 deck_config0
                     (mkTurnManager pls' cur cw tobs) (mkDeck cards dobs)
                     board0 gobs objs next_card_id0 next_oid0 random_tape0 out)
                  r = Ok p').
  { intros. unfold deref. cbn [tm _players]. by rewrite Hp'. }
  assert (Hrest : forall out,
    exists objs,
      (p <- reads (fun g => deref g r) ;;
       Game.notify_observers CARD_DRAWN
         [("card", ObjCard c); ("player", ObjPlayer p);
          ("timestamp", ObjTimestamp)] ;;
       GameEngine.draw_loop r amount n (cards_drawn + 1) no_draw_error)
        (mkGame active rules0 deck_config0
           (mkTurnManager pls' cur cw tobs) (mkDeck cards dobs)
           board0 gobs objs0 next_card_id0 next_oid0 random_tape0 out)
      = GameEngine.draw_loop r amount n (cards_drawn + 1) no_draw_error
          (mkGame active rules0 deck_config0
             (mkTurnManager pls' cur cw tobs) (mkDeck cards dobs)
             board0 gobs objs next_card_id0 next_oid0 random_tape0 out)).
  { intros out.
    erewrite bind_reads by apply Hderef.
    unfold Game.notify_observers. run. cbn [game_observers].
    match goal with
    | |- context [ bind (notify ?obs CARD_DRAWN ?data) _ ?g ] =>
        destruct (notify_card_drawn obs c p' g) as [objs Hobjs]
    end.
    exists objs. by erewrite bind_ok by exact Hobjs. }
  destruct (cards_drawn + 1 =? amount).
  - run. simpl_game.
    destruct (no_draw_error && active); cbv iota.
    + run. erewrite bind_reads by apply Hderef. run. simpl_game.
      match goal with
      | |- context [ mkGame _ _ _ _ _ _ _ _ _ _ _ ?out ] =>
          destruct (Hrest out) as [objs ->]; by exists objs, out
      end.
    + run. destruct (Hrest out0) as [objs ->]. by exists objs, out0.
  - run. destruct (Hrest out0) as [objs ->]. by exists objs, out0.
Qed.

Lemma upd_upd pls1 cards1 objs1 out1 pls2 cards2 objs2 out2 (g : Game) :
  upd pls2 cards2 objs2 out2 (upd pls1 cards1 objs1 out1 g)
  = upd pls2 cards2 objs2 out2 g.
Proof. reflexivity. Qed.

(** The drawing loop on a deck that ends with as many card objects as
    iterations remain: the player takes them from the end of the deck, one
    by one, and nothing raises. *)
Lemma draw_loop_enough (drawn : list Card) :
  forall (g : Game) (r : PlayerRef) (amount cards_drawn : Z)
         (no_draw_error : bool) (rest : list slot),
    is_Some (_players (tm g) !! r) ->
    _card_deck (deck g) = rest ++ map Some (rev drawn) ->
    exists objs out,
      GameEngine.draw_loop r amount (length drawn) cards_drawn no_draw_error g
      = (upd (give r drawn (_players (tm g))) rest objs out g, Ok tt).
Proof.
  induction drawn as [|c drawn IH];
    intros g r amount cards_drawn nde rest Hr Hdeck.
  - exists (observer_objs g), (stdout g). cbn [length GameEngine.draw_loop].
    cbn [rev map] in Hdeck. rewrite app_nil_r in Hdeck.
    by rewrite give_nil, <- Hdeck, upd_same.
  - cbn [rev] in Hdeck. rewrite map_app, app_assoc in Hdeck. cbn [map] in Hdeck.
    destruct (draw_loop_step g r amount (length drawn) cards_drawn nde _ c
                Hr Hdeck) as (objs1 & out1 & Hstep).
    cbn [length]. rewrite Hstep.
    destruct (IH (upd (give r [c] (_players (tm g)))
                    (rest ++ map Some (rev drawn)) objs1 out1 g)
                r amount (cards_drawn + 1) nde rest)
      as (objs2 & out2 & Hloop).
    + cbn [upd tm _players]. apply lookup_lt_is_Some. rewrite give_length.
      by apply lookup_lt_is_Some.
    + reflexivity.
    + exists objs2, out2. etransitivity; [exact Hloop|].
      rewrite upd_upd. cbn [upd tm _players]. by rewrite give_give.
Qed.

Lemma deal_hands_length refs n dealt players :
  length (deal_hands refs n dealt players) = length players.
Proof.
  revert dealt players. induction refs as [|r refs IH]; intros; [done|].
  cbn [deal_hands]. by rewrite IH, give_length.
Qed.




Lemma set_stdout_id (g : Game) : set_stdout (stdout g) g = g.
Proof. by destruct g. Qed.






(* ================================================================== *)
(** * Further properties: the turn order                               *)
(* ================================================================== *)

Lemma reverse_play_order_spec (g : Game) :
  TurnManager.reverse_play_order g =
    (set_tm (set_clockwise (negb (_clockwise (tm g))) (tm g)) g, Ok tt).
Proof.
  unfold TurnManager.reverse_play_order. run.
  destruct (_clockwise (tm g)) eqn:Hcw; run;
    unfold TurnManager.notify_observers; run;
    by rewrite notify_ignored.
Qed.

Lemma set_tm_id (g : Game) : set_tm (tm g) g = g.
Proof. by destruct g. Qed.

(** X1: with at least one player, [end_turn] returns normally and leaves
    the index of the current player inside the player list, whatever the
    index was before; [get_current_player] then denotes a player. *)
Theorem end_turn_keeps_index_in_range (g : Game) :
  _players (tm g) <> [] ->
  let g' := fst (TurnManager.end_turn g) in
  snd (TurnManager.end_turn g) = Ok tt /\
  0 <= _current (tm g') < len (_players (tm g')) /\
  exists r, TurnManager.get_current_player (tm g') = Ok r
            /\ is_Some (_players (tm g') !! r).
Proof.
  intros Hne g'. subst g'. rewrite end_turn_spec by done. cbn [fst snd].
  pose proof (len_pos _ Hne) as Hn.
  set (i := (_current (tm g) + step (tm g)) mod len (_players (tm g))).
  assert (Hi : 0 <= i < len (_players (tm g)))
    by (apply Z.mod_pos_bound; lia).
  split; [done|]. split; [exact Hi|].
  exists (Z.to_nat i). split.
  - unfold TurnManager.get_current_player. simpl_game.
    by apply py_pos_in_range.
  - simpl_game. apply lookup_lt_is_Some. unfold len in Hi. lia.
Qed.

Lemma end_turn_keeps_index_in_range_witness :
  let g := set_tm (set_current 7 (tm four_in_deck)) four_in_deck in
  _players (tm g) <> [] /\
  0 <= _current (tm (fst (TurnManager.end_turn g)))
    < len (_players (tm (fst (TurnManager.end_turn g)))).
Proof.
  intros g.
  assert (Hne : _players (tm g) <> []) by (subst g; cbn; discriminate).
  split; [exact Hne|].
  exact (proj1 (proj2 (end_turn_keeps_index_in_range g Hne))).
Defined.

(** X2: reversing the play order twice restores the game as it was, and
    with it the next player. *)
Theorem reverse_play_order_twice (g : Game) :
  (TurnManager.reverse_play_order ;; TurnManager.reverse_play_order) g
    = (g, Ok tt) /\
  _clockwise (tm (fst (TurnManager.reverse_play_order g)))
    = negb (_clockwise (tm g)) /\
  TurnManager.get_next_player
    (tm (fst ((TurnManager.reverse_play_order ;;
               TurnManager.reverse_play_order) g)))
    = TurnManager.get_next_player (tm g).
Proof.
  assert (H : (TurnManager.reverse_play_order ;;
               TurnManager.reverse_play_order) g = (g, Ok tt)).
  { erewrite bind_ok by apply reverse_play_order_spec.
    rewrite reverse_play_order_spec. f_equal.
    destruct g as [? ? ? [? ? [] ?] ? ? ? ? ? ? ? ?]; reflexivity. }
  split; [exact H|]. split; [by rewrite reverse_play_order_spec|].
  by rewrite H.
Qed.

(** [k] turns in a row. *)
Lemma end_turns_spec (k : nat) (g : Game) :
  _players (tm g) <> [] ->
  0 <= _current (tm g) < len (_players (tm g)) ->
  for_each (seq 0 k) (fun _ => TurnManager.end_turn) g =
    (set_tm (set_current
               ((_current (tm g) + Z.of_nat k * step (tm g))
                  mod len (_players (tm g)))
               (tm g)) g,
     Ok tt).
Proof.
  intros Hne Hcur. pose proof (len_pos _ Hne) as Hn.
  generalize 0%nat at 1. revert g Hne Hcur Hn.
  induction k as [|k IH]; intros g Hne Hcur Hn start.
  - cbn [seq for_each]. rewrite Z.mul_0_l, Z.add_0_r, Z.mod_small by done.
    f_equal. by destruct g as [? ? ? [? ? ? ?] ? ? ? ? ? ? ? ?].
  - cbn [seq for_each]. erewrite bind_ok by (by apply end_turn_spec).
    rewrite IH.
    + f_equal. destruct g as [? ? ? [pl cur cw ob] ? ? ? ? ? ? ? ?].
      unfold set_tm, set_current, step. cbn. do 2 f_equal.
      rewrite Z.add_mod_idemp_l by (cbn in Hn; lia). f_equal. lia.
    + done.
    + cbn. apply Z.mod_pos_bound. lia.
    + done.
Qed.

(** X3: when the index of the current player lies inside the player list,
    as many turns as there are players bring the game back to the same
    player, in either direction, and change nothing else. *)
Theorem full_round_returns_to_player (g : Game) :
  _players (tm g) <> [] ->
  0 <= _current (tm g) < len (_players (tm g)) ->
  for_range (len (_players (tm g))) TurnManager.end_turn g = (g, Ok tt).
Proof.
  intros Hne Hcur. unfold for_range, range_len, len. rewrite Nat2Z.id.
  rewrite end_turns_spec by done. f_equal.
  fold (len (_players (tm g))).
  rewrite (Z.mul_comm (len (_players (tm g)))), Z_mod_plus_full.
  rewrite Z.mod_small by done.
  by destruct g as [? ? ? [? ? ? ?] ? ? ? ? ? ? ? ?].
Qed.

Lemma full_round_returns_to_player_witness :
  let g := set_tm (set_clockwise false (set_current 1 (tm four_in_deck)))
             four_in_deck in
  _players (tm g) <> [] /\
  0 <= _current (tm g) < len (_players (tm g)) /\
  for_range (len (_players (tm g))) TurnManager.end_turn g = (g, Ok tt).
Proof.
  intros g.
  assert (Hne : _players (tm g) <> []) by (subst g; cbn; discriminate).
  assert (Hcur : 0 <= _current (tm g) < len (_players (tm g)))
    by (split; [discriminate | reflexivity]).
  exact (conj Hne (conj Hcur (full_round_returns_to_player g Hne Hcur))).
Defined.

(** X4: when the index of the current player lies inside the player list,
    a turn is undone by a turn in the reversed order: [end_turn], reverse,
    [end_turn], reverse leaves the game as it was. *)
Theorem end_turn_undone_in_reverse (g : Game) :
  _players (tm g) <> [] ->
  0 <= _current (tm g) < len (_players (tm g)) ->
  (TurnManager.end_turn ;; TurnManager.reverse_play_order ;;
   TurnManager.end_turn ;; TurnManager.reverse_play_order) g = (g, Ok tt).
Proof.
  intros Hne Hcur. pose proof (len_pos _ Hne) as Hn.
  erewrite bind_ok by (by apply end_turn_spec).
  erewrite bind_ok by apply reverse_play_order_spec.
  erewrite bind_ok by (apply end_turn_spec; by simpl_game).
  rewrite reverse_play_order_spec. f_equal.
  destruct g as [? ? ? [pl cur cw ob] ? ? ? ? ? ? ? ?].
  unfold step. simpl_game. cbn [tm _clockwise _current _players] in *.
  rewrite negb_involutive.
  replace ((((cur + (if cw then 1 else -1)) mod len pl
             + (if negb cw then 1 else -1)) mod len pl)) with cur; [done|].
  rewrite Z.add_mod_idemp_l by lia.
  replace (cur + (if cw then 1 else -1) + (if negb cw then 1 else -1))
    with cur by (destruct cw; cbn; lia).
  by rewrite Z.mod_small.
Qed.

Lemma end_turn_undone_in_reverse_witness :
  _players (tm four_in_deck) <> [] /\
  0 <= _current (tm four_in_deck) < len (_players (tm four_in_deck)) /\
  (TurnManager.end_turn ;; TurnManager.reverse_play_order ;;
   TurnManager.end_turn ;; TurnManager.reverse_play_order) four_in_deck
    = (four_in_deck, Ok tt).
Proof.
  assert (Hne : _players (tm four_in_deck) <> []) by (cbn; discriminate).
  assert (Hcur : 0 <= _current (tm four_in_deck)
                 < len (_players (tm four_in_deck)))
    by (split; [discriminate | reflexivity]).
  exact (conj Hne (conj Hcur (end_turn_undone_in_reverse _ Hne Hcur))).
Defined.

(** [validate_play] of a card that is no Number card and whose
    [can_execute_effect] raises: the error is caught and printed when the
    effect is consulted, that is when the colors match or the type is a
    configured wild kind; the answer is [False] either way. *)
Lemma validate_play_raising (g : Game) (c top : Card) (e : exn) :
  Board.show_top_card_on_board (board g) = Some top ->
  can_execute_effect g c = Raise e ->
  card_type c <> NUMBER ->
  GameEngine.validate_play c g =
    if bool_decide (effective_color c = effective_color top)
       || bool_decide (card_type c ∈ WILD_CARDS (deck_config g))
    then (set_stdout
            (stdout g ++ [LineExn (GameEngine.validation_error_text e) e]) g,
          Ok false)
    else (g, Ok false).
Proof.
  intros Htop Hexec Hnum. unfold GameEngine.validate_play.
  rewrite bind_gets, Htop.
  unfold try_except, bind, reads, ret, gets, print_exn, modify.
  rewrite (bool_decide_eq_false_2 (card_type c = NUMBER)) by done.
  destruct (bool_decide (effective_color c = effective_color top));
    destruct (bool_decide (card_type c ∈ WILD_CARDS (deck_config g)))
      eqn:Hwild;
    repeat first
      [ progress cbn -[can_execute_effect bool_decide]
      | progress rewrite Hexec
      | progress rewrite Hwild ];
    reflexivity.
Qed.

(** X5: a turn manager without players.  The modulus by the length of the
    empty list raises [ZeroDivisionError] in [end_turn], [skip_turn] and
    [get_next_player], before anything is assigned, and the subscript of
    [get_current_player] raises [IndexError].  With the final special card
    disallowed, the last-card check of a special card then raises that
    [IndexError] on a board with a top card; [validate_play] catches it
    when the card's color matches the top card or its type is a
    configured wild kind, prints the validation error and returns [False];
    for any other special card it returns [False] and prints nothing. *)
Theorem no_players_errors (g : Game) (c top : Card) :
  _players (tm g) = [] ->
  TurnManager.end_turn g = (g, Raise ZeroDivisionError) /\
  TurnManager.skip_turn g = (g, Raise ZeroDivisionError) /\
  TurnManager.get_next_player (tm g) = Raise ZeroDivisionError /\
  TurnManager.get_current_player (tm g) = Raise IndexError /\
  (ALLOW_FINAL_SPECIAL_CARD (rules g) = false ->
   card_type c <> NUMBER ->
   Board.show_top_card_on_board (board g) = Some top ->
   can_execute_effect g c = Raise IndexError /\
   (effective_color c = effective_color top
    \/ card_type c ∈ WILD_CARDS (deck_config g) ->
    GameEngine.validate_play c g =
      (set_stdout
         (stdout g ++
          [LineExn "Validation error: Unexpected general error: "
             IndexError]) g,
       Ok false)) /\
   (effective_color c <> effective_color top ->
    card_type c ∉ WILD_CARDS (deck_config g) ->
    GameEngine.validate_play c g = (g, Ok false))).
Proof.
  intros Hnone.
  assert (Hmod : forall a, py_mod a (len (_players (tm g)))
                           = Raise ZeroDivisionError)
    by (intros a; by rewrite Hnone).
  assert (Hend : TurnManager.end_turn g = (g, Raise ZeroDivisionError)).
  { unfold TurnManager.end_turn. run. unfold bind, lift_res.
    by destruct (_clockwise (tm g)); rewrite Hmod. }
  assert (Hcur : TurnManager.get_current_player (tm g) = Raise IndexError).
  { unfold TurnManager.get_current_player, py_pos. rewrite Hnone.
    cbn [length]. change (Z.of_nat 0) with 0.
    destruct (Z.ltb_spec (_current (tm g)) 0).
    - destruct (Z.leb_spec 0 (_current (tm g) + 0)); [lia|done].
    - destruct (Z.leb_spec 0 (_current (tm g))); [|lia].
      destruct (Z.ltb_spec (_current (tm g)) 0); [lia|done]. }
  split; [exact Hend|]. split; [exact Hend|]. split.
  { unfold TurnManager.get_next_player.
    by destruct (_clockwise (tm g)); rewrite Hmod. }
  split; [exact Hcur|].
  intros Hfinal Hnum Htop.
  assert (Hexec : can_execute_effect g c = Raise IndexError).
  { unfold can_execute_effect, card_type in *.
    destruct (cls c); try done;
      unfold SkipCard.can_execute_effect, DrawTwoCard.can_execute_effect,
        ReverseCard.can_execute_effect, WildCard.can_execute_effect,
        WildDrawFourCard.can_execute_effect, Card._validate_last_card_allowed;
      by rewrite Htop, Hfinal, Hcur. }
  split; [exact Hexec|].
  pose proof (validate_play_raising g c top IndexError Htop Hexec Hnum) as Hrun.
  split.
  - intros Hconsulted. rewrite Hrun.
    replace (bool_decide (effective_color c = effective_color top)
             || bool_decide (card_type c ∈ WILD_CARDS (deck_config g)))
      with true; [reflexivity|].
    symmetry. apply orb_true_iff.
    destruct Hconsulted as [H|H]; [left|right]; by apply bool_decide_eq_true.
  - intros Hcolor Hkind. rewrite Hrun.
    by rewrite (bool_decide_eq_false_2 _ Hcolor),
               (bool_decide_eq_false_2 _ Hkind).
Qed.

Lemma no_players_errors_witness :
  let g := set_tm (set_players [] (tm last_card_game)) last_card_game in
  _players (tm g) = [] /\
  TurnManager.end_turn g = (g, Raise ZeroDivisionError) /\
  GameEngine.validate_play red_skip_in_hand g =
    (set_stdout
       [LineExn "Validation error: Unexpected general error: " IndexError] g,
     Ok false).
Proof.
  intros g.
  assert (Hnone : _players (tm g) = []) by reflexivity.
  destruct (no_players_errors g red_skip_in_hand red_skip_on_top Hnone)
    as (Hend & _ & _ & _ & Hvalid).
  refine (conj Hnone (conj Hend _)).
  destruct (Hvalid eq_refl) as (_ & Hprinted & _);
    [discriminate | reflexivity |].
  exact (Hprinted (or_introl eq_refl)).
Defined.

(* ================================================================== *)
(** * Further properties: the board and the deck                       *)
(* ================================================================== *)

(** Observers whose handler accepts an event change only themselves. *)
Lemma notify_accepted (observers : list ObserverRef) (event : GameEvent)
    (data : EventData) (g : Game) :
  (forall o, exists o',
      GameContext.on_game_event event data o = (o', Ok tt)) ->
  exists objs,
    notify observers event data g = (set_observer_objs objs g, Ok tt).
Proof.
  intros Hok. unfold notify. revert g.
  induction observers as [|i observers IH]; intros g.
  - exists (observer_objs g). cbn [for_each]. by rewrite set_observer_objs_id.
  - cbn [for_each]. unfold call_observer at 1. unfold bind.
    destruct (observer_objs g !! i) as [o|].
    + destruct (Hok o) as [o' ->].
      destruct (IH (set_observer_objs (<[i:=o']> (observer_objs g)) g))
        as (objs & ->).
      by exists objs.
    + destruct (IH g) as (objs & ->). by exists objs.
Qed.

(** X6: after [add_card_to_board] the card is the last entry of the board
    and the one [show_top_card_on_board] returns, also when an observer
    raises on the event; nothing but the board list and the observers
    changes. *)
Theorem add_card_to_board_is_top (g : Game) (c : Card) :
  let g' := fst (Board.add_card_to_board c g) in
  _cards_on_board (board g') = _cards_on_board (board g) ++ [Some c] /\
  Board.show_top_card_on_board (board g') = Some c /\
  exists objs,
    g' = set_observer_objs objs
           (set_board
              (set_cards_on_board (_cards_on_board (board g) ++ [Some c])
                 (board g)) g).
Proof.
  intros g'. subst g'. unfold Board.add_card_to_board. run.
  unfold Board.notify_observers. run.
  match goal with
  | |- context [ notify ?obs ?ev ?data ?s ] =>
      destruct (notify_frame obs ev data s) as (objs & r & ->)
  end.
  cbn [fst]. simpl_game. repeat split.
  - eapply show_top_card_on_board_last. reflexivity.
  - by exists objs.
Qed.

Lemma on_add_card_to_deck (c : Card) (o : GameContext) :
  exists o',
    GameContext.on_game_event ADD_CARD_TO_DECK [("card", ObjCard c)] o
    = (o', Ok tt).
Proof. eexists. reflexivity. Qed.

(** Adding a card object to the deck never raises. *)
Lemma add_card_to_deck_spec (g : Game) (c : Card) :
  exists objs,
    Deck.add_card_to_deck (Some c) g =
      (set_observer_objs objs
         (set_deck (set_card_deck (_card_deck (deck g) ++ [Some c]) (deck g))
            g),
       Ok tt).
Proof.
  unfold Deck.add_card_to_deck. run. unfold Deck.notify_observers. run.
  match goal with
  | |- context [ notify ?obs ?ev ?data ?s ] =>
      destruct (notify_accepted obs ev data s) as (objs & ->)
  end.
  - apply on_add_card_to_deck.
  - by exists objs.
Qed.

(** X7: the deck is a stack.  A card object added to the deck is the card
    the next [draw_card] returns, and the deck list is then what it was;
    neither call raises, whoever observes the deck. *)
Theorem add_then_draw_returns_card (g : Game) (c : Card) :
  let run := (Deck.add_card_to_deck (Some c) ;; Deck.draw_card) g in
  snd run = Ok (Some c) /\
  _card_deck (deck (fst run)) = _card_deck (deck g) /\
  exists objs, fst run = set_observer_objs objs g.
Proof.
  intros run. subst run.
  destruct (add_card_to_deck_spec g c) as (objs & Hadd).
  erewrite bind_ok by exact Hadd.
  rewrite draw_card_spec. simpl_game. rewrite pop_snoc. cbn [fst snd].
  simpl_game. repeat split. exists objs.
  by destruct g as [? ? ? ? [? ?] ? ? ? ? ? ? ?].
Qed.

(** Overwriting an entry permutes the list up to the two values. *)
Lemma insert_Permutation {A} (l : list A) (i : nat) (x y : A) :
  l !! i = Some x -> y :: l ≡ₚ x :: <[i:=y]> l.
Proof.
  revert i. induction l as [|a l IH]; intros [|i] Hi; try done.
  - cbn in Hi. injection Hi as ->. cbn. apply Permutation_swap.
  - cbn in Hi. cbn [insert list_insert].
    change (<[S i:=y]> (a :: l)) with (a :: <[i:=y]> l).
    rewrite (Permutation_swap a y l), (IH i Hi).
    apply Permutation_swap.
Qed.

Lemma swap_Permutation {A} (x : list A) (i j : nat) :
  Random.swap x i j ≡ₚ x.
Proof.
  unfold Random.swap.
  destruct (x !! i) as [a|] eqn:Hi; [|done].
  destruct (x !! j) as [b|] eqn:Hj; [|done].
  destruct (decide (i = j)) as [->|Hne].
  - rewrite list_insert_insert_eq. assert (a = b) by congruence. subst b.
    by rewrite list_insert_id.
  - apply (Permutation_cons_inv (a := b)).
    rewrite (insert_Permutation x i a b Hi).
    symmetry. apply insert_Permutation.
    by rewrite list_lookup_insert_ne.
Qed.

Lemma shuffle_from_spec {A} (i : nat) :
  forall (x : list A) (g : Game),
    exists shuffled tape,
      Random.shuffle_from i x g = (set_random_tape tape g, Ok shuffled)
      /\ shuffled ≡ₚ x
      /\ tape = drop i (random_tape g).
Proof.
  induction i as [|i IH]; intros x g.
  - exists x, (random_tape g). cbn [Random.shuffle_from].
    split; [by destruct g | done].
  - cbn [Random.shuffle_from]. unfold bind, Random.randbelow.
    destruct (random_tape g) as [|r t] eqn:Htape.
    + destruct (IH (Random.swap x (S i) 0) g) as (s & tape & -> & Hs & Ht).
      exists s, tape. repeat split.
      * by rewrite Hs, swap_Permutation.
      * by rewrite Ht, Htape, !drop_nil.
    + destruct (IH (Random.swap x (S i) (r mod S (S i))%nat)
                  (set_random_tape t g)) as (s & tape & -> & Hs & Ht).
      exists s, tape. repeat split.
      * by rewrite Hs, swap_Permutation.
      * by rewrite Ht.
Qed.

(** [shuffle_deck] as a state change. *)
Lemma shuffle_deck_spec (g : Game) :
  exists shuffled,
    Deck.shuffle_deck g =
      (set_deck (set_card_deck shuffled (deck g))
         (set_random_tape
            (drop (length (_card_deck (deck g)) - 1) (random_tape g)) g),
       Ok tt)
    /\ shuffled ≡ₚ _card_deck (deck g).
Proof.
  unfold Deck.shuffle_deck, Random.shuffle. run.
  destruct (shuffle_from_spec (length (_card_deck (deck g)) - 1)
              (_card_deck (deck g)) g) as (s & tape & Hrun & Hperm & ->).
  erewrite bind_ok by exact Hrun. run.
  by exists s.
Qed.

(** X8: [shuffle_deck] never raises and only reorders: the deck afterwards
    is a permutation of the deck before, as long as before; it takes one
    value for every entry but one from the random source and touches
    nothing else. *)
Theorem shuffle_deck_permutes (g : Game) :
  exists shuffled,
    Deck.shuffle_deck g =
      (set_deck (set_card_deck shuffled (deck g))
         (set_random_tape
            (drop (length (_card_deck (deck g)) - 1) (random_tape g)) g),
       Ok tt)
    /\ shuffled ≡ₚ _card_deck (deck g)
    /\ length shuffled = length (_card_deck (deck g)).
Proof.
  destruct (shuffle_deck_spec g) as (s & Hrun & Hperm).
  exists s. repeat split; [done|done|]. by rewrite Hperm.
Qed.

(** X9: on a board that nobody observes [clear_all_except_last] is
    idempotent: a second call returns no entry and leaves the board as the
    first call left it. *)
Theorem clear_all_except_last_idempotent (g : Game) :
  board_observers (board g) = [] ->
  let g1 := fst (Board.clear_all_except_last g) in
  Board.clear_all_except_last g1 = (g1, Ok []) /\
  length (_cards_on_board (board g1)) = 1%nat.
Proof.
  intros Hobs g1. subst g1.
  rewrite (clear_all_except_last_unobserved g Hobs). cbn [fst].
  rewrite clear_all_except_last_unobserved by done.
  set (top := Board.show_top_card_on_board (board g)).
  assert (Htop : Board.show_top_card_on_board
                   (board (set_board (set_cards_on_board [top] (board g)) g))
                 = top).
  { apply (show_top_card_on_board_last _ []). reflexivity. }
  rewrite Htop. simpl_game. split; [|done].
  assert (Hsame : slot_eqb top top = true).
  { destruct top as [c|]; [|done]. cbn. apply Nat.eqb_refl. }
  cbn [List.filter]. by rewrite Hsame.
Qed.

Lemma clear_all_except_last_idempotent_witness :
  board_observers (board three_on_board) = [] /\
  Board.clear_all_except_last (fst (Board.clear_all_except_last three_on_board))
    = (fst (Board.clear_all_except_last three_on_board), Ok []).
Proof.
  assert (H : board_observers (board three_on_board) = []) by reflexivity.
  exact (conj H (proj1 (clear_all_except_last_idempotent three_on_board H))).
Defined.

(* ================================================================== *)
(** * Further properties: the hand                                     *)
(* ================================================================== *)

Lemma py_pos_spec {A} (l : list A) (i : Z) :
  py_pos l i =
    if (- len l <=? i) && (i <? len l)
    then Ok (Z.to_nat (i mod len l))
    else Raise IndexError.
Proof.
  unfold py_pos, len. set (n := Z.of_nat (length l)).
  assert (Hn : 0 <= n) by (subst n; lia).
  destruct (Z.ltb_spec i 0) as [Hneg|Hpos].
  - destruct (Z.leb_spec (- n) i) as [Hlo|Hlo].
    + replace ((0 <=? i + n) && (i + n <? n)) with true
        by (symmetry; apply andb_true_iff; split;
            [apply Z.leb_le | apply Z.ltb_lt]; lia).
      replace (i <? n) with true by (symmetry; apply Z.ltb_lt; lia).
      cbn [andb]. do 2 f_equal.
      apply Z.mod_unique with (-1); lia.
    + cbn [andb]. by replace (0 <=? i + n) with false
        by (symmetry; apply Z.leb_gt; lia).
  - replace (- n <=? i) with true by (symmetry; apply Z.leb_le; lia).
    replace (0 <=? i) with true by (symmetry; apply Z.leb_le; lia).
    cbn [andb]. destruct (Z.ltb_spec i n); [|done].
    by rewrite Z.mod_small.
Qed.

Lemma py_index_spec {A} (l : list A) (i : Z) :
  py_index l i =
    if (- len l <=? i) && (i <? len l)
    then match l !! Z.to_nat (i mod len l) with
         | Some x => Ok x
         | None => Raise IndexError
         end
    else Raise IndexError.
Proof.
  unfold py_index. rewrite py_pos_spec. by destruct (_ && _).
Qed.

(** X10: [select_card] never raises.  An index from [-n] to [n - 1], for a
    hand of [n] cards, selects a card, the negative ones counting from the
    end of the hand, and nothing is printed; any other index prints the
    index message and returns [None]. *)
Theorem select_card_bounds (h : Hand) (i : Z) (g : Game) :
  let n := len (_cards h) in
  (- n <= i < n ->
   exists card,
     Hand.select_card h i g = (g, Ok (Some card)) /\
     _cards h !! Z.to_nat (if i <? 0 then i + n else i) = Some card) /\
  (~ (- n <= i < n) ->
   Hand.select_card h i g =
     (set_stdout
        (stdout g
         ++ [LineExn "Not a valid index number, try again. Error: "
               IndexError]) g,
      Ok None)).
Proof.
  intros n. unfold Hand.select_card, try_except, bind, lift_res.
  rewrite py_index_spec. fold n. split.
  - intros [Hlo Hhi].
    replace ((- n <=? i) && (i <? n)) with true
      by (symmetry; apply andb_true_iff; split;
          [apply Z.leb_le | apply Z.ltb_lt]; lia).
    assert (Hpos : i mod n = if i <? 0 then i + n else i).
    { destruct (Z.ltb_spec i 0).
      - symmetry. apply Z.mod_unique with (-1); lia.
      - by rewrite Z.mod_small. }
    rewrite <- Hpos.
    assert (Hlt : (Z.to_nat (i mod n) < length (_cards h))%nat).
    { pose proof (Z.mod_pos_bound i n ltac:(lia)). subst n. unfold len in *.
      lia. }
    apply lookup_lt_is_Some in Hlt as [card Hcard].
    exists card. by rewrite Hcard.
  - intros Hout.
    replace ((- n <=? i) && (i <? n)) with false; [done|].
    symmetry. apply andb_false_iff.
    destruct (Z.leb_spec (- n) i); [right|by left].
    apply Z.ltb_ge. lia.
Qed.

(** X11: [remove_card] takes the first entry that is the card object out
    of the hand and keeps the others in order; it raises [ValueError] when
    no entry is that object; taking out a card object just added to a hand
    that did not hold it restores the hand. *)
Theorem remove_card_first_occurrence (card c : Card)
    (before after : list Card) :
  oid c = oid card ->
  Forall (fun x => oid x <> oid card) before ->
  Hand.remove_card card (mkHand (before ++ c :: after))
    = Ok (mkHand (before ++ after)) /\
  Hand.remove_card card (mkHand before) = Raise ValueError /\
  Hand.remove_card card (Hand.add_card card (mkHand before))
    = Ok (mkHand before).
Proof.
  intros Hc Hbefore.
  assert (Habsent : Hand.remove_first card before = Raise ValueError).
  { induction Hbefore as [|y l Hy _ IH]; [done|].
    cbn. apply Nat.eqb_neq in Hy. by rewrite Hy, IH. }
  assert (Hfound : forall x rest,
            oid x = oid card ->
            Hand.remove_first card (before ++ x :: rest) = Ok (before ++ rest)).
  { intros x rest Hx. clear Habsent.
    induction Hbefore as [|y l Hy _ IH].
    - cbn. by rewrite Hx, Nat.eqb_refl.
    - cbn. apply Nat.eqb_neq in Hy. by rewrite Hy, IH. }
  unfold Hand.remove_card, Hand.add_card. cbn [_cards].
  split; [by rewrite Hfound|]. split; [by rewrite Habsent|].
  rewrite Hfound by done. by rewrite app_nil_r.
Qed.

Lemma remove_card_first_occurrence_witness :
  oid red_5 = oid red_5 /\
  Forall (fun x => oid x <> oid red_5) [blue_7; green_2] /\
  Hand.remove_card red_5 (mkHand ([blue_7; green_2] ++ red_5 :: [yellow_9]))
    = Ok (mkHand ([blue_7; green_2] ++ [yellow_9])).
Proof.
  assert (H1 : oid red_5 = oid red_5) by reflexivity.
  assert (H2 : Forall (fun x => oid x <> oid red_5) [blue_7; green_2])
    by (repeat constructor; discriminate).
  exact (conj H1 (conj H2
           (proj1 (remove_card_first_occurrence red_5 red_5
                     [blue_7; green_2] [yellow_9] H1 H2)))).
Defined.

(* ================================================================== *)
(** * Further properties: legality                                     *)
(* ================================================================== *)

(** With the final special card allowed the last-card check is skipped. *)
Lemma can_execute_effect_final_allowed (g : Game) (c : Card) :
  ALLOW_FINAL_SPECIAL_CARD (rules g) = true ->
  can_execute_effect g c =
    Ok (match cls c, Board.show_top_card_on_board (board g) with
        | (DrawTwoCard | WildDrawFourCard), Some top =>
            negb (negb (STACKABLE_DRAW_CARDS (rules g))
                  && bool_decide (DRAW ∈ _effect_types top))
        | _, _ => true
        end).
Proof.
  intros Hfinal. unfold can_execute_effect.
  destruct (cls c);
    unfold NumberCard.can_execute_effect, SkipCard.can_execute_effect,
      DrawTwoCard.can_execute_effect, ReverseCard.can_execute_effect,
      WildCard.can_execute_effect, WildDrawFourCard.can_execute_effect,
      Card._validate_last_card_allowed, effect_types;
    rewrite ?Hfinal; cbn [negb res_bind];
    destruct (Board.show_top_card_on_board (board g)) as [top|];
    try reflexivity;
    by destruct (negb (STACKABLE_DRAW_CARDS (rules g))
                 && bool_decide (DRAW ∈ _effect_types top)).
Qed.

(** What [validate_play] leaves behind: the game itself, or the game with
    one line of validation error. *)
Lemma validate_play_state (g : Game) (c : Card) :
  fst (GameEngine.validate_play c g) = g
  \/ exists e,
       can_execute_effect g c = Raise e /\
       fst (GameEngine.validate_play c g) =
         set_stdout
           (stdout g ++ [LineExn (GameEngine.validation_error_text e) e]) g.
Proof.
  unfold GameEngine.validate_play. rewrite bind_gets.
  destruct (Board.show_top_card_on_board (board g)) as [top|];
    [|by left].
  unfold try_except, bind, reads, ret, gets, print_exn, modify.
  destruct (can_execute_effect g c) as [[|]|e] eqn:Hexec;
    destruct (bool_decide (effective_color c = effective_color top));
    destruct (bool_decide (card_type c = NUMBER));
    destruct (bool_decide (card_value c = card_value top));
    repeat first
      [ progress cbn -[can_execute_effect bool_decide]
      | progress rewrite Hexec
      | match goal with
        | |- context [bool_decide (card_type c ∈ ?l)] =>
            destruct (bool_decide (card_type c ∈ l))
        end ];
    try (by left); right; by exists e.
Qed.

(** The state after [validate_play]: the printed text grows by at most
    one line, and by none with the final special card allowed. *)
Lemma validate_play_only_state (g : Game) (c : Card) :
  exists line,
    fst (GameEngine.validate_play c g) = set_stdout (stdout g ++ line) g
    /\ (ALLOW_FINAL_SPECIAL_CARD (rules g) = true -> line = []).
Proof.
  destruct (validate_play_state g c) as [H|(e & He & H)].
  - exists []. by rewrite app_nil_r, set_stdout_id.
  - exists [LineExn (GameEngine.validation_error_text e) e].
    split; [done|]. intros Hfinal.
    by rewrite can_execute_effect_final_allowed in He.
Qed.

(** X12: [validate_play] is a check: it changes nothing but the printed
    text, to which it adds at most the one line of a validation error, and
    that only when [can_execute_effect] raises; with the final special
    card allowed it changes nothing at all. *)
Theorem validate_play_only_prints (g : Game) (c : Card) :
  (fst (GameEngine.validate_play c g) = g
   \/ exists e,
        can_execute_effect g c = Raise e /\
        fst (GameEngine.validate_play c g) =
          set_stdout
            (stdout g ++ [LineExn (GameEngine.validation_error_text e) e]) g)
  /\ (ALLOW_FINAL_SPECIAL_CARD (rules g) = true ->
      fst (GameEngine.validate_play c g) = g).
Proof.
  split; [apply validate_play_state|].
  intros Hfinal. destruct (validate_play_state g c) as [H|(e & He & _)];
    [done|].
  by rewrite can_execute_effect_final_allowed in He.
Qed.

(** X13: a Number card on a board with a top card is legal exactly when
    its color is the top card's effective color, or its value is the top
    card's value, or the configuration lists NUMBER among the wild kinds;
    the check prints nothing. *)
Theorem number_card_legality (g : Game) (c top : Card) :
  card_type c = NUMBER ->
  Board.show_top_card_on_board (board g) = Some top ->
  GameEngine.validate_play c g =
    (g, Ok (bool_decide (effective_color c = effective_color top)
            || bool_decide (card_value c = card_value top)
            || bool_decide (NUMBER ∈ WILD_CARDS (deck_config g)))).
Proof.
  intros Hnum Htop.
  pose proof (number_card_can_execute_effect g c Hnum) as Hexec.
  rewrite (surjective_pairing (GameEngine.validate_play c g)). f_equal.
  - destruct (validate_play_state g c) as [H|(e & He & _)]; [done|].
    by rewrite Hexec in He.
  - rewrite validate_play_returns_spec. f_equal.
    unfold validate_play_spec. rewrite Htop, Hexec, Hnum. cbn [holds].
    rewrite (bool_decide_eq_true_2 (NUMBER = NUMBER)) by done.
    rewrite !andb_true_r. cbn [andb].
    by destruct (bool_decide (effective_color c = effective_color top)),
         (bool_decide (card_value c = card_value top)),
         (bool_decide (NUMBER ∈ WILD_CARDS (deck_config g))).
Qed.

Lemma number_card_legality_witness :
  card_type blue_7 = NUMBER /\
  Board.show_top_card_on_board (board short_deck_game) = Some blue_7 /\
  GameEngine.validate_play blue_7 short_deck_game
    = (short_deck_game, Ok true) /\
  GameEngine.validate_play red_5 short_deck_game
    = (short_deck_game, Ok false).
Proof.
  assert (H1 : card_type blue_7 = NUMBER) by reflexivity.
  assert (H2 : card_type red_5 = NUMBER) by reflexivity.
  assert (Ht : Board.show_top_card_on_board (board short_deck_game)
               = Some blue_7) by reflexivity.
  refine (conj H1 (conj Ht (conj _ _))).
  - exact (number_card_legality short_deck_game blue_7 blue_7 H1 Ht).
  - exact (number_card_legality short_deck_game red_5 blue_7 H2 Ht).
Defined.

(** X14: with the final special card allowed, [can_execute_effect] never
    raises and answers [False] for one case only, a DrawTwo or
    WildDrawFour card on a top card of the Draw category with stacking
    off; a card of a configured wild kind is then legal on every board
    but for that case. *)
Theorem special_cards_when_final_allowed (g : Game) (c : Card) :
  ALLOW_FINAL_SPECIAL_CARD (rules g) = true ->
  let stacking_refused :=
    match cls c, Board.show_top_card_on_board (board g) with
    | (DrawTwoCard | WildDrawFourCard), Some top =>
        negb (STACKABLE_DRAW_CARDS (rules g))
        && bool_decide (DRAW ∈ _effect_types top)
    | _, _ => false
    end in
  can_execute_effect g c = Ok (negb stacking_refused) /\
  (card_type c ∈ WILD_CARDS (deck_config g) ->
   stacking_refused = false ->
   GameEngine.validate_play c g = (g, Ok true)).
Proof.
  intros Hfinal refused.
  assert (Hexec : can_execute_effect g c = Ok (negb refused)).
  { rewrite can_execute_effect_final_allowed by done. f_equal. subst refused.
    destruct (cls c), (Board.show_top_card_on_board (board g));
      try reflexivity. }
  split; [exact Hexec|].
  intros Hwild Hfree.
  rewrite (surjective_pairing (GameEngine.validate_play c g)). f_equal.
  - by apply validate_play_only_prints.
  - rewrite validate_play_returns_spec. f_equal.
    unfold validate_play_spec.
    destruct (Board.show_top_card_on_board (board g)) as [top|]; [|done].
    rewrite Hexec, Hfree. cbn [negb holds].
    rewrite (bool_decide_eq_true_2 _ Hwild). rewrite !andb_true_r.
    by destruct (bool_decide (effective_color c = effective_color top)),
         (bool_decide (card_type c = NUMBER)
          && bool_decide (card_value c = card_value top)).
Qed.

Lemma special_cards_when_final_allowed_witness :
  let wild := WildCard_init 20 (Some 20) in
  ALLOW_FINAL_SPECIAL_CARD (rules short_deck_game) = true /\
  card_type wild ∈ WILD_CARDS (deck_config short_deck_game) /\
  GameEngine.validate_play wild short_deck_game = (short_deck_game, Ok true).
Proof.
  intros wild.
  assert (H : ALLOW_FINAL_SPECIAL_CARD (rules short_deck_game) = true)
    by reflexivity.
  assert (Hw : card_type wild ∈ WILD_CARDS (deck_config short_deck_game))
    by apply list_elem_of_here.
  refine (conj H (conj Hw _)).
  exact (proj2 (special_cards_when_final_allowed short_deck_game wild H)
           Hw eq_refl).
Defined.

(* ================================================================== *)
(** * Further properties: the card factory and the deck builder        *)
(* ================================================================== *)

(** Setters and attribute reads, evaluated innermost first. *)
Ltac norm_game :=
  cbv beta iota delta
    [set_game_active set_tm set_deck set_board set_observer_objs
     set_next_card_id set_next_oid set_random_tape set_stdout
     set_cards_on_board set_card_deck
     game_active rules deck_config tm deck board game_observers
     observer_objs next_card_id next_oid random_tape stdout
     _card_deck deck_observers _cards_on_board board_observers].

Lemma create_card_cases (g : Game) (color : option Color) (t : CardType)
    (v : option Z) :
  if creatable color t v
  then exists c,
         CardFactory.create_card color t v g =
           (set_next_oid (S (next_oid g))
              (set_next_card_id (next_card_id g + 1) g), Ok c)
         /\ oid c = next_oid g
         /\ _card_id c = Some (next_card_id g)
         /\ card_type c = t
         /\ _card_value c = (if bool_decide (t = NUMBER) then v else None)
         /\ Some (_color c)
            = (if bool_decide (t ∈ [WILD; WILD_DRAW_FOUR])
               then Some COLORLESS else color)
  else CardFactory.create_card color t v g =
         (set_next_card_id (next_card_id g + 1) g, Raise ValueError).
Proof.
  unfold CardFactory.create_card, CardFactory.__generate_card_id,
    CardFactory.fresh_oid, creatable.
  destruct t, color as [col|], v as [val|];
    cbn [bool_decide decide_rel andb]; run;
    try reflexivity;
    (eexists; split; [reflexivity|]; by repeat split).
Qed.

(** X15: [create_card] takes the next card id before it looks at its
    arguments.  With arguments it accepts (a value and a color for NUMBER,
    a color for SKIP, DRAW_TWO and REVERSE, anything for the two wild
    types) it returns a new card object of that type carrying the id the
    counter held, the given value for a Number card and no value
    otherwise, the given color or COLORLESS for the wild types; with any
    other arguments it raises [ValueError] and the id is used up all the
    same. *)
Theorem create_card_uses_an_id (g : Game) (color : option Color)
    (t : CardType) (v : option Z) :
  next_card_id (fst (CardFactory.create_card color t v g))
    = next_card_id g + 1 /\
  (creatable color t v = true ->
   exists c,
     CardFactory.create_card color t v g =
       (set_next_oid (S (next_oid g))
          (set_next_card_id (next_card_id g + 1) g), Ok c)
     /\ oid c = next_oid g
     /\ _card_id c = Some (next_card_id g)
     /\ card_type c = t
     /\ _card_value c = (if bool_decide (t = NUMBER) then v else None)
     /\ Some (_color c)
        = (if bool_decide (t ∈ [WILD; WILD_DRAW_FOUR])
           then Some COLORLESS else color)) /\
  (creatable color t v = false ->
   CardFactory.create_card color t v g =
     (set_next_card_id (next_card_id g + 1) g, Raise ValueError)).
Proof.
  pose proof (create_card_cases g color t v) as H.
  destruct (creatable color t v).
  - destruct H as (c & Hrun & Hc). split; [by rewrite Hrun|].
    split; [|done]. intros _. by exists c.
  - split; [by rewrite H|]. split; [done|]. by intros _.
Qed.

(** ** The loops of [populate_deck] *)

Lemma for_each_count {A} (P : nat -> Game -> Prop) (w : A -> nat)
    (body : A -> M Game unit) (l : list A) :
  (forall x k s, x ∈ l -> P k s ->
     exists s', body x s = (s', Ok tt) /\ P (k + w x)%nat s') ->
  forall k s, P k s ->
    exists s', for_each l body s = (s', Ok tt)
               /\ P (k + sum_list_with w l)%nat s'.
Proof.
  induction l as [|x l IH]; intros Hbody k s HP.
  - exists s. cbn [for_each sum_list_with]. by rewrite Nat.add_0_r.
  - destruct (Hbody x k s (list_elem_of_here _ _) HP) as (s1 & Hrun & HP1).
    destruct (IH (fun y k' s' Hy => Hbody y k' s' (list_elem_of_further _ _ _ Hy))
                _ _ HP1) as (s2 & Hrest & HP2).
    exists s2. cbn [for_each sum_list_with].
    erewrite bind_ok by exact Hrun. split; [exact Hrest|].
    by rewrite Nat.add_assoc.
Qed.

Lemma sum_list_with_const {A} (l : list A) (n : nat) :
  sum_list_with (fun _ => n) l = (length l * n)%nat.
Proof. induction l as [|x l IH]; [done|]. cbn. by rewrite IH. Qed.

Lemma for_range_count (P : nat -> Game -> Prop) (n : Z)
    (body : M Game unit) :
  (forall k s, P k s -> exists s', body s = (s', Ok tt) /\ P (S k) s') ->
  forall k s, P k s ->
    exists s', for_range n body s = (s', Ok tt) /\ P (k + range_len n)%nat s'.
Proof.
  intros Hbody k s HP. unfold for_range.
  destruct (for_each_count P (fun _ => 1%nat) (fun _ => body)
              (seq 0 (range_len n))) with (k := k) (s := s)
    as (s' & Hrun & HP'); [|done|].
  - intros _ k' s0 _ HP0. destruct (Hbody k' s0 HP0) as (s1 & ? & ?).
    exists s1. by rewrite Nat.add_1_r.
  - exists s'. split; [done|].
    by rewrite sum_list_with_const, length_seq, Nat.mul_1_r in HP'.
Qed.

Lemma built_nil (g : Game) : built g [] g.
Proof.
  split; [|done]. exists (observer_objs g).
  destruct g as [ga ru dc t [cd dobs] b go oo nci noi rt so]. norm_game.
  cbn [length map]. by rewrite app_nil_r, Z.add_0_r, Nat.add_0_r.
Qed.

(** One card created and added. *)
Lemma built_step (g s : Game) (new : list Card) (color : option Color)
    (t : CardType) (v : option Z) :
  creatable color t v = true ->
  built g new s ->
  exists c s',
    (card <- CardFactory.create_card color t v ;;
     Deck.add_card_to_deck (Some card)) s = (s', Ok tt)
    /\ built g (new ++ [c]) s'.
Proof.
  intros Hok ((objs & ->) & Hids & Hoids).
  pose proof (create_card_cases
    (set_observer_objs objs
       (set_next_oid (next_oid g + length new)
          (set_next_card_id (next_card_id g + Z.of_nat (length new))
             (set_deck
                (set_card_deck (_card_deck (deck g) ++ map Some new)
                   (deck g)) g)))) color t v) as Hcreate.
  rewrite Hok in Hcreate.
  destruct Hcreate as (c & Hrun & Hoid & Hid & _).
  match type of Hrun with _ = (?s1, _) =>
    destruct (add_card_to_deck_spec s1 c) as (objs' & Hadd) end.
  exists c. eexists. split.
  { erewrite bind_ok by exact Hrun. exact Hadd. }
  split; [|split].
  - exists objs'. destruct g as [ga ru dc t0 [cd dobs] b go oo nci noi rt so].
    norm_game. rewrite length_app, map_app. cbn [length map].
    rewrite Nat2Z.inj_add, <- !app_assoc.
    f_equal; [lia | lia].
  - rewrite map_app, length_app. cbn [length map].
    rewrite Nat.add_1_r, seq_S, map_app. cbn [map].
    rewrite Hids, Hid. norm_game. by rewrite Nat.add_0_l.
  - rewrite map_app, length_app. cbn [length map].
    rewrite Nat.add_1_r, seq_S. rewrite Hoids, Hoid. by norm_game.
Qed.

Lemma buildable_creatable (color : Color) (t : CardType) :
  buildable t -> creatable (Some color) t None = true.
Proof.
  unfold buildable. rewrite !elem_of_cons, elem_of_nil.
  intros [->|[->|[->|[->|[->|[]]]]]]; reflexivity.
Qed.

(** The three loops of [populate_deck], before the shuffle. *)
Lemma populate_loops (g : Game) (cfg : DeckConfiguration) :
  Forall buildable (ACTION_CARDS cfg) ->
  Forall buildable (WILD_CARDS cfg) ->
  exists new s,
    (for_each (DECK_COLORS cfg) (fun color =>
       for_each (FREQUENCY_OF_NUMBER_CARDS cfg) (fun item =>
         let '(card_value, frequency) := item in
         for_range frequency
           (card <- CardFactory.create_card (Some color) NUMBER
                      (Some card_value) ;;
            Deck.add_card_to_deck (Some card))) ;;
       for_each (ACTION_CARDS cfg) (fun card_type =>
         for_range (ACTION_CARDS_PER_COLOR cfg)
           (card <- CardFactory.create_card (Some color) card_type None ;;
            Deck.add_card_to_deck (Some card)))) ;;
     for_each (WILD_CARDS cfg) (fun card_type =>
       for_range (WILD_CARDS_PER_TYPE cfg)
         (card <- CardFactory.create_card (Some COLORLESS) card_type None ;;
          Deck.add_card_to_deck (Some card)))) g = (s, Ok tt)
    /\ length new = configured_deck_size cfg
    /\ built g new s.
Proof.
  intros Haction Hwild.
  set (P := fun (k : nat) (s : Game) =>
              exists new, length new = k /\ built g new s).
  assert (Hone : forall color t v, creatable color t v = true ->
            forall k s, P k s ->
              exists s',
                (card <- CardFactory.create_card color t v ;;
                 Deck.add_card_to_deck (Some card)) s = (s', Ok tt)
                /\ P (S k) s').
  { intros color t v Hok k s (new & Hlen & Hbuilt).
    destruct (built_step g s new color t v Hok Hbuilt) as (c & s' & Hrun & Hb).
    exists s'. split; [done|]. exists (new ++ [c]). split; [|done].
    rewrite length_app. cbn [length]. lia. }
  assert (Hcolor : forall color k s, P k s ->
            exists s',
              (for_each (FREQUENCY_OF_NUMBER_CARDS cfg) (fun item =>
                 let '(card_value, frequency) := item in
                 for_range frequency
                   (card <- CardFactory.create_card (Some color) NUMBER
                              (Some card_value) ;;
                    Deck.add_card_to_deck (Some card))) ;;
               for_each (ACTION_CARDS cfg) (fun card_type =>
                 for_range (ACTION_CARDS_PER_COLOR cfg)
                   (card <- CardFactory.create_card (Some color) card_type
                              None ;;
                    Deck.add_card_to_deck (Some card)))) s = (s', Ok tt)
              /\ P (k + cards_per_color cfg)%nat s').
  { intros color k s HP.
    destruct (for_each_count P (fun item : Z * Z => range_len item.2)
                (fun item : Z * Z =>
                   let '(card_value, frequency) := item in
                   for_range frequency
                     (card <- CardFactory.create_card (Some color) NUMBER
                                (Some card_value) ;;
                      Deck.add_card_to_deck (Some card)))
                (FREQUENCY_OF_NUMBER_CARDS cfg)) with (k := k) (s := s)
      as (s1 & Hnum & HP1); [|done|].
    { intros [value frequency] k' s0 _ HP0. cbn [snd].
      apply for_range_count; [|done]. by apply Hone. }
    destruct (for_each_count P
                (fun _ : CardType => range_len (ACTION_CARDS_PER_COLOR cfg))
                (fun card_type =>
                   for_range (ACTION_CARDS_PER_COLOR cfg)
                     (card <- CardFactory.create_card (Some color) card_type
                                None ;;
                      Deck.add_card_to_deck (Some card)))
                (ACTION_CARDS cfg)) with (k := (k + sum_list_with
                   (fun item : Z * Z => range_len item.2)
                   (FREQUENCY_OF_NUMBER_CARDS cfg))%nat) (s := s1)
      as (s2 & Hact & HP2); [|done|].
    { intros t k' s0 Ht HP0. apply for_range_count; [|done].
      apply Hone, buildable_creatable.
      rewrite Forall_forall in Haction. by apply Haction. }
    exists s2. erewrite bind_ok by exact Hnum. split; [exact Hact|].
    rewrite sum_list_with_const in HP2. unfold cards_per_color.
    by rewrite Nat.add_assoc. }
  destruct (for_each_count P (fun _ : Color => cards_per_color cfg)
              (fun color =>
                 for_each (FREQUENCY_OF_NUMBER_CARDS cfg) (fun item =>
                   let '(card_value, frequency) := item in
                   for_range frequency
                     (card <- CardFactory.create_card (Some color) NUMBER
                                (Some card_value) ;;
                      Deck.add_card_to_deck (Some card))) ;;
                 for_each (ACTION_CARDS cfg) (fun card_type =>
                   for_range (ACTION_CARDS_PER_COLOR cfg)
                     (card <- CardFactory.create_card (Some color) card_type
                                None ;;
                      Deck.add_card_to_deck (Some card))))
              (DECK_COLORS cfg)) with (k := 0%nat) (s := g)
    as (s1 & Hcolors & HP1).
  { intros color k s _ HP. by apply Hcolor. }
  { exists []. split; [done|]. apply built_nil. }
  destruct (for_each_count P
              (fun _ : CardType => range_len (WILD_CARDS_PER_TYPE cfg))
              (fun card_type =>
                 for_range (WILD_CARDS_PER_TYPE cfg)
                   (card <- CardFactory.create_card (Some COLORLESS)
                              card_type None ;;
                    Deck.add_card_to_deck (Some card)))
              (WILD_CARDS cfg)) with (k := (0 + sum_list_with
                 (fun _ : Color => cards_per_color cfg)
                 (DECK_COLORS cfg))%nat) (s := s1)
    as (s2 & Hwilds & new & Hlen & Hbuilt); [|done|].
  { intros t k' s0 Ht HP0. apply for_range_count; [|done].
    apply Hone, buildable_creatable.
    rewrite Forall_forall in Hwild. by apply Hwild. }
  exists new, s2. erewrite bind_ok by exact Hcolors.
  split; [exact Hwilds|]. split; [|done].
  rewrite Hlen, !sum_list_with_const. unfold configured_deck_size. lia.
Qed.

(** [populate_deck] as a state change. *)
Lemma populate_deck_state (g : Game) (cfg : DeckConfiguration) :
  Forall buildable (ACTION_CARDS cfg) ->
  Forall buildable (WILD_CARDS cfg) ->
  exists (new : list Card) (shuffled : list slot) s,
    DeckBuilder.populate_deck cfg g = (s, Ok tt)
    /\ _card_deck (deck s) = shuffled
    /\ shuffled ≡ₚ _card_deck (deck g) ++ map Some new
    /\ length new = configured_deck_size cfg.
Proof.
  intros Haction Hwild.
  destruct (populate_loops g cfg Haction Hwild)
    as (new & s & Hloops & Hlen & (objs & ->) & _).
  match type of Hloops with _ = (?s1, _) =>
    destruct (shuffle_deck_spec s1) as (shuffled & Hshuffle & Hperm) end.
  exists new, shuffled. eexists. split; [|split; [|split; [exact Hperm|done]]].
  - unfold DeckBuilder.populate_deck. rewrite <- bind_assoc.
    erewrite bind_ok by exact Hloops. exact Hshuffle.
  - by norm_game.
Qed.

(** X16: with the configured action and wild card types among the types
    that [create_card] builds for a color, [populate_deck] never raises.
    It creates as many cards as the configuration asks for (for every
    color the frequencies of the number cards and the action cards per
    color, then the wild cards per type, a negative count being none),
    with consecutive ids from the factory's counter and as new objects;
    the deck afterwards is a permutation of the cards it held followed by
    the new ones, and nothing but the deck, the counters, the random
    source and the observers' snapshots has changed. *)
Theorem populate_deck_builds (g : Game) (cfg : DeckConfiguration) :
  Forall buildable (ACTION_CARDS cfg) ->
  Forall buildable (WILD_CARDS cfg) ->
  exists (new : list Card) (shuffled : list slot) objs tape,
    DeckBuilder.populate_deck cfg g =
      (set_random_tape tape
         (set_observer_objs objs
            (set_next_oid (next_oid g + configured_deck_size cfg)
               (set_next_card_id
                  (next_card_id g + Z.of_nat (configured_deck_size cfg))
                  (set_deck (set_card_deck shuffled (deck g)) g)))),
       Ok tt)
    /\ shuffled ≡ₚ _card_deck (deck g) ++ map Some new
    /\ length new = configured_deck_size cfg
    /\ map _card_id new
       = map (fun i : nat => Some (next_card_id g + Z.of_nat i))
           (seq 0 (configured_deck_size cfg))
    /\ map oid new = seq (next_oid g) (configured_deck_size cfg)
    /\ tape = drop (length (_card_deck (deck g)) + configured_deck_size cfg - 1)
                (random_tape g).
Proof.
  intros Haction Hwild.
  destruct (populate_loops g cfg Haction Hwild)
    as (new & s & Hloops & Hlen & (objs & ->) & Hids & Hoids).
  rewrite Hlen in *.
  match type of Hloops with _ = (?s1, _) =>
    destruct (shuffle_deck_spec s1) as (shuffled & Hshuffle & Hperm) end.
  exists new, shuffled, objs,
    (drop (length (_card_deck (deck g)) + configured_deck_size cfg - 1)
       (random_tape g)).
  split; [|done].
  unfold DeckBuilder.populate_deck. rewrite <- bind_assoc.
  erewrite bind_ok by exact Hloops. etransitivity; [exact Hshuffle|].
  destruct g as [ga ru dc t [cd dobs] b go oo nci noi rt so].
  norm_game. by rewrite length_app, length_map, Hlen.
Qed.

Lemma populate_deck_builds_witness :
  let g := Game_new [] StandardRules StandardDeck 0 0 [] [] in
  configured_deck_size StandardDeck = 108%nat /\
  exists (new : list Card) (shuffled : list slot) objs tape,
    DeckBuilder.populate_deck StandardDeck g =
      (set_random_tape tape
         (set_observer_objs objs
            (set_next_oid 108
               (set_next_card_id 108
                  (set_deck (set_card_deck shuffled (deck g)) g)))),
       Ok tt)
    /\ shuffled ≡ₚ _card_deck (deck g) ++ map Some new
    /\ length new = 108%nat
    /\ map _card_id new
       = map (fun i : nat => Some (next_card_id g + Z.of_nat i)) (seq 0 108)
    /\ map oid new = seq (next_oid g) 108
    /\ tape = drop (length (_card_deck (deck g)) + 108 - 1) (random_tape g).
Proof.
  intros g. split; [reflexivity|].
  assert (Ha : Forall buildable (ACTION_CARDS StandardDeck))
    by (apply (bool_decide_unpack _); vm_compute; exact I).
  assert (Hw : Forall buildable (WILD_CARDS StandardDeck))
    by (apply (bool_decide_unpack _); vm_compute; exact I).
  exact (populate_deck_builds g StandardDeck Ha Hw).
Defined.

(** What an empty list of issues says about a configuration. *)
Lemma flat_map_nil {A B} (f : A -> list B) (l : list A) :
  flat_map f l = [] -> Forall (fun x => f x = []) l.
Proof.
  induction l as [|x l IH]; [by constructor|].
  cbn [flat_map]. intros [H1 H2]%app_eq_nil. constructor; auto.
Qed.

Lemma validate_deckconfig_nil (cfg : DeckConfiguration) :
  validate_deckconfig cfg = [] ->
  Forall (fun item : Z * Z => 0 <= item.1 /\ 0 <= item.2)
    (FREQUENCY_OF_NUMBER_CARDS cfg)
  /\ 0 <= ACTION_CARDS_PER_COLOR cfg
  /\ 0 <= WILD_CARDS_PER_TYPE cfg
  /\ DECK_COLORS cfg <> []
  /\ Forall (fun t => t ∈ [SKIP; DRAW_TWO; REVERSE]) (ACTION_CARDS cfg)
  /\ Forall (fun t => t ∈ [WILD; WILD_DRAW_FOUR]) (WILD_CARDS cfg).
Proof.
  unfold validate_deckconfig.
  intros (Hfreq & (Hact & (Hwild & (Hcol & (Hatypes & Hwtypes)%app_eq_nil)
    %app_eq_nil)%app_eq_nil)%app_eq_nil)%app_eq_nil.
  apply flat_map_nil in Hfreq, Hatypes, Hwtypes.
  repeat split.
  - eapply Forall_impl; [exact Hfreq|]. intros [value frequency] H.
    cbn [fst snd]. apply app_eq_nil in H as [H1 H2].
    destruct (Z.leb_spec 0 value); [|done].
    destruct (Z.ltb_spec frequency 0); [done|]. lia.
  - by destruct (Z.ltb_spec (ACTION_CARDS_PER_COLOR cfg) 0); [|lia].
  - by destruct (Z.ltb_spec (WILD_CARDS_PER_TYPE cfg) 0); [|lia].
  - intros Hnil. by rewrite Hnil in Hcol.
  - eapply Forall_impl; [exact Hatypes|]. intros t H. cbv beta in H.
    by case_bool_decide.
  - eapply Forall_impl; [exact Hwtypes|]. intros t H. cbv beta in H.
    by case_bool_decide.
Qed.

Lemma frequency_sum_spec (items : list (Z * Z)) :
  Forall (fun item : Z * Z => 0 <= item.2) items ->
  Z.of_nat (sum_list_with (fun item : Z * Z => range_len item.2) items)
  = frequency_sum items.
Proof.
  induction 1 as [|[value frequency] items Hpos _ IH]; [done|].
  unfold frequency_sum in *. cbn [sum_list_with foldr snd] in *.
  rewrite Nat2Z.inj_add, <- IH. unfold range_len. rewrite Z2Nat.id; done.
Qed.

(** X17: a configuration for which [validate_deckconfig] reports no issue
    can be built: [populate_deck] does not raise, and it adds to the deck
    exactly colors x (sum of the frequencies + action types x
    ACTION_CARDS_PER_COLOR) + wild types x WILD_CARDS_PER_TYPE cards, with
    at least one color configured. *)
Theorem validated_config_builds (g : Game) (cfg : DeckConfiguration) :
  validate_deckconfig cfg = [] ->
  let built_game := fst (DeckBuilder.populate_deck cfg g) in
  snd (DeckBuilder.populate_deck cfg g) = Ok tt /\
  len (_card_deck (deck built_game))
  = len (_card_deck (deck g))
    + len (DECK_COLORS cfg)
      * (frequency_sum (FREQUENCY_OF_NUMBER_CARDS cfg)
         + len (ACTION_CARDS cfg) * ACTION_CARDS_PER_COLOR cfg)
    + len (WILD_CARDS cfg) * WILD_CARDS_PER_TYPE cfg /\
  0 < len (DECK_COLORS cfg).
Proof.
  intros (Hfreq & Hact & Hwild & Hcol & Hatypes & Hwtypes)%validate_deckconfig_nil
    built_game.
  destruct (populate_deck_state g cfg) as (new & shuffled & s & Hrun & Hdeck
                                            & Hperm & Hlen).
  { eapply Forall_impl; [exact Hatypes|]. intros t Ht. unfold buildable.
    rewrite !elem_of_cons in *. tauto. }
  { eapply Forall_impl; [exact Hwtypes|]. intros t Ht. unfold buildable.
    rewrite !elem_of_cons in *. tauto. }
  subst built_game. rewrite Hrun. cbn [fst snd]. split; [done|]. split.
  - rewrite Hdeck. unfold len. rewrite Hperm, length_app, length_map, Hlen.
    unfold configured_deck_size, cards_per_color.
    rewrite !Nat2Z.inj_add, !Nat2Z.inj_mul, Nat2Z.inj_add, Nat2Z.inj_mul.
    rewrite frequency_sum_spec
      by (eapply Forall_impl; [exact Hfreq|]; by intros ? [? ?]).
    unfold range_len. rewrite !Z2Nat.id by done. lia.
  - unfold len. destruct (DECK_COLORS cfg); [done|]. cbn [length]. lia.
Qed.

Lemma validated_config_builds_witness :
  let g := Game_new [] StandardRules StandardDeck 0 0 [] [] in
  validate_deckconfig StandardDeck = [] /\
  snd (DeckBuilder.populate_deck StandardDeck g) = Ok tt /\
  len (_card_deck (deck (fst (DeckBuilder.populate_deck StandardDeck g))))
  = 108.
Proof.
  intros g.
  assert (H : validate_deckconfig StandardDeck = []) by reflexivity.
  destruct (validated_config_builds g StandardDeck H) as (Hok & Hlen & _).
  exact (conj H (conj Hok Hlen)).
Defined.

(* ================================================================== *)
(** * Further properties: the rule validation                          *)
(* ================================================================== *)

(** X18: [validate_rules] raises [AttributeError] exactly for a rule set
    with FORCE_PLAY_IF_POSSIBLE False (it then reads an attribute that no
    rule class has), so it never reports the Force Play issue; for every
    other rule set it returns the hand size issue when STARTING_HAND_SIZE
    exceeds 10 followed by the penalty issue when DRAW_PENALTY is
    negative. *)
Theorem validate_rules_force_play (r : GameRules) :
  (validate_rules r = Raise AttributeError
   <-> FORCE_PLAY_IF_POSSIBLE r = false) /\
  (FORCE_PLAY_IF_POSSIBLE r = true ->
   validate_rules r =
     Ok ((if 10 <? STARTING_HAND_SIZE r
          then ["Starting hand size may be too large"] else [])
         ++ (if DRAW_PENALTY r <? 0
             then ["Draw penalty cannot be negative"] else []))) /\
  (forall issues, validate_rules r = Ok issues ->
     "Force Play: False may result in insufficient cards if allow_multiple_decks is: False"
       ∉ issues).
Proof.
  unfold validate_rules.
  destruct (FORCE_PLAY_IF_POSSIBLE r); cbn [negb res_bind].
  - split; [split; discriminate|]. split.
    + intros _. by destruct (10 <? STARTING_HAND_SIZE r),
                  (DRAW_PENALTY r <? 0).
    + intros issues [= <-].
      destruct (10 <? STARTING_HAND_SIZE r), (DRAW_PENALTY r <? 0);
        cbn [app]; rewrite ?elem_of_cons, ?elem_of_nil;
        intros H; repeat destruct H as [H|H]; try discriminate; done.
  - split; [done|]. split; [discriminate|]. intros issues. discriminate.
Qed.

(* ================================================================== *)
(** * Further properties: the counter and the AI                       *)
(* ================================================================== *)

Lemma Counter_get_add {A} `{EqDecision A} (x y : A) (items : list (A * nat)) :
  Counter_get y (Counter.add x items)
  = (Counter_get y items + (if decide (y = x) then 1 else 0))%nat.
Proof.
  induction items as [|[z n] items IH]; cbn [Counter.add Counter_get].
  - destruct (decide (y = x)); [done|]. done.
  - destruct (decide (x = z)) as [->|Hxz]; cbn [Counter_get].
    + destruct (decide (y = z)); lia.
    + destruct (decide (y = z)) as [->|Hyz].
      * destruct (decide (z = x)); [congruence|lia].
      * exact IH.
Qed.

Lemma occurrences_cons {A} `{EqDecision A} (x y : A) (l : list A) :
  occurrences y (x :: l)
  = ((if decide (y = x) then 1 else 0) + occurrences y l)%nat.
Proof.
  unfold occurrences. cbn [List.filter].
  destruct (decide (y = x)) as [->|Hne].
  - by rewrite bool_decide_eq_true_2.
  - by rewrite bool_decide_eq_false_2 by congruence.
Qed.

Lemma Counter_get_fold {A} `{EqDecision A} (y : A) (l : list A) :
  forall items,
    Counter_get y (fold_left (fun items x => Counter.add x items) l items)
    = (Counter_get y items + occurrences y l)%nat.
Proof.
  induction l as [|x l IH]; intros items; cbn [fold_left].
  - unfold occurrences. cbn. lia.
  - rewrite IH, Counter_get_add, occurrences_cons. lia.
Qed.

Lemma Counter_get_of_list {A} `{EqDecision A} (y : A) (l : list A) :
  Counter_get y (Counter.of_list l) = occurrences y l.
Proof. unfold Counter.of_list. by rewrite Counter_get_fold. Qed.

Lemma Counter_keys_add {A} `{EqDecision A} (x : A) (items : list (A * nat)) :
  map fst (Counter.add x items)
  = if decide (x ∈ map fst items) then map fst items
    else map fst items ++ [x].
Proof.
  induction items as [|[z n] items IH]; cbn [Counter.add map fst].
  - destruct (decide (x ∈ [])) as [Hin|_]; [by apply elem_of_nil in Hin|done].
  - destruct (decide (x = z)) as [->|Hxz]; cbn [map fst].
    + by rewrite decide_True by apply list_elem_of_here.
    + rewrite IH. destruct (decide (x ∈ map fst items)) as [Hin|Hnin].
      * by rewrite decide_True by by apply list_elem_of_further.
      * rewrite decide_False; [done|].
        intros [?|?]%elem_of_cons; done.
Qed.

Lemma Counter_keys_NoDup {A} `{EqDecision A} (l : list A) :
  forall items,
    NoDup (map fst items) ->
    NoDup (map fst (fold_left (fun items x => Counter.add x items) l items)).
Proof.
  induction l as [|x l IH]; intros items Hnd; cbn [fold_left]; [done|].
  apply IH. rewrite Counter_keys_add.
  destruct (decide (x ∈ map fst items)); [done|].
  apply NoDup_app. split; [done|]. split; [|apply NoDup_singleton].
  intros y Hy ->%list_elem_of_singleton. done.
Qed.

Lemma Counter_get_elem {A} `{EqDecision A} (items : list (A * nat)) :
  NoDup (map fst items) ->
  forall item, item ∈ items -> Counter_get (fst item) items = snd item.
Proof.
  induction items as [|[z n] items IH]; intros Hnd item Hin.
  - by apply elem_of_nil in Hin.
  - cbn [map fst] in Hnd. apply NoDup_cons in Hnd as [Hz Hnd].
    cbn [Counter_get]. apply elem_of_cons in Hin as [->|Hin].
    + cbn [fst snd]. by rewrite decide_True.
    + rewrite decide_False; [by apply IH|].
      intros Heq. apply Hz. rewrite <- Heq.
      apply list_elem_of_fmap. by exists item.
Qed.

Lemma max_from_spec {A} (items : list (A * nat)) :
  forall best,
    Counter.max_from best items ∈ best :: items
    /\ forall item, item ∈ best :: items ->
         (snd item <= snd (Counter.max_from best items))%nat.
Proof.
  induction items as [|item items IH]; intros best; cbn [Counter.max_from].
  - split; [apply list_elem_of_here|].
    by intros it ->%list_elem_of_singleton.
  - destruct (Nat.ltb_spec (snd best) (snd item)) as [Hlt|Hge].
    + destruct (IH item) as [Hin Hmax]. split.
      * by apply list_elem_of_further.
      * intros it [->|Hit]%elem_of_cons.
        -- pose proof (Hmax item (list_elem_of_here _ _)). lia.
        -- by apply Hmax.
    + destruct (IH best) as [Hin Hmax]. split.
      * apply elem_of_cons in Hin as [->|Hin];
          [apply list_elem_of_here|by do 2 apply list_elem_of_further].
      * intros it [->|[->|Hit]%elem_of_cons]%elem_of_cons.
        -- apply Hmax, list_elem_of_here.
        -- pose proof (Hmax best (list_elem_of_here _ _)). lia.
        -- by apply Hmax, list_elem_of_further.
Qed.

Lemma occurrences_pos {A} `{EqDecision A} (x : A) (l : list A) :
  (0 < occurrences x l)%nat <-> x ∈ l.
Proof.
  induction l as [|y l IH].
  - split; [by cbn; lia|by intros ?%elem_of_nil].
  - rewrite occurrences_cons, elem_of_cons.
    destruct (decide (x = y)) as [->|Hne]; [split; [by left|lia]|].
    rewrite Nat.add_0_l, IH. split; [by right|by intros [?|?]].
Qed.

Lemma Counter_get_missing {A} `{EqDecision A} (y : A)
    (items : list (A * nat)) :
  y ∉ map fst items -> Counter_get y items = 0%nat.
Proof.
  induction items as [|[z n] items IH]; [done|].
  cbn [map fst Counter_get]. intros [Hne Hnin]%not_elem_of_cons.
  rewrite decide_False by done. by apply IH.
Qed.

(** [Counter(l).most_common(1)] for a list that is not empty: one item,
    an element of [l] with its number of occurrences, which no element
    exceeds. *)
Lemma most_common_1_spec {A} `{EqDecision A} (l : list A) :
  l <> [] ->
  exists c,
    Counter.most_common_1 (Counter.of_list l) = [(c, occurrences c l)]
    /\ c ∈ l
    /\ forall y, (occurrences y l <= occurrences c l)%nat.
Proof.
  intros Hne.
  assert (Hnd : NoDup (map fst (Counter.of_list l)))
    by (apply Counter_keys_NoDup; constructor).
  destruct (Counter.of_list l) as [|item items] eqn:Hitems.
  { destruct l as [|x l]; [done|].
    pose proof (Counter_get_of_list x (x :: l)) as Hx.
    rewrite Hitems, occurrences_cons, decide_True in Hx by done.
    cbn in Hx. lia. }
  cbn [Counter.most_common_1].
  destruct (max_from_spec items item) as [Hin Hmax].
  set (r := Counter.max_from item items) in *.
  pose proof (Counter_get_elem _ Hnd r Hin) as Hr.
  rewrite <- Hitems, Counter_get_of_list in Hr.
  assert (Hle : forall y, (occurrences y l <= occurrences (fst r) l)%nat).
  { intros y. rewrite Hr, <- (Counter_get_of_list y l), Hitems.
    destruct (decide (y ∈ map fst (item :: items))) as [Hy|Hy].
    - apply list_elem_of_fmap in Hy as (it & -> & Hit).
      rewrite (Counter_get_elem _ Hnd it Hit). by apply Hmax.
    - rewrite Counter_get_missing by done. lia. }
  exists (fst r). split; [|split; [|exact Hle]].
  - rewrite Hr. by destruct r.
  - destruct l as [|x l]; [done|]. apply occurrences_pos.
    pose proof (Hle x) as Hx.
    pose proof (proj2 (occurrences_pos x (x :: l)) (list_elem_of_here _ _)).
    lia.
Qed.

Lemma occurrences_filter {A} `{EqDecision A} (P : A -> bool) (y : A)
    (l : list A) :
  P y = true -> occurrences y (List.filter P l) = occurrences y l.
Proof.
  intros Hy. induction l as [|x l IH]; [done|].
  cbn [List.filter]. destruct (P x) eqn:Hx.
  - by rewrite !occurrences_cons, IH.
  - rewrite occurrences_cons, IH.
    destruct (decide (y = x)) as [->|_]; [congruence|done].
Qed.

Lemma elem_of_List_filter {A} (P : A -> bool) (l : list A) (x : A) :
  x ∈ List.filter P l <-> x ∈ l /\ P x = true.
Proof. rewrite !list_elem_of_In. apply filter_In. Qed.

(** The color the AI selects is a color. *)
Lemma auto_select_color_colored (g : Game) (r : PlayerRef) (p : Player) :
  TurnManager.get_current_player (tm g) = Ok r ->
  deref g r = Ok p ->
  exists c, AI.auto_select_color g = Ok c /\ c <> COLORLESS.
Proof.
  intros Hcur Hp. unfold AI.auto_select_color.
  rewrite Hcur. cbn [res_bind]. rewrite Hp. cbn [res_bind].
  set (colors := map color (Hand.get_hand (hand p))).
  set (keep := fun c : Color => negb (bool_decide (c = COLORLESS))).
  destruct (List.filter keep colors) as [|x l] eqn:Hfilter.
  - by exists RED.
  - destruct (most_common_1_spec (x :: l)) as (c & Hmc & Hin & _); [done|].
    rewrite Hmc. cbn. exists c. split; [done|].
    rewrite <- Hfilter in Hin. apply elem_of_List_filter in Hin as [_ Hc].
    subst keep. cbv beta in Hc. by apply negb_true_iff, bool_decide_eq_false in Hc.
Qed.

(** X19: for a game with a current player, [auto_select_color] never
    raises and never answers COLORLESS.  It answers RED when the hand has
    no colored card, and otherwise a color of the hand that no other color
    than COLORLESS outnumbers there. *)
Theorem auto_select_color_most_common (g : Game) (r : PlayerRef)
    (p : Player) :
  TurnManager.get_current_player (tm g) = Ok r ->
  deref g r = Ok p ->
  let colors := map color (Hand.get_hand (hand p)) in
  exists c,
    AI.auto_select_color g = Ok c
    /\ c <> COLORLESS
    /\ ((forall y, y ∈ colors -> y = COLORLESS) -> c = RED)
    /\ ((exists y, y ∈ colors /\ y <> COLORLESS) ->
        c ∈ colors
        /\ forall y, y <> COLORLESS ->
             (occurrences y colors <= occurrences c colors)%nat).
Proof.
  intros Hcur Hp colors. unfold AI.auto_select_color.
  rewrite Hcur. cbn [res_bind]. rewrite Hp. cbn [res_bind].
  fold colors.
  set (keep := fun c : Color => negb (bool_decide (c = COLORLESS))).
  assert (Hkeep : forall y, y ∈ List.filter keep colors
                            <-> y ∈ colors /\ y <> COLORLESS).
  { intros y. rewrite elem_of_List_filter. subst keep. cbv beta.
    rewrite negb_true_iff, bool_decide_eq_false. done. }
  destruct (List.filter keep colors) as [|x hand_colors] eqn:Hfilter.
  - exists RED. split; [done|]. split; [done|]. split; [done|].
    intros (y & Hy). apply Hkeep in Hy. by apply elem_of_nil in Hy.
  - destruct (most_common_1_spec (x :: hand_colors)) as (c & Hmc & Hin & Hmax);
      [done|].
    rewrite Hmc. cbn [py_index py_pos length Z.of_nat]. cbn.
    exists c. split; [done|].
    apply Hkeep in Hin as [Hin Hc]. rewrite <- Hfilter in Hmax.
    split; [done|]. split.
    + intros Hall. by specialize (Hall c Hin).
    + intros _. split; [done|]. intros y Hy.
      rewrite <- (occurrences_filter keep y colors),
              <- (occurrences_filter keep c colors).
      * apply Hmax.
      * subst keep. cbv beta. by rewrite bool_decide_eq_false_2.
      * subst keep. cbv beta. by rewrite bool_decide_eq_false_2.
Qed.

Lemma auto_select_color_most_common_witness :
  let colors := map color mixed_hand in
  TurnManager.get_current_player (tm mixed_hand_game) = Ok 0%nat /\
  deref mixed_hand_game 0
  = Ok (mkPlayer "Player 1" (mkHand mixed_hand) 1 (Some true)) /\
  exists c,
    AI.auto_select_color mixed_hand_game = Ok c
    /\ c <> COLORLESS
    /\ ((forall y, y ∈ colors -> y = COLORLESS) -> c = RED)
    /\ ((exists y, y ∈ colors /\ y <> COLORLESS) ->
        c ∈ colors
        /\ forall y, y <> COLORLESS ->
             (occurrences y colors <= occurrences c colors)%nat).
Proof.
  intros colors.
  assert (H1 : TurnManager.get_current_player (tm mixed_hand_game) = Ok 0%nat)
    by reflexivity.
  assert (H2 : deref mixed_hand_game 0
               = Ok (mkPlayer "Player 1" (mkHand mixed_hand) 1 (Some true)))
    by reflexivity.
  exact (conj H1 (conj H2
    (auto_select_color_most_common mixed_hand_game 0%nat _ H1 H2))).
Defined.

Lemma set_stdout_set_stdout (o1 o2 : list output) (g : Game) :
  set_stdout o2 (set_stdout o1 g) = set_stdout o2 g.
Proof. reflexivity. Qed.

(** The list comprehension over [validate_play]: the cards the rules
    accept, in order; only validation errors are printed. *)
Lemma filter_valid_spec (cards : list Card) :
  forall g,
    exists out,
      AI.filter_valid cards g =
        (set_stdout (stdout g ++ out) g,
         Ok (List.filter (validate_play_spec g) cards))
      /\ (ALLOW_FINAL_SPECIAL_CARD (rules g) = true -> out = []).
Proof.
  induction cards as [|c cards IH]; intros g.
  - exists []. rewrite app_nil_r, set_stdout_id. by split.
  - cbn [AI.filter_valid List.filter].
    pose proof (validate_play_returns_spec g c) as Hret.
    destruct (validate_play_only_state g c) as (line & Hstate & Hfinal).
    assert (Hv : GameEngine.validate_play c g
                 = (set_stdout (stdout g ++ line) g,
                    Ok (validate_play_spec g c)))
      by (rewrite (surjective_pairing (GameEngine.validate_play c g));
          by rewrite Hret, Hstate).
    destruct (IH (set_stdout (stdout g ++ line) g)) as (out & Hrest & Hout).
    exists (line ++ out). split.
    + erewrite bind_ok by exact Hv.
      erewrite bind_ok by exact Hrest. unfold ret.
      rewrite set_stdout_set_stdout. cbn [stdout set_stdout].
      by rewrite app_assoc.
    + intros H. rewrite Hfinal by done. by apply Hout.
Qed.

(** X20: for a game with a current player, [get_playable_cards] never
    raises; it returns the cards of that player's hand that the rules of
    [validate_play] accept, in hand order, and [None] when there is none.
    It changes nothing but the printed text, and with the final special
    card allowed it changes nothing at all. *)
Theorem get_playable_cards_are_the_legal_cards (g : Game) (r : PlayerRef)
    (p : Player) :
  TurnManager.get_current_player (tm g) = Ok r ->
  deref g r = Ok p ->
  let legal := List.filter (validate_play_spec g) (Hand.get_hand (hand p)) in
  exists out,
    AI.get_playable_cards g =
      (set_stdout (stdout g ++ out) g,
       Ok (match legal with [] => None | _ => Some legal end))
    /\ (ALLOW_FINAL_SPECIAL_CARD (rules g) = true -> out = []).
Proof.
  intros Hcur Hp legal. unfold AI.get_playable_cards.
  erewrite bind_reads by (by rewrite Hcur; cbn [res_bind]; rewrite Hp).
  destruct (filter_valid_spec (Hand.get_hand (hand p)) g)
    as (out & Hrun & Hout).
  exists out. split; [|done].
  erewrite bind_ok by exact Hrun. fold legal. by destruct legal.
Qed.

Lemma get_playable_cards_are_the_legal_cards_witness :
  TurnManager.get_current_player (tm mixed_hand_game) = Ok 0%nat /\
  deref mixed_hand_game 0
  = Ok (mkPlayer "Player 1" (mkHand mixed_hand) 1 (Some true)) /\
  List.filter (validate_play_spec mixed_hand_game) mixed_hand
  = [blue_7; wild_20; blue_3] /\
  exists out,
    AI.get_playable_cards mixed_hand_game =
      (set_stdout (stdout mixed_hand_game ++ out) mixed_hand_game,
       Ok (Some [blue_7; wild_20; blue_3]))
    /\ (ALLOW_FINAL_SPECIAL_CARD (rules mixed_hand_game) = true -> out = []).
Proof.
  assert (H1 : TurnManager.get_current_player (tm mixed_hand_game) = Ok 0%nat)
    by reflexivity.
  assert (H2 : deref mixed_hand_game 0
               = Ok (mkPlayer "Player 1" (mkHand mixed_hand) 1 (Some true)))
    by reflexivity.
  refine (conj H1 (conj H2 (conj eq_refl _))).
  exact (get_playable_cards_are_the_legal_cards mixed_hand_game 0%nat _ H1 H2).
Defined.

(** ** [pick_card] *)

Lemma set_random_tape_tail_nil (g : Game) :
  random_tape g = [] -> set_random_tape (tail (random_tape g)) g = g.
Proof. intros H. rewrite H. destruct g. cbn in *. by subst. Qed.

(** [l[randint(0, len(l) - 1)]]: [ValueError] for an empty list, and an
    element of the list otherwise, for one value of the random source. *)
Lemma choose_nil (g : Game) : AI.choose [] g = (g, Raise ValueError).
Proof. reflexivity. Qed.

Lemma choose_spec (l : list Card) (g : Game) :
  l <> [] ->
  exists c,
    AI.choose l g = (set_random_tape (tail (random_tape g)) g, Ok c)
    /\ c ∈ l.
Proof.
  intros Hne. pose proof (len_pos l Hne) as Hlen.
  unfold AI.choose, Random.randint.
  replace (0 <? len l - 1 + 1 - 0) with true
    by (symmetry; apply Z.ltb_lt; lia).
  replace (len l - 1 + 1 - 0) with (len l) by lia.
  unfold len at 1. rewrite Nat2Z.id.
  assert (Hpick : forall k : nat, (k < length l)%nat ->
            exists c, py_index l (0 + Z.of_nat k) = Ok c /\ c ∈ l).
  { intros k Hk. destruct (lookup_lt_is_Some_2 l k Hk) as [c Hc].
    exists c. split; [|by eapply list_elem_of_lookup_2].
    unfold py_index. rewrite py_pos_in_range by (unfold len; lia).
    cbn [res_bind]. rewrite Z.add_0_l, Nat2Z.id. by rewrite Hc. }
  assert (Hpos : (0 < length l)%nat) by (unfold len in Hlen; lia).
  rewrite bind_assoc. unfold bind at 1, Random.randbelow.
  destruct (random_tape g) as [|r t] eqn:Htape.
  - destruct (Hpick 0%nat Hpos) as (c & Hc & Hin). exists c.
    rewrite bind_ret. unfold lift_res. rewrite Hc.
    split; [|done]. f_equal.
    symmetry. rewrite <- Htape. by apply set_random_tape_tail_nil.
  - destruct (Hpick (r mod length l)%nat) as (c & Hc & Hin).
    { apply Nat.mod_upper_bound. lia. }
    exists c. rewrite bind_ret. unfold lift_res. rewrite Hc. by split.
Qed.

Lemma values_sum_add {A} `{EqDecision A} (x : A) (items : list (A * nat)) :
  Counter.values_sum (Counter.add x items) = Counter.values_sum items + 1.
Proof.
  unfold Counter.values_sum.
  induction items as [|[y n] items IH]; cbn [Counter.add]; [done|].
  destruct (decide (x = y)); cbn [fold_right snd] in *;
    rewrite ?Nat2Z.inj_succ; lia.
Qed.

(** [sum(Counter(l).values())] is the length of [l]. *)
Lemma values_sum_of_list {A} `{EqDecision A} (l : list A) :
  Counter.values_sum (Counter.of_list l) = len l.
Proof.
  unfold Counter.of_list.
  assert (H' : forall items,
            Counter.values_sum
              (fold_left (fun items x => Counter.add x items) l items)
            = Counter.values_sum items + len l).
  { induction l as [|x l IH]; intros items; cbn [fold_left].
    - unfold len. cbn. lia.
    - rewrite IH, values_sum_add. unfold len. cbn [length]. lia. }
  rewrite H'. cbn. lia.
Qed.

Lemma try_except_ok {S A} (m : M S A) handled h s s' a :
  m s = (s', Ok a) -> try_except m handled h s = (s', Ok a).
Proof. intros H. unfold try_except. by rewrite H. Qed.

Lemma try_except_handled {S A} (m : M S A) handled h s s' e :
  m s = (s', Raise e) -> handled e = true ->
  try_except m handled h s = h e s'.
Proof. intros H He. unfold try_except. by rewrite H, He. Qed.

(** The MAIN strategy. *)
Lemma main_strategy (cards : list Card) (g : Game) :
  cards <> [] ->
  exists c,
    (item <- lift_res
       (py_index (Counter.most_common_1 (Counter.of_list (map color cards)))
          0) ;;
     match
       List.filter (fun card => bool_decide (color card = fst item)) cards
     with
     | [] => AI.choose cards
     | _ =>
         AI.choose
           (List.filter (fun card => bool_decide (color card = fst item))
              cards)
     end) g
    = (set_random_tape (tail (random_tape g)) g, Ok c)
    /\ c ∈ cards
    /\ forall y, (occurrences y (map color cards)
                  <= occurrences (color c) (map color cards))%nat.
Proof.
  intros Hne.
  destruct (most_common_1_spec (map color cards)) as (col & Hmc & Hin & Hmax).
  { by destruct cards. }
  rewrite Hmc. erewrite bind_lift_res by reflexivity. cbn [fst].
  apply list_elem_of_fmap in Hin as (card & Hcol & Hcard).
  assert (Hsame : card ∈ List.filter
                    (fun card => bool_decide (color card = col)) cards).
  { apply elem_of_List_filter. split; [done|]. by apply bool_decide_eq_true. }
  destruct (List.filter (fun card => bool_decide (color card = col)) cards)
    as [|x same] eqn:Hfilter; [by apply elem_of_nil in Hsame|].
  destruct (choose_spec (x :: same) g) as (c & Hrun & Hc); [done|].
  exists c. split; [exact Hrun|].
  rewrite <- Hfilter in Hc. apply elem_of_List_filter in Hc as [Hc Hcc].
  apply bool_decide_eq_true in Hcc. split; [done|]. by rewrite Hcc.
Qed.

Lemma filter_length_split {A} (P : A -> bool) (l : list A) :
  (length (List.filter P l) + length (List.filter (fun x => negb (P x)) l)
   = length l)%nat.
Proof.
  induction l as [|x l IH]; [done|]. cbn [List.filter].
  destruct (P x); cbn [negb length]; lia.
Qed.

(** The two strategies that follow the Bully strategy. *)
Lemma after_bully (cards : list Card) (g : Game) :
  cards <> [] ->
  let numbers :=
    List.filter (fun card => bool_decide (card_type card = NUMBER)) cards in
  exists c,
    (allow <- gets (fun g => ALLOW_FINAL_SPECIAL_CARD (rules g)) ;;
     prevented <-
       (if negb allow then
          let card_type_count := Counter.of_list (map card_type cards) in
          let number_cards :=
            List.filter (fun card => bool_decide (card_type card = NUMBER))
              cards in
          if (len number_cards =? 1)
             && (Counter.values_sum card_type_count =? 2)
          then
            let non_number_cards :=
              List.filter
                (fun card => negb (bool_decide (card_type card = NUMBER)))
                cards in
            match non_number_cards with
            | [] => ret None
            | _ => card <- AI.choose non_number_cards ;; ret (Some card)
            end
          else ret None
        else ret None) ;;
     match prevented with
     | Some card => ret card
     | None =>
         let color_count := Counter.of_list (map color cards) in
         item <- lift_res (py_index (Counter.most_common_1 color_count) 0) ;;
         let most_common_color := fst item in
         let most_common_cards :=
           List.filter
             (fun card => bool_decide (color card = most_common_color))
             cards in
         match most_common_cards with
         | [] => AI.choose cards
         | _ => AI.choose most_common_cards
         end
     end) g
    = (set_random_tape (tail (random_tape g)) g, Ok c)
    /\ c ∈ cards
    /\ (ALLOW_FINAL_SPECIAL_CARD (rules g) = false ->
        length cards = 2%nat -> length numbers = 1%nat ->
        card_type c <> NUMBER)
    /\ (ALLOW_FINAL_SPECIAL_CARD (rules g) = true
        \/ length cards <> 2%nat \/ length numbers <> 1%nat ->
        forall y, (occurrences y (map color cards)
                   <= occurrences (color c) (map color cards))%nat).
Proof.
  intros Hne numbers. rewrite bind_gets.
  destruct (main_strategy cards g Hne) as (m & Hmain & Hm & Hcommon).
  destruct (ALLOW_FINAL_SPECIAL_CARD (rules g)) eqn:Hallow; cbn [negb].
  { rewrite bind_ret. exists m. by repeat split. }
  cbv zeta. subst numbers. rewrite values_sum_of_list.
  unfold len. rewrite length_map.
  destruct (Z.eqb_spec
              (Z.of_nat
                 (length (List.filter
                            (fun card => bool_decide (card_type card = NUMBER))
                            cards))) 1) as [Hn|Hn];
    [destruct (Z.eqb_spec (Z.of_nat (length cards)) 2) as [Hc|Hc]|];
    cbn [andb].
  - pose proof (filter_length_split
                  (fun card => bool_decide (card_type card = NUMBER)) cards)
      as Hsplit.
    destruct (List.filter
                (fun card => negb (bool_decide (card_type card = NUMBER)))
                cards) as [|x others] eqn:Hothers.
    { cbv beta in Hsplit. rewrite Hothers in Hsplit. cbn [length] in Hsplit.
      exfalso. lia. }
    destruct (choose_spec (x :: others) g) as (c & Hrun & Hin); [done|].
    rewrite bind_assoc. erewrite bind_ok by exact Hrun. rewrite !bind_ret.
    exists c. split; [done|].
    rewrite <- Hothers in Hin. apply elem_of_List_filter in Hin as [Hin Hty].
    apply negb_true_iff, bool_decide_eq_false in Hty.
    split; [done|]. split; [done|]. intros [?|[?|?]]; [done|exfalso; lia|exfalso; lia].
  - rewrite bind_ret. exists m. split; [done|]. split; [done|].
    split; [|done]. intros _ ? ?. exfalso. lia.
  - rewrite bind_ret. exists m. split; [done|]. split; [done|].
    split; [|done]. intros _ ? ?. exfalso. lia.
Qed.

(** X21: [pick_card] on a list of cards that is not empty never raises
    and returns one of these cards, for one value of the random source and
    no other change.  When the top card of the board carries DRAW and the
    list holds a card that carries DRAW, it returns such a card (the Bully
    strategy).  Otherwise, when the final special card is disallowed and
    the list is a Number card and one other card, it returns the other
    card; in every other case it returns a card of a color that no color
    outnumbers among the listed cards. *)
Theorem pick_card_picks_a_listed_card (cards : list Card) (g : Game) :
  cards <> [] ->
  let bully :=
    exists top d,
      Board.show_top_card_on_board (board g) = Some top
      /\ DRAW ∈ effect_types top /\ d ∈ cards /\ DRAW ∈ effect_types d in
  let numbers :=
    List.filter (fun card => bool_decide (card_type card = NUMBER)) cards in
  exists c,
    AI.pick_card cards g = (set_random_tape (tail (random_tape g)) g, Ok c)
    /\ c ∈ cards
    /\ (bully -> DRAW ∈ effect_types c)
    /\ (~ bully -> ALLOW_FINAL_SPECIAL_CARD (rules g) = false ->
        length cards = 2%nat -> length numbers = 1%nat ->
        card_type c <> NUMBER)
    /\ (~ bully ->
        ALLOW_FINAL_SPECIAL_CARD (rules g) = true
        \/ length cards <> 2%nat \/ length numbers <> 1%nat ->
        forall y, (occurrences y (map color cards)
                   <= occurrences (color c) (map color cards))%nat).
Proof.
  intros Hne bully numbers. unfold AI.pick_card. rewrite bind_gets.
  set (draws := List.filter
                  (fun card => bool_decide (DRAW ∈ effect_types card)) cards).
  assert (Hdraws : forall d, d ∈ draws <-> d ∈ cards /\ DRAW ∈ effect_types d).
  { intros d. subst draws. rewrite elem_of_List_filter.
    by rewrite bool_decide_eq_true. }
  destruct (after_bully cards g Hne) as (c0 & Hrest & Hc & Hprevent & Hmain).
  destruct (Board.show_top_card_on_board (board g)) as [top|] eqn:Htop.
  - destruct (bool_decide (DRAW ∈ effect_types top)) eqn:Hd.
    + apply bool_decide_eq_true in Hd.
      destruct draws as [|d draws'] eqn:Hdr.
      * erewrite bind_ok by reflexivity. cbv iota.
        assert (Hno : ~ bully).
        { intros (t & d & _ & _ & Hd1 & Hd2).
          apply (elem_of_nil d), Hdraws. by split. }
        exists c0. split; [exact Hrest|]. split; [done|].
        split; [done|]. split; intros _; done.
      * destruct (choose_spec (d :: draws') g) as (c & Hrun & Hin); [done|].
        erewrite bind_ok
          by (apply try_except_ok; erewrite bind_ok by exact Hrun;
              reflexivity).
        cbv iota. apply Hdraws in Hin as [Hin Hdraw].
        assert (Hyes : bully) by (exists top, c; by repeat split).
        exists c. split; [done|]. split; [done|]. split; [done|].
        split; intros Hno; by destruct Hno.
    + apply bool_decide_eq_false in Hd. rewrite bind_ret.
      assert (Hno : ~ bully).
      { intros (t & d & Ht & Hdt & _). congruence. }
      exists c0. split; [exact Hrest|]. split; [done|].
      split; [done|]. split; intros _; done.
  - rewrite bind_ret.
    assert (Hno : ~ bully) by (intros (t & d & Ht & _); congruence).
    exists c0. split; [exact Hrest|]. split; [done|].
    split; [done|]. split; intros _; done.
Qed.

Lemma pick_card_picks_a_listed_card_witness :
  [blue_draw_two; blue_7; wild_20] <> [] /\
  (exists c, (AI.pick_card [blue_draw_two; blue_7; wild_20] draw_two_on_top).2
             = Ok c /\ DRAW ∈ effect_types c) /\
  (exists c, (AI.pick_card [blue_draw_two; blue_7; wild_20] mixed_hand_game).2
             = Ok c /\ color c = BLUE).
Proof.
  assert (Hne : [blue_draw_two; blue_7; wild_20] <> []) by discriminate.
  split; [exact Hne|]. split.
  - destruct (pick_card_picks_a_listed_card _ draw_two_on_top Hne)
      as (c & Hrun & _ & Hbully & _).
    exists c. rewrite Hrun. split; [reflexivity|]. apply Hbully.
    exists red_draw_two, blue_draw_two.
    split; [reflexivity|]. split; [apply list_elem_of_here|].
    split; apply list_elem_of_here.
  - destruct (pick_card_picks_a_listed_card _ mixed_hand_game Hne)
      as (c & Hrun & _ & _ & _ & Hmain).
    exists c. rewrite Hrun. split; [reflexivity|].
    assert (Hno : ~ (exists top d : Card,
              Board.show_top_card_on_board (board mixed_hand_game) = Some top
              /\ DRAW ∈ effect_types top
              /\ d ∈ [blue_draw_two; blue_7; wild_20]
              /\ DRAW ∈ effect_types d)).
    { intros (t & d & [= <-] & Hd & _). by apply elem_of_nil in Hd. }
    pose proof (Hmain Hno (or_introl eq_refl)) as Hmax.
    pose proof (Hmax BLUE) as Hblue.
    destruct (color c); vm_compute in Hblue; try lia; reflexivity.
Defined.

(* ================================================================== *)
(** * Further properties: the color selection                          *)
(* ================================================================== *)

(** The menu of [get_color_selection] and its answer to a line. *)
Lemma get_color_selection_runs (as_int : option Z) (g : Game) :
  UserInput.get_color_selection (InputLine as_int) g =
    (set_stdout
       (stdout g ++ [Line "Choose color:"; Line "[1] Red"; Line "[2] Yellow";
                     Line "[3] Green"; Line "[4] Blue"]) g,
     Ok (match as_int with
         | Some 1 => RED
         | Some 2 => YELLOW
         | Some 3 => GREEN
         | Some 4 => BLUE
         | _ => RED
         end)).
Proof.
  unfold UserInput.get_color_selection. rewrite bind_print.
  cbn [imap UserInput.selectable_colors for_each fst snd].
  repeat (rewrite bind_assoc; rewrite bind_print).
  rewrite bind_ret.
  unfold set_stdout at 1 2 3 4 5. cbn [stdout].
  rewrite <- !app_assoc. cbn [app].
  destruct as_int as [n|]; [|reflexivity].
  unfold try_except.
  destruct (Z.leb_spec 0 (n - 1)) as [Hlo|Hlo];
    [destruct (Z.ltb_spec (n - 1) (len UserInput.selectable_colors))
       as [Hhi|Hhi]|]; cbn [andb].
  - assert (Hn : n = 1 \/ n = 2 \/ n = 3 \/ n = 4)
      by (unfold len in Hhi; cbn in Hhi; lia).
    by destruct Hn as [-> | [-> | [-> | ->]]].
  - unfold len in Hhi. cbn in Hhi.
    destruct n as [|n|n]; try reflexivity.
    destruct n as [n|n|]; try reflexivity;
      destruct n as [n|n|]; try reflexivity; try lia;
      destruct n as [n|n|]; try reflexivity; lia.
  - destruct n as [|n|n]; try reflexivity.
    destruct n as [n|n|]; try lia;
      destruct n as [n|n|]; try reflexivity; lia.
Qed.

(** At the end of the input the menu is printed and the [EOFError] of
    [input] leaves [get_color_selection]. *)
Lemma get_color_selection_eof (g : Game) :
  UserInput.get_color_selection InputEOF g =
    (set_stdout
       (stdout g ++ [Line "Choose color:"; Line "[1] Red"; Line "[2] Yellow";
                     Line "[3] Green"; Line "[4] Blue"]) g,
     Raise EOFError).
Proof.
  unfold UserInput.get_color_selection. rewrite bind_print.
  cbn [imap UserInput.selectable_colors for_each fst snd].
  repeat (rewrite bind_assoc; rewrite bind_print).
  rewrite bind_ret.
  unfold set_stdout at 1 2 3 4 5. cbn [stdout].
  rewrite <- !app_assoc. cbn [app].
  reflexivity.
Qed.

(** No answer of the menu is COLORLESS. *)
Lemma menu_answer_colored (as_int : option Z) :
  match as_int with
  | Some 1 => RED
  | Some 2 => YELLOW
  | Some 3 => GREEN
  | Some 4 => BLUE
  | _ => RED
  end <> COLORLESS.
Proof.
  destruct as_int as [[|n|n]|]; try discriminate.
  destruct n as [[n|n|]|[n|n|]|]; try discriminate;
    destruct n; discriminate.
Qed.

(** X22: [get_color_selection] prints the menu of the four colors and
    reads a line.  For a line it does not raise and never answers
    COLORLESS: it answers the color whose menu number was typed, and RED
    for any other number and for a line that is no number.  At the end of
    the input the [EOFError] of [input], which the [except] clause does
    not name, leaves the function after the menu was printed. *)
Theorem get_color_selection_answers_a_color (typed : Input) (g : Game) :
  let printed :=
    set_stdout
      (stdout g ++ [Line "Choose color:"; Line "[1] Red"; Line "[2] Yellow";
                    Line "[3] Green"; Line "[4] Blue"]) g in
  match typed with
  | InputLine as_int =>
      let answer :=
        match as_int with
        | Some 1 => RED
        | Some 2 => YELLOW
        | Some 3 => GREEN
        | Some 4 => BLUE
        | _ => RED
        end in
      UserInput.get_color_selection typed g = (printed, Ok answer)
      /\ answer <> COLORLESS
  | InputEOF =>
      UserInput.get_color_selection typed g = (printed, Raise EOFError)
  end.
Proof.
  intros printed. subst printed. destruct typed as [as_int|].
  - split.
    + apply get_color_selection_runs.
    + destruct as_int as [[|n|n]|]; try discriminate.
      destruct n as [[n|n|]|[n|n|]|]; try discriminate;
        destruct n; discriminate.
  - apply get_color_selection_eof.
Qed.

(* ================================================================== *)
(** * Further properties: the start of a game                          *)
(* ================================================================== *)






(* ================================================================== *)
(** * Further properties: playing a card                               *)
(* ================================================================== *)

Lemma deref_lookup (g : Game) (r : PlayerRef) (p : Player) :
  deref g r = Ok p <-> _players (tm g) !! r = Some p.
Proof.
  unfold deref. destruct (_players (tm g) !! r); split; congruence.
Qed.

(** X24: [execute_card_play] of a Number card, in a game and on a board
    that nobody observes.  The card is put on the board and the play is
    announced before the hand is touched: when the card object is in the
    player's hand its first occurrence is then removed and nothing else
    changes; when it is not, [ValueError] is raised and the card stays on
    the board. *)
Theorem execute_card_play_number_card (typed : Input) (g : Game)
    (r : PlayerRef) (p : Player) (card : Card) :
  deref g r = Ok p ->
  cls card = NumberCard ->
  board_observers (board g) = [] ->
  game_observers g = [] ->
  let announced :=
    set_stdout
      (stdout g ++
       [Line ("--> " +:+ name p +:+ " successfully played a "
              +:+ Color_value (effective_color card)
              +:+ (match card_value card with
                   | Some v => " " +:+ str_int v
                   | None => ""
                   end)
              +:+ " " +:+ CardType_value (card_type card))])
      (set_board
         (set_cards_on_board (_cards_on_board (board g) ++ [Some card])
            (board g)) g) in
  execute_card_play typed r card g =
    match Hand.remove_card card (hand p) with
    | Ok h =>
        (set_tm (set_players (<[r := set_hand h p]> (_players (tm g))) (tm g))
           announced, Ok tt)
    | Raise _ => (announced, Raise ValueError)
    end
  /\ Board.show_top_card_on_board
       (board (fst (execute_card_play typed r card g))) = Some card.
Proof.
  intros Hp Hcls Hboard Hgame announced.
  assert (Hrun : execute_card_play typed r card g =
    match Hand.remove_card card (hand p) with
    | Ok h =>
        (set_tm (set_players (<[r := set_hand h p]> (_players (tm g))) (tm g))
           announced, Ok tt)
    | Raise _ => (announced, Raise ValueError)
    end).
  { unfold execute_card_play, Board.add_card_to_board.
    rewrite bind_assoc, bind_modify. unfold Board.notify_observers.
    rewrite bind_assoc, bind_gets. simpl_game. rewrite Hboard.
    unfold notify. cbn [for_each]. rewrite bind_ret.
    erewrite bind_reads by exact Hp. rewrite bind_print.
    unfold execute_effect. rewrite Hcls. unfold NumberCard.execute_effect.
    rewrite bind_assoc, !bind_ret.
    unfold Player_remove_card. rewrite bind_assoc.
    erewrite bind_reads by exact Hp. rewrite bind_assoc.
    unfold Hand.remove_card.
    destruct (Hand.remove_first card (_cards (hand p))) as [l|e] eqn:Hrm;
      cbn [res_bind].
    - erewrite bind_lift_res by reflexivity. rewrite bind_modify.
      erewrite bind_reads.
      2:{ apply deref_lookup. simpl_game. apply list_lookup_insert_eq.
          apply deref_lookup in Hp. by eapply lookup_lt_Some. }
      unfold Game.notify_observers. rewrite bind_gets.
      subst announced. simpl_game. rewrite ?Hboard, ?Hgame. reflexivity.
    - assert (e = ValueError) as ->.
      { clear -Hrm. revert e Hrm.
        induction (_cards (hand p)) as [|c l IH]; intros e; cbn.
        - congruence.
        - destruct (Nat.eqb (oid c) (oid card)); [congruence|].
          destruct (Hand.remove_first card l); cbn; [congruence|].
          intros [= <-]. by apply IH. }
      unfold lift_res, bind. subst announced. simpl_game.
      by rewrite ?Hboard, ?Hgame. }
  split; [exact Hrun|]. rewrite Hrun.
  destruct (Hand.remove_card card (hand p)); cbn [fst]; subst announced;
    simpl_game;
    by apply (show_top_card_on_board_last _ (_cards_on_board (board g))).
Qed.

Lemma execute_card_play_number_card_witness :
  deref mixed_hand_game 0
  = Ok (mkPlayer "Player 1" (mkHand mixed_hand) 1 (Some true)) /\
  cls blue_7 = NumberCard /\
  board_observers (board mixed_hand_game) = [] /\
  game_observers mixed_hand_game = [] /\
  hand_of (fst (execute_card_play (InputLine None) 0 blue_7 mixed_hand_game)) 0
  = Some [red_5; wild_20; blue_3] /\
  Board.show_top_card_on_board
    (board (fst (execute_card_play (InputLine None) 0 blue_7 mixed_hand_game)))
  = Some blue_7.
Proof.
  assert (H1 : deref mixed_hand_game 0
               = Ok (mkPlayer "Player 1" (mkHand mixed_hand) 1 (Some true)))
    by reflexivity.
  assert (H2 : cls blue_7 = NumberCard) by reflexivity.
  assert (H3 : board_observers (board mixed_hand_game) = []) by reflexivity.
  assert (H4 : game_observers mixed_hand_game = []) by reflexivity.
  destruct (execute_card_play_number_card (InputLine None) mixed_hand_game 0%nat _ blue_7
              H1 H2 H3 H4) as [Hrun Htop].
  refine (conj H1 (conj H2 (conj H3 (conj H4 (conj _ Htop))))).
  rewrite Hrun. reflexivity.
Defined.

(* ================================================================== *)
(** * Further properties: the wild cards' color choice                 *)
(* ================================================================== *)

Lemma show_top_card_on_board_map (f : slot -> slot) (b : Board) :
  f None = None ->
  Board.show_top_card_on_board
    (set_cards_on_board (map f (_cards_on_board b)) b)
  = f (Board.show_top_card_on_board b).
Proof.
  intros Hf. unfold Board.show_top_card_on_board, set_cards_on_board.
  cbn [_cards_on_board].
  destruct (_cards_on_board b) as [|x l] using rev_ind;
    [symmetry; exact Hf|].
  rewrite map_app. cbn [map]. by rewrite !py_index_last.
Qed.

Lemma update_card_stdout (self : Card) (f : Card -> Card)
    (out : list output) (g : Game) :
  update_card self f (set_stdout out g) = set_stdout out (update_card self f g).
Proof. reflexivity. Qed.

(** X25: with WILD_CARD_ALLOW_PICK_COLOR on and a current player of a
    known kind, the color choice of a wild card.  For an AI player, and
    for a human player who types a line, it does not raise and assigns the
    card object a chosen color that is not COLORLESS: the color of
    [auto_select_color] for the AI player, the answer to the menu for the
    human player.  A WildCard or WildDrawFourCard then has this effective
    color, and so has the top card of the board when it is this card
    object; apart from the card object only the printed text changes.
    For a human player at the end of the input, the [EOFError] of [input]
    leaves the effect after the menu was printed, and no card object has
    changed. *)
Theorem wild_card_effect_chooses_a_color (typed : Input) (g : Game)
    (r : PlayerRef) (p : Player) (human : bool) (card : Card) :
  WILD_CARD_ALLOW_PICK_COLOR (rules g) = true ->
  TurnManager.get_current_player (tm g) = Ok r ->
  deref g r = Ok p ->
  _is_human p = Some human ->
  (human = true -> typed = InputEOF ->
   WildCard_effect.execute_effect typed card g =
     (set_stdout
        (stdout g ++ [Line "Choose color:"; Line "[1] Red"; Line "[2] Yellow";
                      Line "[3] Green"; Line "[4] Blue"]) g,
      Raise EOFError))
  /\
  (human = false \/ typed <> InputEOF ->
   exists c out,
     WildCard_effect.execute_effect typed card g =
       (set_stdout (stdout g ++ out)
          (update_card card (with_chosen_color c) g),
        Ok (with_chosen_color c card))
     /\ c <> COLORLESS
     /\ (human = false -> AI.auto_select_color g = Ok c /\ length out = 1%nat)
     /\ (human = true ->
         snd (UserInput.get_color_selection typed g) = Ok c)
     /\ (cls card = WildCard \/ cls card = WildDrawFourCard ->
         effective_color (with_chosen_color c card) = c
         /\ forall top,
              Board.show_top_card_on_board (board g) = Some top ->
              oid top = oid card ->
              cls top = cls card ->
              exists top',
                Board.show_top_card_on_board
                  (board (update_card card (with_chosen_color c) g))
                = Some top'
                /\ effective_color top' = c)).
Proof.
  intros Hallow Hcur Hp Hhuman.
  assert (Heff : forall c x,
            cls x = WildCard \/ cls x = WildDrawFourCard ->
            effective_color (with_chosen_color c x) = c).
  { intros c x [Hx|Hx]; unfold effective_color, with_chosen_color;
      cbn [cls _chosen_color]; by rewrite Hx. }
  assert (Htop : forall c,
            cls card = WildCard \/ cls card = WildDrawFourCard ->
            forall top,
              Board.show_top_card_on_board (board g) = Some top ->
              oid top = oid card ->
              cls top = cls card ->
              exists top',
                Board.show_top_card_on_board
                  (board (update_card card (with_chosen_color c) g))
                = Some top'
                /\ effective_color top' = c).
  { intros c Hcls top Htop Hoid Hsame.
    exists (with_chosen_color c top). split.
    - unfold update_card. simpl_game.
      etransitivity; [apply show_top_card_on_board_map; reflexivity|].
      rewrite Htop. cbn [option_map]. by rewrite Hoid, Nat.eqb_refl.
    - apply Heff. by rewrite Hsame. }
  unfold WildCard_effect.execute_effect. rewrite bind_gets, Hallow.
  erewrite bind_reads by (by rewrite Hcur; cbn [res_bind]; rewrite Hp).
  erewrite bind_lift_res
    by (unfold Player.is_human_controlled; by rewrite Hhuman).
  unfold WildCard_effect.set_chosen_color.
  destruct human; cbn [negb]; [destruct typed as [as_int|]|].
  - split; [by intros _ ?|]. intros _.
    pose proof (get_color_selection_runs as_int g) as Hmenu.
    erewrite bind_ok by exact Hmenu. run. rewrite update_card_stdout.
    eexists _, _. split.
    { unfold ret. simpl_game. rewrite <- app_assoc. reflexivity. }
    split; [apply menu_answer_colored|].
    split; [done|]. split.
    { intros _. by rewrite Hmenu. }
    intros Hcls. split; [by apply Heff|by apply Htop].
  - split; [|by intros [?|?]]. intros _ _.
    erewrite bind_raise by apply get_color_selection_eof. reflexivity.
  - split; [by intros ?|]. intros _.
    destruct (auto_select_color_colored g r p Hcur Hp) as (c & Hauto & Hc).
    erewrite bind_reads by exact Hauto. run.
    exists c. eexists [_]. split.
    { unfold ret. reflexivity. }
    split; [exact Hc|]. split; [done|]. split; [done|].
    intros Hcls. split; [by apply Heff|by apply Htop].
Qed.

Lemma wild_card_effect_chooses_a_color_witness :
  WILD_CARD_ALLOW_PICK_COLOR (rules mixed_hand_game) = true /\
  TurnManager.get_current_player (tm mixed_hand_game) = Ok 0%nat /\
  deref mixed_hand_game 0
  = Ok (mkPlayer "Player 1" (mkHand mixed_hand) 1 (Some true)) /\
  snd (WildCard_effect.execute_effect InputEOF wild_20 mixed_hand_game)
  = Raise EOFError /\
  exists c,
    snd (WildCard_effect.execute_effect (InputLine (Some 3)) wild_20
           mixed_hand_game)
    = Ok (with_chosen_color c wild_20)
    /\ c <> COLORLESS
    /\ effective_color (with_chosen_color c wild_20) = c.
Proof.
  assert (H1 : WILD_CARD_ALLOW_PICK_COLOR (rules mixed_hand_game) = true)
    by reflexivity.
  assert (H2 : TurnManager.get_current_player (tm mixed_hand_game) = Ok 0%nat)
    by reflexivity.
  assert (H3 : deref mixed_hand_game 0
               = Ok (mkPlayer "Player 1" (mkHand mixed_hand) 1 (Some true)))
    by reflexivity.
  refine (conj H1 (conj H2 (conj H3 (conj _ _)))).
  - destruct (wild_card_effect_chooses_a_color InputEOF mixed_hand_game 0%nat
                _ true wild_20 H1 H2 H3 eq_refl) as (Heof & _).
    by rewrite (Heof eq_refl eq_refl).
  - destruct (wild_card_effect_chooses_a_color (InputLine (Some 3))
                mixed_hand_game 0%nat _ true wild_20 H1 H2 H3 eq_refl)
      as (_ & Hline).
    destruct Hline as (c & out & Hrun & Hc & _ & _ & Hcls);
      [right; discriminate|].
    exists c. rewrite Hrun. split; [reflexivity|]. split; [exact Hc|].
    exact (proj1 (Hcls (or_introl eq_refl))).
Defined.

(* ================================================================== *)
(** * Further properties: the Draw Two effect                          *)
(* ================================================================== *)

Lemma py_pos_lt {A} (l : list A) (i : Z) (k : nat) :
  py_pos l i = Ok k -> (k < length l)%nat.
Proof.
  unfold py_pos. set (n := Z.of_nat (length l)).
  destruct (i <? 0);
    [destruct (Z.leb_spec 0 (i + n)), (Z.ltb_spec (i + n) n)
    |destruct (Z.leb_spec 0 i), (Z.ltb_spec i n)];
    cbn [andb]; intros [= <-]; subst n; lia.
Qed.

(** X26: the effect of a Draw Two card on a deck whose two top entries are
    card objects never raises: the next player in the direction of play
    takes these two cards, the top one first, and no other hand changes;
    with SKIP_TURN_ON_DRAW the turn then moves on by one player, and
    without it the turn stays where it is. *)
Theorem draw_two_effect_gives_two_cards (g : Game) (card : Card)
    (next : PlayerRef) (c1 c2 : Card) (rest : list slot) :
  TurnManager.get_next_player (tm g) = Ok next ->
  _card_deck (deck g) = rest ++ [Some c2; Some c1] ->
  exists objs out,
    DrawTwoCard_effect.execute_effect card g =
      (set_tm
         (set_current
            (if SKIP_TURN_ON_DRAW (rules g)
             then (_current (tm g) + step (tm g)) mod len (_players (tm g))
             else _current (tm g))
            (mkTurnManager (give next [c1; c2] (_players (tm g)))
               (_current (tm g)) (_clockwise (tm g)) (tm_observers (tm g))))
         (upd (give next [c1; c2] (_players (tm g))) rest objs out g),
       Ok card)
    /\ is_Some (_players (tm g) !! next).
Proof.
  intros Hnext Hdeck.
  assert (Hin : is_Some (_players (tm g) !! next)).
  { apply lookup_lt_is_Some. unfold TurnManager.get_next_player in Hnext.
    destruct (if _clockwise (tm g) then _ else _) as [i|e];
      cbn [res_bind] in Hnext; [|done].
    by eapply py_pos_lt. }
  assert (Hne : _players (tm g) <> []).
  { destruct Hin as [p Hp]. intros Hnil. by rewrite Hnil in Hp. }
  destruct (draw_loop_enough [c1; c2] g next 2 0 true rest Hin Hdeck)
    as (objs & out & Hdraw).
  unfold DrawTwoCard_effect.execute_effect.
  erewrite bind_reads by exact Hnext.
  unfold GameEngine.player_draw_card.
  change (range_len 2) with (length [c1; c2]).
  erewrite bind_ok by exact Hdraw. rewrite bind_gets.
  change (rules (upd _ _ _ _ g)) with (rules g).
  destruct (SKIP_TURN_ON_DRAW (rules g)).
  - rewrite bind_assoc, bind_print. unfold TurnManager.skip_turn.
    erewrite bind_ok.
    2:{ apply end_turn_spec. simpl_game.
        intros Hnil. apply (f_equal length) in Hnil.
        rewrite give_length in Hnil. by destruct (_players (tm g)). }
    cbv beta. unfold ret. eexists objs, _. split; [|done].
    f_equal. simpl_game. unfold len. rewrite give_length. reflexivity.
  - rewrite !bind_ret. exists objs, out. split; [|done]. reflexivity.
Qed.

Lemma draw_two_effect_gives_two_cards_witness :
  TurnManager.get_next_player (tm mixed_hand_game) = Ok 1%nat /\
  _card_deck (deck mixed_hand_game) = [] ++ [Some green_2; Some yellow_9] /\
  hand_of (fst (DrawTwoCard_effect.execute_effect red_draw_two
                  mixed_hand_game)) 1
  = Some [yellow_9; green_2] /\
  hand_of (fst (DrawTwoCard_effect.execute_effect red_draw_two
                  mixed_hand_game)) 0
  = Some mixed_hand /\
  _card_deck (deck (fst (DrawTwoCard_effect.execute_effect red_draw_two
                           mixed_hand_game))) = [].
Proof.
  assert (H1 : TurnManager.get_next_player (tm mixed_hand_game) = Ok 1%nat)
    by reflexivity.
  assert (H2 : _card_deck (deck mixed_hand_game)
               = [] ++ [Some green_2; Some yellow_9]) by reflexivity.
  destruct (draw_two_effect_gives_two_cards mixed_hand_game red_draw_two
              1%nat yellow_9 green_2 [] H1 H2) as (objs & out & Hrun & _).
  refine (conj H1 (conj H2 _)). rewrite Hrun. repeat split.
Defined.

(* ================================================================== *)
(** * Further properties: the AI turn                                  *)
(* ================================================================== *)

Lemma randint_1_2 (g : Game) :
  exists v,
    Random.randint 1 2 g = (set_random_tape (tail (random_tape g)) g, Ok v)
    /\ 1 <= v <= 2.
Proof.
  unfold Random.randint. change (0 <? 2 + 1 - 1) with true. cbv iota.
  change (Z.to_nat (2 + 1 - 1)) with 2%nat.
  unfold bind, Random.randbelow, ret.
  destruct (random_tape g) as [|r t] eqn:Htape.
  - exists 1. split; [|lia]. f_equal.
    symmetry. rewrite <- Htape. by apply set_random_tape_tail_nil.
  - exists (1 + Z.of_nat (r mod 2)). split; [reflexivity|].
    pose proof (Nat.mod_upper_bound r 2). lia.
Qed.

(** X27: the turn of an AI player who is the current player, holds no card
    that [validate_play] accepts, and finds a card object on top of the
    deck: after the pause drawn from the random source the player takes
    that one card, and nothing raises; no card is played. *)
Theorem ai_turn_without_legal_card_draws (typed : Input) (g : Game)
    (r : PlayerRef) (p : Player) (c : Card) (rest : list slot) :
  TurnManager.get_current_player (tm g) = Ok r ->
  deref g r = Ok p ->
  Forall (fun card => validate_play_spec g card = false)
    (Hand.get_hand (hand p)) ->
  _card_deck (deck g) = rest ++ [Some c] ->
  exists objs out,
    Game_handle_ai_turn typed r g =
      (upd (give r [c] (_players (tm g))) rest objs out
         (set_random_tape (tail (random_tape g)) g),
       Ok tt).
Proof.
  intros Hcur Hp Hnone Hdeck. unfold Game_handle_ai_turn.
  destruct (randint_1_2 g) as (v & Hpause & _).
  erewrite bind_ok by exact Hpause.
  set (g1 := set_random_tape (tail (random_tape g)) g).
  destruct (filter_valid_spec (Hand.get_hand (hand p)) g1)
    as (out1 & Hvalid & _).
  assert (Hnil : List.filter (validate_play_spec g1) (Hand.get_hand (hand p))
                 = []).
  { clear -Hnone. induction Hnone as [|card l Hcard _ IH]; [done|].
    cbn [List.filter].
    change (validate_play_spec g1 card) with (validate_play_spec g card).
    by rewrite Hcard. }
  rewrite Hnil in Hvalid. unfold AI.get_playable_cards.
  assert (Hcur1 : TurnManager.get_current_player (tm g1) = Ok r)
    by exact Hcur.
  assert (Hp1 : deref g1 r = Ok p) by exact Hp.
  rewrite bind_assoc.
  erewrite bind_reads by (by rewrite Hcur1; cbn [res_bind]; rewrite Hp1).
  rewrite bind_assoc. erewrite bind_ok by exact Hvalid. cbv beta iota.
  rewrite bind_ret.
  assert (Hin : is_Some (_players (tm (set_stdout (stdout g1 ++ out1) g1))
                         !! r)).
  { apply deref_lookup in Hp. by exists p. }
  destruct (draw_loop_enough [c] (set_stdout (stdout g1 ++ out1) g1) r 1 0
              true rest Hin Hdeck) as (objs & out & Hdraw).
  exists objs, out. unfold GameEngine.player_draw_card.
  change (range_len 1) with (length [c]). exact Hdraw.
Qed.

Lemma ai_turn_without_legal_card_draws_witness :
  TurnManager.get_current_player (tm stuck_ai_game) = Ok 1%nat /\
  deref stuck_ai_game 1 = Ok (mkPlayer "Danielle" (mkHand [red_5]) 2 (Some false)) /\
  Forall (fun card => validate_play_spec stuck_ai_game card = false) [red_5] /\
  _card_deck (deck stuck_ai_game) = [] ++ [Some green_2] /\
  hand_of (fst (Game_handle_ai_turn InputEOF 1 stuck_ai_game)) 1
  = Some [red_5; green_2] /\
  _cards_on_board (board (fst (Game_handle_ai_turn InputEOF 1 stuck_ai_game)))
  = [Some blue_7].
Proof.
  assert (H1 : TurnManager.get_current_player (tm stuck_ai_game) = Ok 1%nat)
    by reflexivity.
  assert (H2 : deref stuck_ai_game 1
               = Ok (mkPlayer "Danielle" (mkHand [red_5]) 2 (Some false)))
    by reflexivity.
  assert (H3 : Forall (fun card => validate_play_spec stuck_ai_game card
                                   = false) [red_5])
    by (repeat constructor).
  assert (H4 : _card_deck (deck stuck_ai_game) = [] ++ [Some green_2])
    by reflexivity.
  destruct (ai_turn_without_legal_card_draws InputEOF stuck_ai_game 1%nat _
              green_2 [] H1 H2 H3 H4) as (objs & out & Hrun).
  refine (conj H1 (conj H2 (conj H3 (conj H4 _)))).
  rewrite Hrun. split; reflexivity.
Defined.

(* ================================================================== *)
(** * Further properties: the display of a hand                        *)
(* ================================================================== *)

Lemma lines_from_spec (cards : list Card) :
  forall index,
    match Hand.lines_from index cards with
    | Ok lines =>
        Forall (fun c => is_Some (_card_id c)) cards
        /\ length lines = length cards
    | Raise e =>
        e = TypeError /\ exists c, c ∈ cards /\ _card_id c = None
    end.
Proof.
  induction cards as [|c cards IH]; intros index; cbn [Hand.lines_from].
  - by split.
  - unfold Card_str. destruct (_card_id c) as [id|] eqn:Hid; cbn [res_bind].
    + specialize (IH (index + 1)).
      destruct (Hand.lines_from (index + 1) cards) as [lines|e];
        cbn [res_bind].
      * destruct IH as [Hall Hlen]. split; [|by cbn [length]; rewrite Hlen].
        constructor; [by rewrite Hid|done].
      * destruct IH as (-> & c' & Hin & Hnone). split; [done|].
        exists c'. split; [by apply list_elem_of_further|done].
    + split; [done|]. exists c. split; [apply list_elem_of_here|done].
Qed.

(** X28: [show_hand] raises exactly when the hand holds a card without a
    card id, and then it raises [TypeError]; for a hand of cards with ids,
    as the factory makes them, it returns the text [Hand is empty] or one
    line for every card. *)
Theorem show_hand_raises_without_card_id (h : Hand) :
  match Hand.show_hand h with
  | Ok text =>
      Forall (fun c => is_Some (_card_id c)) (_cards h)
      /\ (_cards h = [] -> text = "Hand is empty")
      /\ (_cards h <> [] ->
          exists lines,
            text = String.concat newline lines
            /\ length lines = length (_cards h))
  | Raise e => e = TypeError /\ exists c, c ∈ _cards h /\ _card_id c = None
  end.
Proof.
  unfold Hand.show_hand. destruct (_cards h) as [|c cards] eqn:Hcards.
  - split; [constructor|]. by split.
  - pose proof (lines_from_spec (c :: cards) 0) as Hlines.
    destruct (Hand.lines_from 0 (c :: cards)) as [lines|e]; cbn [res_bind].
    + destruct Hlines as [Hall Hlen]. split; [done|]. split; [done|].
      intros _. by exists lines.
    + exact Hlines.
Qed.

(* ================================================================== *)
(** * Further properties: the observer's snapshots                     *)
(* ================================================================== *)

Lemma remove_data_elem (d : CardData) (l : list CardData) :
  d ∈ l ->
  exists l', GameContext.remove_data d l = Ok l' /\ d :: l' ≡ₚ l.
Proof.
  induction l as [|y l IH]; [by intros ?%elem_of_nil|].
  intros Hin. cbn [GameContext.remove_data].
  destruct (decide (y = d)) as [->|Hne]; [by exists l|].
  apply elem_of_cons in Hin as [->|Hin]; [done|].
  destruct (IH Hin) as (l' & -> & Hperm). cbn [res_bind].
  exists (y :: l'). split; [done|].
  rewrite Permutation_swap. by constructor.
Qed.

Lemma remove_data_not_elem (d : CardData) (l : list CardData) :
  d ∉ l -> GameContext.remove_data d l = Raise ValueError.
Proof.
  induction l as [|y l IH]; [done|].
  intros [Hne Hnin]%not_elem_of_cons. cbn [GameContext.remove_data].
  rewrite decide_False by done. by rewrite IH.
Qed.

(** The hand snapshot after a CARD_DRAWN event. *)
Lemma on_card_drawn_spec (o : GameContext) (c : Card) (p : Player) :
  GameContext.on_game_event CARD_DRAWN
    [("card", ObjCard c); ("player", ObjPlayer p);
     ("timestamp", ObjTimestamp)] o
  = (GameContext.set_hands
       (<[name p :=
            default [] (_hand_per_player_snapshot o !! name p)
            ++ [mkCardData (CardType_value (card_type c))
                  (Color_value (color c)) (card_value c)]]>
          (_hand_per_player_snapshot o)) o,
     Ok tt).
Proof.
  destruct o as [top hands deck_snap board_snap].
  unfold GameContext.on_game_event.
  erewrite bind_lift_res by reflexivity.
  erewrite bind_lift_res by reflexivity.
  unfold GameContext._update_player_held_cards.
  rewrite bind_modify. erewrite bind_lift_res by reflexivity.
  rewrite bind_gets. cbn [_hand_per_player_snapshot].
  destruct (decide (CARD_DRAWN = CARD_DRAWN)) as [_|]; [|done].
  destruct (decide (CARD_DRAWN = CARD_PLAYED)) as [|_]; [done|].
  rewrite bind_modify. unfold ret.
  destruct (hands !! name p) as [held|] eqn:Hheld.
  - cbn [_hand_per_player_snapshot]. by rewrite Hheld.
  - unfold GameContext.set_hands.
    cbn [_hand_per_player_snapshot _topcard_snapshot _deck_snapshot
         _board_snapshot].
    rewrite lookup_insert_eq. cbn [default].
    by rewrite insert_insert_eq.
Qed.

(** The CARD_PLAYED event, step by step. *)
Lemma on_card_played_spec (o : GameContext) (c : Card) (p : Player) :
  let d := mkCardData (CardType_value (card_type c)) (Color_value (color c))
             (card_value c) in
  GameContext.on_game_event CARD_PLAYED
    [("card", ObjCard c); ("player", ObjPlayer p);
     ("timestamp", ObjTimestamp)] o
  = match GameContext.remove_data d
            (default [] (_hand_per_player_snapshot o !! name p)) with
    | Raise e =>
        (match _hand_per_player_snapshot o !! name p with
         | None =>
             GameContext.set_hands
               (<[name p := []]> (_hand_per_player_snapshot o)) o
         | Some _ => o
         end, Raise e)
    | Ok l =>
        let o1 := GameContext.set_hands
                    (<[name p := l]> (_hand_per_player_snapshot o)) o in
        match _deck_snapshot o with
        | None => (o1, Raise KeyError)
        | Some cards =>
            match GameContext.remove_data d cards with
            | Ok cards' =>
                (GameContext.set_deck_snapshot (Some cards') o1, Ok tt)
            | Raise e => (o1, Raise e)
            end
        end
    end.
Proof.
  intros d. destruct o as [top hands deck_snap board_snap].
  unfold GameContext.on_game_event.
  erewrite bind_lift_res by reflexivity.
  erewrite bind_lift_res by reflexivity.
  unfold GameContext._update_player_held_cards.
  rewrite !bind_assoc, bind_modify. rewrite bind_assoc.
  erewrite bind_lift_res by reflexivity.
  rewrite bind_assoc, bind_gets.
  destruct (decide (CARD_PLAYED = CARD_DRAWN)) as [|_]; [done|].
  destruct (decide (CARD_PLAYED = CARD_PLAYED)) as [_|]; [|done].
  rewrite bind_assoc, bind_ret, !bind_assoc, bind_gets.
  cbn [_hand_per_player_snapshot]. subst d.
  set (d := mkCardData (CardType_value (card_type c)) (Color_value (color c))
              (card_value c)).
  destruct (hands !! name p) as [held|] eqn:Hheld.
  - cbn [_hand_per_player_snapshot _deck_snapshot]. rewrite Hheld.
    cbn [default from_option id].
    destruct (GameContext.remove_data d held) as [l|e] eqn:Hrm.
    + rewrite bind_assoc. erewrite bind_lift_res by reflexivity.
      rewrite bind_modify. erewrite bind_lift_res by reflexivity.
      unfold GameContext._update_deck_remove_card.
      erewrite bind_lift_res by reflexivity. rewrite bind_gets.
      unfold GameContext.set_hands at 1.
      cbn [_deck_snapshot _hand_per_player_snapshot _topcard_snapshot
           _board_snapshot].
      destruct deck_snap as [cards|]; [|reflexivity].
      fold d. destruct (GameContext.remove_data d cards) as [cards'|e] eqn:Hdeck.
      * erewrite bind_lift_res by reflexivity. reflexivity.
      * reflexivity.
    + reflexivity.
  - unfold GameContext.set_hands at 1 2.
    cbn [_hand_per_player_snapshot _deck_snapshot].
    rewrite lookup_insert_eq.
    cbn [default from_option id GameContext.remove_data].
    reflexivity.
Qed.

(** X29: the observer's snapshots over a card's life.  The CARD_DRAWN
    event never raises and appends the card's data to the snapshot of the
    player's hand.  The CARD_PLAYED event for the same card and player then
    takes one such entry out again, so that the hand snapshot is, up to
    order, what it was before; it goes on to take the card's data out of
    the deck snapshot, and raises [KeyError] when no card was ever added
    to the deck snapshot and [ValueError] when the snapshot lacks the
    card's data, with the hand snapshot already updated. *)
Theorem card_drawn_then_played (o : GameContext) (c : Card) (p : Player) :
  let data := [("card", ObjCard c); ("player", ObjPlayer p);
               ("timestamp", ObjTimestamp)] in
  let d := mkCardData (CardType_value (card_type c)) (Color_value (color c))
             (card_value c) in
  let held := default [] (_hand_per_player_snapshot o !! name p) in
  exists o1 o2 held' r,
    GameContext.on_game_event CARD_DRAWN data o = (o1, Ok tt)
    /\ o1 = GameContext.set_hands
              (<[name p := held ++ [d]]> (_hand_per_player_snapshot o)) o
    /\ GameContext.on_game_event CARD_PLAYED data o1 = (o2, r)
    /\ _hand_per_player_snapshot o2
       = <[name p := held']> (_hand_per_player_snapshot o)
    /\ held' ≡ₚ held
    /\ _topcard_snapshot o2 = _topcard_snapshot o
    /\ _board_snapshot o2 = _board_snapshot o
    /\ match _deck_snapshot o with
       | None => r = Raise KeyError /\ _deck_snapshot o2 = None
       | Some cards =>
           (d ∈ cards ->
            r = Ok tt
            /\ exists cards', _deck_snapshot o2 = Some cards'
                              /\ d :: cards' ≡ₚ cards)
           /\ (d ∉ cards ->
               r = Raise ValueError /\ _deck_snapshot o2 = Some cards)
       end.
Proof.
  intros data d held.
  destruct (remove_data_elem d (held ++ [d])) as (held' & Hrm & Hperm).
  { apply elem_of_app. right. apply list_elem_of_here. }
  assert (Hheld' : held' ≡ₚ held).
  { apply (Permutation_cons_inv (a := d)). rewrite Hperm.
    symmetry. apply Permutation_cons_append. }
  pose proof (on_card_drawn_spec o c p) as Hdrawn.
  fold data d held in Hdrawn.
  set (o1 := GameContext.set_hands
               (<[name p := held ++ [d]]> (_hand_per_player_snapshot o)) o)
    in *.
  pose proof (on_card_played_spec o1 c p) as Hplayed.
  cbv zeta in Hplayed. fold data d in Hplayed.
  assert (Hlook : _hand_per_player_snapshot o1 !! name p
                  = Some (held ++ [d]))
    by (unfold o1, GameContext.set_hands;
        cbn [_hand_per_player_snapshot]; apply lookup_insert_eq).
  rewrite Hlook in Hplayed. cbn [default from_option id] in Hplayed.
  rewrite Hrm in Hplayed.
  assert (Hhands : <[name p := held']> (_hand_per_player_snapshot o1)
                   = <[name p := held']> (_hand_per_player_snapshot o))
    by (unfold o1, GameContext.set_hands;
        cbn [_hand_per_player_snapshot]; apply insert_insert_eq).
  rewrite Hhands in Hplayed.
  assert (Hdeck : _deck_snapshot o1 = _deck_snapshot o)
    by reflexivity.
  rewrite Hdeck in Hplayed.
  destruct (_deck_snapshot o) as [cards|] eqn:Hsnap.
  - destruct (decide (d ∈ cards)) as [Hin|Hnin].
    + destruct (remove_data_elem d cards Hin) as (cards' & Hrm' & Hperm').
      rewrite Hrm' in Hplayed.
      eexists o1, _, held', _.
      split; [exact Hdrawn|]. split; [done|]. split; [exact Hplayed|].
      repeat split; try done. by exists cards'.
    + rewrite (remove_data_not_elem d cards Hnin) in Hplayed.
      eexists o1, _, held', _.
      split; [exact Hdrawn|]. split; [done|]. split; [exact Hplayed|].
      repeat split; done.
  - eexists o1, _, held', _.
    split; [exact Hdrawn|]. split; [done|]. split; [exact Hplayed|].
    repeat split; done.
Qed.

(* ================================================================== *)
(** * Further properties: Reverse between two players                  *)
(* ================================================================== *)

(** X30: in a game of two players the Reverse effect flips the direction
    and announces it, but the player who comes next is the same as
    without it: [get_next_player] answers the same player, and [end_turn]
    moves to the same index. *)
Theorem reverse_is_idle_for_two_players (g : Game) (card : Card) :
  length (_players (tm g)) = 2%nat ->
  let g' := fst (ReverseCard.execute_effect card g) in
  ReverseCard.execute_effect card g =
    (set_stdout (stdout g ++ [Line "* Direction of play reversed! *"])
       (set_tm (set_clockwise (negb (_clockwise (tm g))) (tm g)) g),
     Ok tt)
  /\ TurnManager.get_next_player (tm g') = TurnManager.get_next_player (tm g)
  /\ _current (tm (fst (TurnManager.end_turn g')))
     = _current (tm (fst (TurnManager.end_turn g))).
Proof.
  intros Htwo g'.
  assert (Hne : _players (tm g) <> []) by (by destruct (_players (tm g))).
  assert (Hlen : len (_players (tm g)) = 2) by (unfold len; by rewrite Htwo).
  assert (Hmod : (_current (tm g) - 1) mod 2 = (_current (tm g) + 1) mod 2).
  { replace (_current (tm g) - 1) with (_current (tm g) + 1 + (-1) * 2)
      by lia.
    apply Z_mod_plus_full. }
  assert (Hrun : ReverseCard.execute_effect card g =
    (set_stdout (stdout g ++ [Line "* Direction of play reversed! *"])
       (set_tm (set_clockwise (negb (_clockwise (tm g))) (tm g)) g),
     Ok tt)).
  { unfold ReverseCard.execute_effect.
    erewrite bind_ok by apply reverse_play_order_spec. reflexivity. }
  split; [exact Hrun|]. subst g'. rewrite Hrun. cbn [fst]. split.
  - unfold TurnManager.get_next_player. simpl_game. rewrite Hlen.
    rewrite !py_mod_pos by lia.
    destruct (_clockwise (tm g)); cbn [negb res_bind]; by rewrite Hmod.
  - rewrite !end_turn_spec by (simpl_game; done). cbn [fst]. simpl_game.
    rewrite Hlen. unfold step. simpl_game.
    destruct (_clockwise (tm g)); cbn [negb]; by rewrite ?Hmod.
Qed.

Lemma reverse_is_idle_for_two_players_witness :
  length (_players (tm mixed_hand_game)) = 2%nat /\
  TurnManager.get_next_player
    (tm (fst (ReverseCard.execute_effect (ReverseCard_init 23 RED (Some 23))
            mixed_hand_game)))
  = Ok 1%nat /\
  TurnManager.get_next_player (tm mixed_hand_game) = Ok 1%nat.
Proof.
  assert (H : length (_players (tm mixed_hand_game)) = 2%nat) by reflexivity.
  destruct (reverse_is_idle_for_two_players mixed_hand_game
              (ReverseCard_init 23 RED (Some 23)) H)
    as (_ & Hnext & _).
  refine (conj H (conj _ eq_refl)). rewrite Hnext. reflexivity.
Defined.
